(** * Action App front end: a shallow embedding of the hooks, helpers and
      page logic of the document-review Action App, with the properties the
      specification states about them.

    The embedding follows the TypeScript sources:
    - [src/lib/formatters.ts]            (formatCellValue, getContentType)
    - [src/types/action-schema.ts]       (VBDataType, Theme, getInputType)
    - [src/components/action/ActionFormField.tsx]
    - [src/components/action/PDFViewer.tsx]
    - [src/hooks/useActionContext.ts]
    - [src/hooks/useBucketFile.ts]
    - [src/pages/ActionPage.tsx]
    - [src/components/action/ActionFormRenderer.tsx]
    - [src/components/action/OutcomeButtons.tsx]
    - [src/components/document-viewer.tsx]
    - [src/components/entity-records-table.tsx]

    React state is modelled by explicit state passing: a hook's [useState]
    cells and [useRef] cells are the fields of a record, an event handler is
    a function on that record, and calls into the vendor SDK or the browser
    are recorded in a log.  The vendor SDK ([lib/uipath]) and the browser are
    external: whether one of their calls throws, and what it returns, is
    supplied by the environment; so is the number of times React invokes a
    state updater function.

    A JavaScript string is a [string] holding its text in UTF-8: a
    character of ASCII is one byte, any other character two to four bytes
    none of which is below 128. *)

From Stdlib Require Import ZArith NArith String Ascii List Bool Lia DecimalString.
From stdpp Require Import base option gmap strings list.
Import ListNotations.

Local Open Scope string_scope.
Local Open Scope list_scope.

Set Warnings "-register-all".

(** ** JavaScript data *)

(** What the embedding needs from the JavaScript platform and cannot
    compute itself: IEEE numbers and [Date] objects with their printing
    functions, the upper case of a character outside ASCII, and the text a
    built-in function prints as. *)
Class Platform := {
  number : Type;
  (** [Boolean(n)]: false for [0], [-0] and [NaN]. *)
  number_truthy : number -> bool;
  (** [String(n)] *)
  number_to_string : number -> string;
  (** an integer literal *)
  number_of_Z : Z -> number;
  (** [parseInt(s, 10)] and [parseFloat(s)] *)
  parseInt10 : string -> number;
  parseFloat : string -> number;
  date : Type;
  (** [String(d)] *)
  date_to_string : date -> string;
  (** [d.toLocaleDateString()] *)
  date_toLocaleDateString : date -> string;
  (** [new Date(s).toLocaleDateString()] *)
  string_toLocaleDateString : string -> string;
  (** [c.toUpperCase()] for a single character [c] outside ASCII that is
      one UTF-16 code unit (two or three bytes of UTF-8); the result may be
      longer than one character. *)
  char_toUpperCase : string -> string;
  (** [String(Object.prototype[name])] for a function-valued member of
      [Object.prototype]; the text is implementation-defined. *)
  native_function_to_string : string -> string;
}.

(** Values that travel in host messages and service payloads: JSON data,
    [undefined] and [Date] objects.  An object is its list of own
    properties in the order [Object.keys] enumerates them; it is a plain
    data record, so its prototype is [Object.prototype] with the inherited
    [toString]. *)
Inductive value `{Platform} : Type :=
| VUndefined
| VNull
| VBool (b : bool)
| VNum (n : number)
| VStr (s : string)
| VArr (items : list value)
| VObj (props : list (string * value))
| VDate (d : date).

(** [JSON.stringify] is taken from the platform as well. *)
Class Json `{Platform} := {
  json_stringify : value -> string;
}.

Module JS.
Section WithPlatform.
Context `{Platform}.

(** [k in obj] for a plain record. *)
Definition has_key (k : string) (props : list (string * value)) : bool :=
  existsb (fun p => String.eqb (fst p) k) props.

(** [obj.k] for an own property [k]; [undefined] when the record has no
    own property [k] and [Object.prototype] has no member of that name
    either (see [member_of]). *)
Fixpoint get (k : string) (props : list (string * value)) : value :=
  match props with
  | [] => VUndefined
  | (k', v) :: rest => if String.eqb k' k then v else get k rest
  end.

(** The function-valued members of [Object.prototype]. *)
Definition object_prototype_methods : list string :=
  ["constructor"; "hasOwnProperty"; "isPrototypeOf"; "propertyIsEnumerable";
   "toLocaleString"; "toString"; "valueOf";
   "__defineGetter__"; "__defineSetter__"; "__lookupGetter__"; "__lookupSetter__"].

Definition is_object_prototype_method (k : string) : bool :=
  existsb (String.eqb k) object_prototype_methods.

(** What a property read yields: a data value, or one of the functions of
    [Object.prototype]. *)
Inductive member :=
| Data (v : value)
| Method (name : string).

(** [obj[k]] for a plain record and any key: the own property when there
    is one; else the member the record inherits from [Object.prototype],
    which is [Object.prototype] itself for [__proto__] (an object without
    enumerable properties) and a function for the method names; else
    [undefined]. *)
Definition member_of (k : string) (props : list (string * value)) : member :=
  if has_key k props then Data (get k props)
  else if String.eqb k "__proto__" then Data (VObj [])
  else if is_object_prototype_method k then Method k
  else Data VUndefined.

(** [Object.keys(obj)] *)
Definition keys (props : list (string * value)) : list string :=
  map fst props.

(** [Boolean(v)]: the test of [if (v)], [!v], [v && ...] and [filter(Boolean)]. *)
Definition truthy (v : value) : bool :=
  match v with
  | VUndefined | VNull => false
  | VBool b => b
  | VNum n => number_truthy n
  | VStr s => negb (String.eqb s "")
  | VArr _ | VObj _ | VDate _ => true
  end.

(** [String(v)].  An array prints its elements separated by commas, with
    [null] and [undefined] printed as the empty string. *)
Fixpoint to_String (v : value) : string :=
  match v with
  | VUndefined => "undefined"
  | VNull => "null"
  | VBool b => if b then "true" else "false"
  | VNum n => number_to_string n
  | VStr s => s
  | VArr items =>
      String.concat ","
        (map (fun x => match x with
                       | VUndefined | VNull => ""
                       | _ => to_String x
                       end) items)
  | VObj _ => "[object Object]"
  | VDate d => date_to_string d
  end.

(** [s.length]: the number of UTF-16 code units of the text, one for a
    character of up to three bytes and two for a character of four bytes
    (a surrogate pair); the bytes that continue a character count nothing. *)
Fixpoint length (s : string) : nat :=
  match s with
  | EmptyString => 0%nat
  | String c rest =>
      let n := nat_of_ascii c in
      ((if (n <? 128)%nat then 1
        else if (n <? 192)%nat then 0
        else if (n <? 240)%nat then 1
        else 2) + length rest)%nat
  end.

(** Decimal printing of a length, as in a template literal. *)
Definition string_of_nat (n : nat) : string :=
  NilZero.string_of_uint (Nat.to_uint n).

Definition is_digit (c : ascii) : bool :=
  let n := nat_of_ascii c in (48 <=? n)%nat && (n <=? 57)%nat.

(** [toLowerCase] on the letters of ASCII: [A]-[Z] are mapped to [a]-[z];
    every other byte is kept, so that a character outside ASCII stays as
    it is.  The code compares the result with key words of ASCII letters. *)
Definition lower_ascii (c : ascii) : ascii :=
  let n := nat_of_ascii c in
  if (65 <=? n)%nat && (n <=? 90)%nat then ascii_of_nat (n + 32) else c.

Fixpoint toLowerCase (s : string) : string :=
  match s with
  | EmptyString => EmptyString
  | String c rest => String (lower_ascii c) (toLowerCase rest)
  end.

(** [s.startsWith(p)] *)
Definition startsWith (p s : string) : bool := String.prefix p s.

(** [s.includes(p)] *)
Fixpoint includes (p s : string) : bool :=
  String.prefix p s ||
  match s with
  | EmptyString => false
  | String _ rest => includes p rest
  end.

End WithPlatform.
End JS.

(** ** src/lib/formatters.ts *)

Module Formatters.
Section WithPlatform.
Context `{Json}.

(** The regular expression [/^\d{4}-\d{2}-\d{2}/]. *)
Definition iso_date_prefix (s : string) : bool :=
  match s with
  | String y1 (String y2 (String y3 (String y4 (String d1
      (String m1 (String m2 (String d2 (String a1 (String a2 _))))))))) =>
      JS.is_digit y1 && JS.is_digit y2 && JS.is_digit y3 && JS.is_digit y4
      && Ascii.eqb d1 "-" && JS.is_digit m1 && JS.is_digit m2
      && Ascii.eqb d2 "-" && JS.is_digit a1 && JS.is_digit a2
  | _ => false
  end.

Fixpoint formatCellValue (v : value) : string :=
  match v with
  | VNull | VUndefined => "-"
  | VArr items =>
      if (length items =? 0)%nat then "-"
      else if (length items <=? 3)%nat
           then String.concat ", " (map formatCellValue items)
           else JS.string_of_nat (length items) ++ " items"
  | VObj props =>
      if JS.has_key "displayName" props then JS.to_String (JS.get "displayName" props)
      else if JS.has_key "name" props then JS.to_String (JS.get "name" props)
      else if JS.has_key "title" props then JS.to_String (JS.get "title" props)
      else if JS.has_key "label" props then JS.to_String (JS.get "label" props)
      else if JS.has_key "value" props then JS.to_String (JS.get "value" props)
      else if JS.has_key "id" props && (length (JS.keys props) =? 1)%nat
           then JS.to_String (JS.get "id" props)
      else let json := json_stringify v in
           if (50 <? JS.length json)%nat then "Complex data" else json
  | VDate d =>
      (* a Date is an object without any of the keys above *)
      date_toLocaleDateString d
  | VBool b => if b then "Yes" else "No"
  | VStr s => if iso_date_prefix s then string_toLocaleDateString s else s
  | VNum n => number_to_string n
  end.

(** [formatCellValue(obj[k])].  A function is no array, and its [typeof]
    is ['function'], so it falls through to [String(value)]. *)
Definition formatCell (m : JS.member) : string :=
  match m with
  | JS.Data v => formatCellValue v
  | JS.Method name => native_function_to_string name
  end.

Inductive content_type := CtImage | CtPdf | CtText | CtUnknown.

(** [path.split('.').pop()]: the part of [path] after its last dot, the
    whole path when it has none. *)
Fixpoint last_segment (acc s : string) : string :=
  match s with
  | EmptyString => acc
  | String c rest =>
      if Ascii.eqb c "." then last_segment EmptyString rest
      else last_segment (acc ++ String c EmptyString) rest
  end.

Definition str_in (s : string) (l : list string) : bool :=
  existsb (String.eqb s) l.

(** The first half of [getContentType]: what a truthy [mimeType] decides
    on its own.  [mimeType] is [None] for an omitted argument. *)
Definition content_type_of_mime (mimeType : option string) : option content_type :=
  match mimeType with
  | Some m =>
      if String.eqb m "" then None
      else if JS.startsWith "image/" m then Some CtImage
      else if String.eqb m "application/pdf" then Some CtPdf
      else if JS.startsWith "text/" m then Some CtText
      else None
  | None => None
  end.

(** The second half: the extension of [path]. *)
Definition content_type_of_extension (path : string) : content_type :=
  let extension := JS.toLowerCase (last_segment EmptyString path) in
  if str_in extension ["jpg"; "jpeg"; "png"; "gif"; "webp"; "svg"; "bmp"] then CtImage
  else if String.eqb extension "pdf" then CtPdf
  else if str_in extension ["txt"; "md"; "json"; "xml"; "csv"; "log"] then CtText
  else CtUnknown.

Definition getContentType (path : string) (mimeType : option string) : content_type :=
  match content_type_of_mime mimeType with
  | Some c => c
  | None => content_type_of_extension path
  end.

End WithPlatform.
End Formatters.

(** ** src/types/action-schema.ts *)

(** The enum [Theme]; at run time a theme is the enum's string value, and
    the host's [newTheme] is an unchecked string. *)
Module Theme.
Definition AutoTheme : string := "autoTheme".
Definition Light : string := "light".
Definition Dark : string := "dark".
Definition LightHC : string := "light-hc".
Definition DarkHC : string := "dark-hc".
End Theme.

(** The enum [VBDataType] with its run-time string values. *)
Inductive VBDataType :=
| VB_String | VB_Int32 | VB_Boolean | VB_Int16 | VB_Int64
| VB_UInt16 | VB_UInt32 | VB_UInt64 | VB_Double | VB_Single
| VB_Decimal | VB_DateOnly | VB_Guid | VB_Object | VB_DataTable
| VB_IResource.

Definition vb (t : VBDataType) : string :=
  match t with
  | VB_String => "System.String"
  | VB_Int32 => "System.Int32"
  | VB_Boolean => "System.Boolean"
  | VB_Int16 => "System.Int16"
  | VB_Int64 => "System.Int64"
  | VB_UInt16 => "System.UInt16"
  | VB_UInt32 => "System.UInt32"
  | VB_UInt64 => "System.UInt64"
  | VB_Double => "System.Double"
  | VB_Single => "System.Single"
  | VB_Decimal => "System.Decimal"
  | VB_DateOnly => "System.DateOnly"
  | VB_Guid => "System.Guid"
  | VB_Object => "System.Object"
  | VB_DataTable => "System.Data.DataTable"
  | VB_IResource => "UiPath.Platform.ResourceHandling.IResource"
  end.

Definition all_VBDataTypes : list VBDataType :=
  [VB_String; VB_Int32; VB_Boolean; VB_Int16; VB_Int64; VB_UInt16;
   VB_UInt32; VB_UInt64; VB_Double; VB_Single; VB_Decimal; VB_DateOnly;
   VB_Guid; VB_Object; VB_DataTable; VB_IResource].

Definition integer_types : list VBDataType :=
  [VB_Int16; VB_Int32; VB_Int64; VB_UInt16; VB_UInt32; VB_UInt64].

Definition floating_types : list VBDataType :=
  [VB_Double; VB_Single; VB_Decimal].

(** A [case] label list of a [switch] over strings. *)
Definition one_of (s : string) (cases : list VBDataType) : bool :=
  existsb (fun t => String.eqb s (vb t)) cases.

(** [getInputType(vbType: VBDataType | string)]: the argument is any string. *)
Definition getInputType (vbType : string) : string :=
  if one_of vbType integer_types then "number"
  else if one_of vbType floating_types then "number"
  else if String.eqb vbType (vb VB_Boolean) then "checkbox"
  else if String.eqb vbType (vb VB_DateOnly) then "date"
  else "text".

Inductive TaskStatus := Unassigned | Pending | Completed.

Module ActionSchema.
Section WithPlatform.
Context `{Platform}.

(** [ActionCenterData].  The handler tests [data], [baseUrl], [orgName],
    [tenantName], [token], [theme] and [language] for truthiness before use;
    [data] may be absent ([None]) in a message, the strings may be empty. *)
Record ActionCenterData := {
  taskId : number;
  title : string;
  status : TaskStatus;
  isReadOnly : bool;
  data : option (gmap string value);
  action : string;
  organizationUnitId : number;
  organizationUnitFullyQualifiedName : string;
  baseUrl : string;
  orgName : string;
  tenantName : string;
  token : string;
  language : string;
  theme : string;
  newToken : option string;
  newLanguage : option string;
  newTheme : option string;
}.

(** [obj.k] on a form data bag. *)
Definition field (fd : gmap string value) (k : string) : value :=
  default VUndefined (fd !! k).

End WithPlatform.
End ActionSchema.

(** Truthiness of [string] and of [string | null | undefined]. *)
Definition str_truthy (s : string) : bool := negb (String.eqb s "").

Definition opt_truthy (o : option string) : bool :=
  match o with
  | Some s => str_truthy s
  | None => false
  end.

(** ** src/components/action/ActionFormField.tsx *)

Module ActionFormField.
Section WithPlatform.
Context `{Platform}.

Record props := {
  name : string;
  label : string;
  type : string;
  required : bool;
  readOnly : bool;
  value_ : value;
  description : option string;
  placeholder : option string;
  isList : bool;
}.

Inductive step_attr := StepOne | StepAny.

(** The control an [ActionFormField] renders, with the attributes the
    component computes and the value its change handler passes to the
    caller's [onChange]. *)
Inductive control :=
| Checkbox (id : string) (checked disabled : bool) (onCheckedChange : value -> value)
| Textarea (id val placeholder_ : string) (disabled : bool) (rows : nat)
    (onChange : string -> value)
| Input (id type_ : string) (val : value) (placeholder_ : option string)
    (disabled : bool) (step : option step_attr) (onChange : string -> value).

Record view := {
  rendered : control;
  label_text : string;
  required_mark : bool;
  description_text : option string;
}.

(** [placeholder || `Enter ${label.toLowerCase()}`] *)
Definition placeholder_or_default (p : props) : string :=
  if opt_truthy (placeholder p) then default "" (placeholder p)
  else "Enter " ++ JS.toLowerCase (label p).

(** [value ?? ''] *)
Definition nullish_empty (v : value) : value :=
  match v with
  | VNull | VUndefined => VStr ""
  | _ => v
  end.

Definition isLongText (p : props) : bool :=
  String.eqb (type p) (vb VB_String) &&
  (JS.includes "comment" (JS.toLowerCase (name p))
   || JS.includes "description" (JS.toLowerCase (name p))
   || JS.includes "note" (JS.toLowerCase (name p))
   || JS.includes "reason" (JS.toLowerCase (name p))
   || JS.includes "message" (JS.toLowerCase (name p))).

Definition ActionFormField (p : props) : view :=
  let inputType := getInputType (type p) in
  let described := if opt_truthy (description p) then description p else None in
  let mk c := {| rendered := c; label_text := label p;
                 required_mark := required p; description_text := described |} in
  if String.eqb (type p) (vb VB_Boolean) then
    mk (Checkbox (name p) (JS.truthy (value_ p)) (readOnly p) (fun checked => checked))
  else if isLongText p then
    mk (Textarea (name p) (JS.to_String (nullish_empty (value_ p)))
          (placeholder_or_default p) (readOnly p) 4 VStr)
  else if String.eqb inputType "number" then
    let isInteger := one_of (type p) integer_types in
    mk (Input (name p) "number" (nullish_empty (value_ p))
          (Some (placeholder_or_default p)) (readOnly p)
          (Some (if isInteger then StepOne else StepAny))
          (fun val => if String.eqb val "" then VUndefined
                      else VNum (if isInteger then parseInt10 val else parseFloat val)))
  else if String.eqb (type p) (vb VB_DateOnly) then
    mk (Input (name p) "date" (VStr (JS.to_String (nullish_empty (value_ p))))
          None (readOnly p) None VStr)
  else
    mk (Input (name p) inputType (VStr (JS.to_String (nullish_empty (value_ p))))
          (Some (placeholder_or_default p)) (readOnly p) None VStr).

(** The kind of widget, which is what a reader of the form sees. *)
Inductive widget := WCheckbox | WTextarea | WNumberInput | WDateInput | WTextInput
                  | WOtherInput (t : string).

Definition widget_of (c : control) : widget :=
  match c with
  | Checkbox _ _ _ _ => WCheckbox
  | Textarea _ _ _ _ _ _ => WTextarea
  | Input _ t _ _ _ _ _ =>
      if String.eqb t "number" then WNumberInput
      else if String.eqb t "date" then WDateInput
      else if String.eqb t "text" then WTextInput
      else WOtherInput t
  end.

(** The widget that belongs to an HTML input type of [getInputType]. *)
Definition widget_of_input_type (t : string) : widget :=
  if String.eqb t "checkbox" then WCheckbox
  else if String.eqb t "number" then WNumberInput
  else if String.eqb t "date" then WDateInput
  else if String.eqb t "text" then WTextInput
  else WOtherInput t.

End WithPlatform.
End ActionFormField.

(** ** Effects: state, exceptions and a call log *)

(** A thrown JavaScript value: an [Error] with its message, or anything
    else ([err instanceof Error] is false). *)
Inductive thrown :=
| ThrownError (message : string)
| ThrownOther.

(** [err instanceof Error ? err.message : fallback] *)
Definition message_or (fallback : string) (err : thrown) : string :=
  match err with
  | ThrownError m => m
  | ThrownOther => fallback
  end.

Inductive outcome (A : Type) :=
| Returned (a : A)
| Threw (e : thrown).
Arguments Returned {A} a.
Arguments Threw {A} e.

Module Eff.

(** A computation over a state [S] that returns or throws. *)
Definition M (S A : Type) : Type := S -> outcome A * S.

Definition ret {S A} (a : A) : M S A := fun s => (Returned a, s).

Definition bind {S A B} (m : M S A) (k : A -> M S B) : M S B :=
  fun s =>
    match m s with
    | (Returned a, s') => k a s'
    | (Threw e, s') => (Threw e, s')
    end.

Definition throw {S A} (e : thrown) : M S A := fun s => (Threw e, s).

Definition gets {S A} (f : S -> A) : M S A := fun s => (Returned (f s), s).

Definition modify {S} (f : S -> S) : M S unit := fun s => (Returned tt, f s).

(** [try { body } catch (err) { handler(err) }] *)
Definition try_catch {S A} (body : M S A) (handler : thrown -> M S A) : M S A :=
  fun s =>
    match body s with
    | (Returned a, s') => (Returned a, s')
    | (Threw e, s') => handler e s'
    end.

(** [try { body } catch (err) { handler(err) } finally { final }]: [final]
    runs on every path; the completion of the [try]/[catch] part stands
    unless [final] throws itself. *)
Definition try_catch_finally {S A} (body : M S A) (handler : thrown -> M S A)
    (final : M S unit) : M S A :=
  fun s =>
    let '(r, s1) := try_catch body handler s in
    match final s1 with
    | (Returned _, s2) => (r, s2)
    | (Threw e, s2) => (Threw e, s2)
    end.

(** The settlement of an awaited promise: a rejection is thrown at the
    [await].  While the caller is suspended other tasks run; [meanwhile] is
    what they do to the state. *)
Definition await {S E A} (meanwhile : S -> S) (settled : E + A)
    (reject : E -> thrown) : M S A :=
  fun s =>
    match settled with
    | inl e => (Threw (reject e), meanwhile s)
    | inr a => (Returned a, meanwhile s)
    end.

Definition exec {S A} (m : M S A) (s : S) : S := snd (m s).
Definition result {S A} (m : M S A) (s : S) : outcome A := fst (m s).

End Eff.

Declare Scope eff_scope.
Delimit Scope eff_scope with eff.
Notation "x <- m ;; k" := (Eff.bind m (fun x => k))
  (at level 100, m at next level, right associativity) : eff_scope.
Notation "m ;;; k" := (Eff.bind m (fun _ => k))
  (at level 100, right associativity) : eff_scope.

(** ** src/hooks/useActionContext.ts *)

Module ActionContext.
Section WithPlatform.
Context `{Platform}.

Import ActionSchema.

(** Calls the hook makes outside itself: the SDK's [taskEvents] service,
    the helpers of [lib/uipath], and the browser's [alert].  Console output
    is not recorded. *)
Inductive sdk_call :=
| GetTaskDetailsFromActionCenter        (* registers handleActionCenterMessage *)
| InitializeInActionCenter              (* the "ready" signal *)
| InitializeSdk (baseUrl orgName tenantName token : string)
| UpdateToken (newToken : string)
| DataChanged (d : gmap string value)
| CompleteTask (outcome_ : string) (d : gmap string value)
| Alert (outcome_ : string) (d : gmap string value).

(** How the [taskEvents] service behaves at one handler run: for each
    method, [Some e] when the call throws [e].  [getUiPathClient],
    [initializeSdk] and [updateToken] of [lib/uipath] return the module's
    client, replace it, and forward the token; they are taken to return
    normally.

    [updateField] and [updateFormData] call [dataChanged] from inside the
    updater function they pass to [setFormData], and React may invoke an
    updater more than once for one [setFormData] call: a production build
    invokes it once, a development build under [<StrictMode>] (which
    [main.tsx] mounts the page in) twice.  [updater_reruns] has one entry
    for every invocation after the first, saying what [dataChanged] does
    there. *)
Record taskEvents := {
  getTaskDetailsFromActionCenter_throws : option thrown;
  initializeInActionCenter_throws : option thrown;
  dataChanged_throws : option thrown;
  completeTask_throws : option thrown;
  updater_reruns : list (option thrown);
}.

(** The cells of the hook: five [useState] cells and two [useRef] cells. *)
Record hook := {
  taskData : option ActionCenterData;
  formData : gmap string value;
  theme : string;
  language : string;
  hasActionCenterData : bool;
  initialDataRef : gmap string value;
  isInitializedRef : bool;
}.

(** The hook together with the log of its outside calls, oldest first. *)
Record world := {
  cells : hook;
  sdk_log : list sdk_call;
}.

Definition on_cells (f : hook -> hook) (w : world) : world :=
  {| cells := f (cells w); sdk_log := sdk_log w |}.

Definition setTaskData (d : option ActionCenterData) (h : hook) : hook :=
  {| taskData := d; formData := formData h; theme := theme h;
     language := language h; hasActionCenterData := hasActionCenterData h;
     initialDataRef := initialDataRef h; isInitializedRef := isInitializedRef h |}.

Definition setFormData (fd : gmap string value) (h : hook) : hook :=
  {| taskData := taskData h; formData := fd; theme := theme h;
     language := language h; hasActionCenterData := hasActionCenterData h;
     initialDataRef := initialDataRef h; isInitializedRef := isInitializedRef h |}.

Definition setTheme (t : string) (h : hook) : hook :=
  {| taskData := taskData h; formData := formData h; theme := t;
     language := language h; hasActionCenterData := hasActionCenterData h;
     initialDataRef := initialDataRef h; isInitializedRef := isInitializedRef h |}.

Definition setLanguage (l : string) (h : hook) : hook :=
  {| taskData := taskData h; formData := formData h; theme := theme h;
     language := l; hasActionCenterData := hasActionCenterData h;
     initialDataRef := initialDataRef h; isInitializedRef := isInitializedRef h |}.

Definition setHasActionCenterData (b : bool) (h : hook) : hook :=
  {| taskData := taskData h; formData := formData h; theme := theme h;
     language := language h; hasActionCenterData := b;
     initialDataRef := initialDataRef h; isInitializedRef := isInitializedRef h |}.

Definition set_initialDataRef (fd : gmap string value) (h : hook) : hook :=
  {| taskData := taskData h; formData := formData h; theme := theme h;
     language := language h; hasActionCenterData := hasActionCenterData h;
     initialDataRef := fd; isInitializedRef := isInitializedRef h |}.

Definition set_isInitializedRef (b : bool) (h : hook) : hook :=
  {| taskData := taskData h; formData := formData h; theme := theme h;
     language := language h; hasActionCenterData := hasActionCenterData h;
     initialDataRef := initialDataRef h; isInitializedRef := b |}.

Local Open Scope eff_scope.

Definition update (f : hook -> hook) : Eff.M world unit :=
  Eff.modify (on_cells f).

(** An outside call: it is logged, then returns or throws. *)
Definition call (c : sdk_call) (throws : option thrown) : Eff.M world unit :=
  fun w =>
    let w' := {| cells := cells w; sdk_log := sdk_log w ++ [c] |} in
    match throws with
    | Some e => (Threw e, w')
    | None => (Returned tt, w')
    end.

Definition when (b : bool) (m : Eff.M world unit) : Eff.M world unit :=
  if b then m else Eff.ret tt.

(** The first render: [useState] and [useRef] initial values, with
    [initialData = {}] when the option is omitted. *)
Definition initial_hook (initialData : option (gmap string value)) : hook :=
  let initialData := default ∅ initialData in
  {| taskData := None;
     formData := initialData;
     theme := Theme.Light;
     language := "en";
     hasActionCenterData := false;
     initialDataRef := initialData;
     isInitializedRef := false |}.

Definition initial_world (initialData : option (gmap string value)) : world :=
  {| cells := initial_hook initialData; sdk_log := [] |}.

Definition handleActionCenterMessage (d : ActionCenterData) : Eff.M world unit :=
  update (setTaskData (Some d));;;
  update (setHasActionCenterData true);;;
  when (str_truthy (baseUrl d) && str_truthy (orgName d)
        && str_truthy (tenantName d) && str_truthy (token d))
    (call (InitializeSdk (baseUrl d) (orgName d) (tenantName d) (token d)) None);;;
  when (opt_truthy (newToken d))
    (call (UpdateToken (default "" (newToken d))) None);;;
  (if opt_truthy (newTheme d) then update (setTheme (default "" (newTheme d)))
   else when (str_truthy (ActionSchema.theme d)) (update (setTheme (ActionSchema.theme d))));;;
  (if opt_truthy (newLanguage d) then update (setLanguage (default "" (newLanguage d)))
   else when (str_truthy (ActionSchema.language d))
          (update (setLanguage (ActionSchema.language d))));;;
  match data d with
  | Some fd =>
      update (setFormData fd);;;
      update (set_initialDataRef fd)
  | None => Eff.ret tt
  end.

(** The body of the mount effect. *)
Definition init_effect (sdk : taskEvents) : Eff.M world unit :=
  initialized <- Eff.gets (fun w => isInitializedRef (cells w));;
  if initialized then Eff.ret tt
  else
    update (set_isInitializedRef true);;;
    Eff.try_catch
      (call GetTaskDetailsFromActionCenter (getTaskDetailsFromActionCenter_throws sdk);;;
       call InitializeInActionCenter (initializeInActionCenter_throws sdk))
      (fun _ => Eff.ret tt).

(** The side effect of one invocation of an updater:
    [try { sdk.taskEvents.dataChanged(updated) } catch { }]. *)
Definition notify (updated : gmap string value) (throws : option thrown)
    : Eff.M world unit :=
  Eff.try_catch (call (DataChanged updated) throws) (fun _ => Eff.ret tt).

Fixpoint each {A} (f : A -> Eff.M world unit) (l : list A) : Eff.M world unit :=
  match l with
  | [] => Eff.ret tt
  | a :: rest => f a;;; each f rest
  end.

(** The updater computes [updated] from the same [prev] at each of its
    invocations, notifies the host, and returns [updated], which becomes
    the state. *)
Definition updateField (sdk : taskEvents) (fieldName : string) (v : value)
    : Eff.M world unit :=
  prev <- Eff.gets (fun w => formData (cells w));;
  let updated := <[fieldName := v]> prev in
  each (notify updated) (dataChanged_throws sdk :: updater_reruns sdk);;;
  update (setFormData updated).

(** [{ ...prev, ...data }]: the keys of [data] win. *)
Definition updateFormData (sdk : taskEvents) (d : gmap string value)
    : Eff.M world unit :=
  prev <- Eff.gets (fun w => formData (cells w));;
  let updated := d ∪ prev in
  each (notify updated) (dataChanged_throws sdk :: updater_reruns sdk);;;
  update (setFormData updated).

Definition completeTask (sdk : taskEvents) (outcome_ : string) : Eff.M world unit :=
  fd <- Eff.gets (fun w => formData (cells w));;
  Eff.try_catch (call (CompleteTask outcome_ fd) (completeTask_throws sdk))
    (fun _ => call (Alert outcome_ fd) None).

Definition resetForm (sdk : taskEvents) : Eff.M world unit :=
  baseline <- Eff.gets (fun w => initialDataRef (cells w));;
  update (setFormData baseline);;;
  Eff.try_catch (call (DataChanged baseline) (dataChanged_throws sdk))
    (fun _ => Eff.ret tt).

(** What the hook returns to the component at a render. *)
Record UseActionContextResult := {
  r_taskData : option ActionCenterData;
  r_formData : gmap string value;
  r_isReadOnly : bool;
  r_theme : string;
  r_language : string;
  r_hasActionCenterData : bool;
}.

Definition useActionContext_result (h : hook) : UseActionContextResult :=
  {| r_taskData := taskData h;
     r_formData := formData h;
     r_isReadOnly := match taskData h with
                     | Some d => isReadOnly d
                     | None => false
                     end;
     r_theme := theme h;
     r_language := language h;
     r_hasActionCenterData := hasActionCenterData h |}.

(** What can happen to a mounted hook: React enters the mount effect, the
    SDK delivers a host message to the registered callback, or the
    component calls one of the returned functions. *)
Inductive event :=
| EnterInitEffect (sdk : taskEvents)
| HostMessage (d : ActionCenterData)
| CallUpdateField (sdk : taskEvents) (fieldName : string) (v : value)
| CallUpdateFormData (sdk : taskEvents) (d : gmap string value)
| CallCompleteTask (sdk : taskEvents) (outcome_ : string)
| CallResetForm (sdk : taskEvents).

Definition handler (e : event) : Eff.M world unit :=
  match e with
  | EnterInitEffect sdk => init_effect sdk
  | HostMessage d => handleActionCenterMessage d
  | CallUpdateField sdk f v => updateField sdk f v
  | CallUpdateFormData sdk d => updateFormData sdk d
  | CallCompleteTask sdk o => completeTask sdk o
  | CallResetForm sdk => resetForm sdk
  end.

Definition step (w : world) (e : event) : world := Eff.exec (handler e) w.

Definition run (w : world) (es : list event) : world := fold_left step es w.

Definition is_host_message (e : event) : bool :=
  match e with HostMessage _ => true | _ => false end.

Definition is_init_effect (e : event) : bool :=
  match e with EnterInitEffect _ => true | _ => false end.

Definition is_local_edit (e : event) : bool :=
  match e with
  | CallUpdateField _ _ _ | CallUpdateFormData _ _ | CallResetForm _ => true
  | _ => false
  end.

(** The data of the last host message that carried data, [fallback] when
    there is none. *)
Definition last_host_data (fallback : gmap string value) (es : list event)
    : gmap string value :=
  fold_left (fun acc e => match e with
                          | HostMessage d => default acc (data d)
                          | _ => acc
                          end) es fallback.

Definition count_call (p : sdk_call -> bool) (w : world) : nat :=
  length (List.filter p (sdk_log w)).

Definition is_registration (c : sdk_call) : bool :=
  match c with GetTaskDetailsFromActionCenter => true | _ => false end.

Definition is_ready_signal (c : sdk_call) : bool :=
  match c with InitializeInActionCenter => true | _ => false end.

End WithPlatform.
End ActionContext.

(** ** src/hooks/useBucketFile.ts *)

(** A [Blob]: its MIME type and its bytes. *)
Record Blob := {
  blob_type : string;
  blob_bytes : list Byte.byte;
}.

Module BucketFile.
Section WithPlatform.
Context `{Platform}.

Local Open Scope eff_scope.

Record BucketFileInfo := {
  uri : string;
  httpMethod : string;
  requiresAuth : bool;
  headers : list (string * string);
}.

Record UseBucketFileOptions := {
  bucketId : number;
  folderId : number;
  path : string;
  expiryInMinutes : option number;
}.

(** The part of a [fetch] response the hook reads. *)
Record Response := {
  ok : bool;
  statusText : string;
}.

(** The four [useState] cells of the hook. *)
Record hook := {
  fileInfo : option BucketFileInfo;
  fileContent : option Blob;
  loading : bool;
  error : option string;
}.

Inductive net_call :=
| SdkGetReadUri (options : UseBucketFileOptions)
| HttpFetch (uri_ method : string) (headers_ : list (string * string))
| ReadBlob.

Record world := {
  cells : hook;
  net_log : list net_call;
}.

Definition initial_hook : hook :=
  {| fileInfo := None; fileContent := None; loading := false; error := None |}.

Definition setFileInfo (i : option BucketFileInfo) (h : hook) : hook :=
  {| fileInfo := i; fileContent := fileContent h; loading := loading h; error := error h |}.

Definition setFileContent (b : option Blob) (h : hook) : hook :=
  {| fileInfo := fileInfo h; fileContent := b; loading := loading h; error := error h |}.

Definition setLoading (l : bool) (h : hook) : hook :=
  {| fileInfo := fileInfo h; fileContent := fileContent h; loading := l; error := error h |}.

Definition setError (e : option string) (h : hook) : hook :=
  {| fileInfo := fileInfo h; fileContent := fileContent h; loading := loading h; error := e |}.

Definition on_cells (f : hook -> hook) (w : world) : world :=
  {| cells := f (cells w); net_log := net_log w |}.

Definition update (f : hook -> hook) : Eff.M world unit :=
  Eff.modify (on_cells f).

Definition log (c : net_call) : Eff.M world unit :=
  Eff.modify (fun w => {| cells := cells w; net_log := net_log w ++ [c] |}).

(** What the outside does during one call of the hook's functions: how
    each awaited promise settles, and what other tasks do to the cells
    while the call is suspended at its first, second and third [await]. *)
Record environment := {
  getReadUri_settles : thrown + BucketFileInfo;
  fetch_settles : thrown + Response;
  blob_settles : thrown + Blob;
  meanwhile : nat -> hook -> hook;
}.

Definition suspended (env : environment) (n : nat) : world -> world :=
  on_cells (meanwhile env n).

Definition getReadUri (env : environment) (options : UseBucketFileOptions)
    : Eff.M world (option BucketFileInfo) :=
  update (setLoading true);;;
  update (setError None);;;
  Eff.try_catch_finally
    (response <- (log (SdkGetReadUri options);;;
                  Eff.await (suspended env 0) (getReadUri_settles env) id);;
     let info := {| uri := uri response; httpMethod := httpMethod response;
                    requiresAuth := requiresAuth response;
                    headers := headers response |} in
     update (setFileInfo (Some info));;;
     Eff.ret (Some info))
    (fun err =>
       let errorMessage := message_or "Failed to get file read URI" err in
       update (setError (Some errorMessage));;;
       update (setFileInfo None);;;
       Eff.ret None)
    (update (setLoading false)).

Definition fetchFileContent (env : environment) (options : UseBucketFileOptions)
    : Eff.M world (option Blob) :=
  update (setLoading true);;;
  update (setError None);;;
  Eff.try_catch_finally
    (uriResponse <- (log (SdkGetReadUri options);;;
                     Eff.await (suspended env 0) (getReadUri_settles env) id);;
     let info := {| uri := uri uriResponse; httpMethod := httpMethod uriResponse;
                    requiresAuth := requiresAuth uriResponse;
                    headers := headers uriResponse |} in
     update (setFileInfo (Some info));;;
     fetchResponse <- (log (HttpFetch (uri uriResponse) (httpMethod uriResponse)
                              (headers uriResponse));;;
                       Eff.await (suspended env 1) (fetch_settles env) id);;
     (if negb (ok fetchResponse)
      then Eff.throw (ThrownError ("Failed to fetch file: " ++ statusText fetchResponse))
      else Eff.ret tt);;;
     blob <- (log ReadBlob;;;
              Eff.await (suspended env 2) (blob_settles env) id);;
     update (setFileContent (Some blob));;;
     Eff.ret (Some blob))
    (fun err =>
       let errorMessage := message_or "Failed to fetch file content" err in
       update (setError (Some errorMessage));;;
       update (setFileContent None);;;
       Eff.ret None)
    (update (setLoading false)).

Definition reset : Eff.M world unit :=
  update (setFileInfo None);;;
  update (setFileContent None);;;
  update (setLoading false);;;
  update (setError None).

(** The failure a call of [getReadUri] meets, if any. *)
Inductive getReadUri_fails (env : environment) : thrown -> Prop :=
| ReadUriRejected e :
    getReadUri_settles env = inl e ->
    getReadUri_fails env e.

(** The failure a call of [fetchFileContent] meets, if any: the SDK call
    is rejected, the HTTP request is rejected, the response is not [ok], or
    reading the body is rejected. *)
Inductive fetchFileContent_fails (env : environment) : thrown -> Prop :=
| FetchUriRejected e :
    getReadUri_settles env = inl e ->
    fetchFileContent_fails env e
| FetchRejected r e :
    getReadUri_settles env = inr r ->
    fetch_settles env = inl e ->
    fetchFileContent_fails env e
| FetchNotOk r resp :
    getReadUri_settles env = inr r ->
    fetch_settles env = inr resp ->
    ok resp = false ->
    fetchFileContent_fails env
      (ThrownError ("Failed to fetch file: " ++ statusText resp))
| FetchBlobRejected r resp e :
    getReadUri_settles env = inr r ->
    fetch_settles env = inr resp ->
    ok resp = true ->
    blob_settles env = inl e ->
    fetchFileContent_fails env e.

(** The calls made since [before], and "at most once" for each service. *)
Definition calls_since (before after : world) : list net_call :=
  drop (length (net_log before)) (net_log after).

Definition is_sdk_call (c : net_call) : bool :=
  match c with SdkGetReadUri _ => true | _ => false end.

Definition is_http_call (c : net_call) : bool :=
  match c with HttpFetch _ _ _ => true | _ => false end.

Definition no_retry (calls : list net_call) : Prop :=
  (length (List.filter is_sdk_call calls) <= 1)%nat /\
  (length (List.filter is_http_call calls) <= 1)%nat.

End WithPlatform.
End BucketFile.

(** ** src/components/action/PDFViewer.tsx *)

Module PDFViewer.

Record props := {
  file : option string;
  showControls : bool;
}.

(** The [useState] cells that drive navigation. *)
Record state := {
  numPages : Z;
  pageNumber : Z;
  loading : bool;
  error : option string;
}.

Definition initial : state :=
  {| numPages := 0; pageNumber := 1; loading := true; error := None |}.

Definition onLoadSuccess (n : Z) (s : state) : state :=
  {| numPages := n; pageNumber := 1; loading := false; error := None |}.

Definition onLoadError (message : string) (s : state) : state :=
  {| numPages := numPages s; pageNumber := pageNumber s; loading := false;
     error := Some message |}.

Definition setPageNumber (f : Z -> Z) (s : state) : state :=
  {| numPages := numPages s; pageNumber := f (pageNumber s); loading := loading s;
     error := error s |}.

Definition goToPrevPage (s : state) : state :=
  setPageNumber (fun prev => Z.max 1 (prev - 1)) s.

(** The callback closes over the [numPages] of the render that made it. *)
Definition goToNextPage (s : state) : state :=
  let numPages := numPages s in
  setPageNumber (fun prev => Z.min numPages (prev + 1)) s.

(** Which of the three returns of the component a render takes. *)
Inductive screen := NoFile | ErrorScreen | Viewer.

Definition render (p : props) (s : state) : screen :=
  if negb (opt_truthy (file p)) then NoFile
  else if opt_truthy (error s) then ErrorScreen
  else Viewer.

Definition viewer_shown (p : props) (s : state) : bool :=
  match render p s with Viewer => true | _ => false end.

(** [disabled={pageNumber <= 1 || loading}] and
    [disabled={pageNumber >= numPages || loading}] *)
Definition prev_disabled (s : state) : bool :=
  (pageNumber s <=? 1)%Z || loading s.

Definition next_disabled (s : state) : bool :=
  (pageNumber s >=? numPages s)%Z || loading s.

(** What can happen to a mounted viewer: the [Document] reports a load
    result, or the user clicks a navigation button.  The buttons exist only
    in the viewer screen and only with [showControls], and a disabled button
    does not click.  Each event comes with the props of the render it
    happens in. *)
Inductive event :=
| LoadSuccess (n : Z)
| LoadError (message : string)
| ClickPrev
| ClickNext.

Definition step (s : state) (pe : props * event) : state :=
  let '(p, e) := pe in
  match e with
  | LoadSuccess n => onLoadSuccess n s
  | LoadError m => onLoadError m s
  | ClickPrev =>
      if viewer_shown p s && showControls p && negb (prev_disabled s)
      then goToPrevPage s else s
  | ClickNext =>
      if viewer_shown p s && showControls p && negb (next_disabled s)
      then goToNextPage s else s
  end.

Definition run (es : list (props * event)) : state :=
  fold_left step es initial.

Definition page_invariant (s : state) : Prop :=
  (1 <= pageNumber s)%Z /\ ((1 <= numPages s)%Z -> (pageNumber s <= numPages s)%Z).

End PDFViewer.

(** ** src/pages/ActionPage.tsx *)

Module ActionPage.
Section WithPlatform.
Context `{Platform}.

Import ActionSchema.
Import Formatters.

Definition INITIAL_DATA : gmap string value :=
  list_to_map
    [("bucketId", VNum (number_of_Z 123456));
     ("folderId", VNum (number_of_Z 789012));
     ("path1", VStr "/documents/sample1.pdf");
     ("path2", VStr "/documents/sample2.jpg");
     ("path3", VStr "/documents/sample3.txt");
     ("entityName", VStr "SampleEntity")].

Record DocumentInfo := {
  url : option string;
  contentType : content_type;
  loading : bool;
  error : option string;
}.

Definition no_document : DocumentInfo :=
  {| url := None; contentType := CtUnknown; loading := false; error := None |}.

Inductive slot := Doc1 | Doc2 | Doc3.

Definition slot_eqb (a b : slot) : bool :=
  match a, b with
  | Doc1, Doc1 | Doc2, Doc2 | Doc3, Doc3 => true
  | _, _ => false
  end.

(** Calls the page makes outside itself: the two dependent services (the
    bucket hook's [fetchFileContent], the entity hook's [fetchByName]) and
    the browser's object URLs.  The casts [as number] and [as string] do
    nothing at run time, so the arguments are recorded as the values they
    are. *)
Inductive page_call :=
| FetchFileContent (bucketId folderId path : value) (expiryInMinutes : Z)
| FetchByName (entityName : value) (pageSize expansionLevel : Z)
| CreateObjectURL (b : Blob)
| RevokeObjectURL (u : string).

Definition is_service_call (c : page_call) : bool :=
  match c with
  | FetchFileContent _ _ _ _ | FetchByName _ _ _ => true
  | _ => false
  end.

Record page := {
  ctx : ActionContext.world;
  doc1 : DocumentInfo;
  doc2 : DocumentInfo;
  doc3 : DocumentInfo;
  (** the [fetchDocument] calls suspended at [await fetchFileContent] *)
  pending : list (slot * value);
  (** the urls the registered cleanup function closes over *)
  captured : list (option string);
  mounted : bool;
  calls : list page_call;
}.

Definition doc (s : slot) (p : page) : DocumentInfo :=
  match s with Doc1 => doc1 p | Doc2 => doc2 p | Doc3 => doc3 p end.

(** [setDoc1], [setDoc2], [setDoc3] with an updater function; a state
    setter of an unmounted component does nothing. *)
Definition setDoc (s : slot) (f : DocumentInfo -> DocumentInfo) (p : page) : page :=
  if negb (mounted p) then p
  else
    {| ctx := ctx p;
       doc1 := match s with Doc1 => f (doc1 p) | _ => doc1 p end;
       doc2 := match s with Doc2 => f (doc2 p) | _ => doc2 p end;
       doc3 := match s with Doc3 => f (doc3 p) | _ => doc3 p end;
       pending := pending p; captured := captured p; mounted := mounted p;
       calls := calls p |}.

Definition record_calls (cs : list page_call) (p : page) : page :=
  {| ctx := ctx p; doc1 := doc1 p; doc2 := doc2 p; doc3 := doc3 p;
     pending := pending p; captured := captured p; mounted := mounted p;
     calls := calls p ++ cs |}.

Definition record_call (c : page_call) (p : page) : page := record_calls [c] p.

Definition set_pending (l : list (slot * value)) (p : page) : page :=
  {| ctx := ctx p; doc1 := doc1 p; doc2 := doc2 p; doc3 := doc3 p;
     pending := l; captured := captured p; mounted := mounted p;
     calls := calls p |}.

Definition set_ctx (w : ActionContext.world) (p : page) : page :=
  {| ctx := w; doc1 := doc1 p; doc2 := doc2 p; doc3 := doc3 p;
     pending := pending p; captured := captured p; mounted := mounted p;
     calls := calls p |}.

Definition set_captured (l : list (option string)) (p : page) : page :=
  {| ctx := ctx p; doc1 := doc1 p; doc2 := doc2 p; doc3 := doc3 p;
     pending := pending p; captured := l; mounted := mounted p;
     calls := calls p |}.

Definition set_mounted (b : bool) (p : page) : page :=
  {| ctx := ctx p; doc1 := doc1 p; doc2 := doc2 p; doc3 := doc3 p;
     pending := pending p; captured := captured p; mounted := b;
     calls := calls p |}.

Definition formData (p : page) : gmap string value :=
  ActionContext.formData (ActionContext.cells (ctx p)).

Definition hasActionCenterData (p : page) : bool :=
  ActionContext.hasActionCenterData (ActionContext.cells (ctx p)).

(** [fetchDocument(path, setDoc)] up to its [await]: mark the slot as
    loading and call [fetchFileContent]. *)
Definition fetchDocument (path : value) (s : slot) (p : page) : page :=
  let p := setDoc s (fun prev => {| url := url prev; contentType := contentType prev;
                                    loading := true; error := None |}) p in
  let p := record_call (FetchFileContent (field (formData p) "bucketId")
                          (field (formData p) "folderId") path 60) p in
  set_pending (pending p ++ [(s, path)]) p.

(** The body of the document fetch effect. *)
Definition document_effect (p : page) : page :=
  if negb (hasActionCenterData p)
     || negb (JS.truthy (field (formData p) "bucketId"))
     || negb (JS.truthy (field (formData p) "folderId"))
  then p
  else
    let fd := formData p in
    let p := if JS.truthy (field fd "path1") then fetchDocument (field fd "path1") Doc1 p else p in
    let p := if JS.truthy (field fd "path2") then fetchDocument (field fd "path2") Doc2 p else p in
    let p := if JS.truthy (field fd "path3") then fetchDocument (field fd "path3") Doc3 p else p in
    p.

(** The body of the entity fetch effect. *)
Definition entity_effect (p : page) : page :=
  if negb (hasActionCenterData p)
     || negb (JS.truthy (field (formData p) "entityName"))
  then p
  else record_call (FetchByName (field (formData p) "entityName") 50 1) p.

(** The rest of [fetchDocument], once [fetchFileContent] has settled with
    [r]; [created] is what [URL.createObjectURL] returns.  [path] was cast
    to [string] without a check: when it is not a string and the MIME type
    does not decide, [path.split] throws a [TypeError] inside the [try]. *)
Definition fetchDocument_resume (s : slot) (path : value)
    (r : outcome (option Blob)) (created : string) (p : page) : page :=
  let failed msg p :=
    setDoc s (fun prev => {| url := url prev; contentType := contentType prev;
                             loading := false; error := Some msg |}) p in
  let loaded c p :=
    setDoc s (fun _ => {| url := Some created; contentType := c;
                          loading := false; error := None |}) p in
  match r with
  | Returned (Some blob) =>
      let p := record_call (CreateObjectURL blob) p in
      match content_type_of_mime (Some (blob_type blob)), path with
      | Some c, _ => loaded c p
      | None, VStr path => loaded (getContentType path (Some (blob_type blob))) p
      | None, _ => failed "path.split is not a function" p
      end
  | Returned None => failed "Failed to fetch document" p
  | Threw err => failed (message_or "Unknown error" err) p
  end.

(** The cleanup function of the URL effect, closed over the urls of the
    render that registered it. *)
Definition cleanup (urls : list (option string)) : list page_call :=
  flat_map (fun u => if opt_truthy u then [RevokeObjectURL (default "" u)] else []) urls.

Definition doc_urls (p : page) : list (option string) :=
  [url (doc1 p); url (doc2 p); url (doc3 p)].

Definition same_urls (a b : list (option string)) : bool :=
  bool_decide (a = b).

(** After a render React compares the dependency array
    [[doc1.url, doc2.url, doc3.url]] with the one of the registered effect;
    when it changed, the old cleanup runs and the effect registers a new
    one. *)
Definition commit (p : page) : page :=
  if negb (mounted p) || same_urls (captured p) (doc_urls p) then p
  else
    set_captured (doc_urls p)
      (record_calls (cleanup (captured p)) p).

(** Unmounting runs the registered cleanup.  The other effects of the
    page and of its hooks return no cleanup function. *)
Definition unmount (p : page) : page :=
  if negb (mounted p) then p
  else set_mounted false
         (record_calls (cleanup (captured p)) p).

Fixpoint take_pending (s : slot) (l : list (slot * value))
    : option (value * list (slot * value)) :=
  match l with
  | [] => None
  | (s', path) :: rest =>
      if slot_eqb s' s then Some (path, rest)
      else match take_pending s rest with
           | Some (path', rest') => Some (path', (s', path) :: rest')
           | None => None
           end
  end.

(** What can happen to the page.  React runs an effect after a render in
    which one of its dependencies changed; here the two fetch effects may run
    after any event, which covers every schedule React can choose.  Each
    event is followed by the render and commit it causes. *)
Inductive event :=
| Context (e : ActionContext.event)
| RunDocumentEffect
| RunEntityEffect
| FetchSettled (s : slot) (r : outcome (option Blob)) (created : string)
| Unmount.

Definition step (p : page) (e : event) : page :=
  match e with
  | Context ce =>
      if mounted p then commit (set_ctx (ActionContext.step (ctx p) ce) p) else p
  | RunDocumentEffect =>
      if mounted p then commit (document_effect p) else p
  | RunEntityEffect =>
      if mounted p then commit (entity_effect p) else p
  | FetchSettled s r created =>
      match take_pending s (pending p) with
      | Some (path, rest) =>
          commit (fetchDocument_resume s path r created (set_pending rest p))
      | None => p
      end
  | Unmount => unmount p
  end.

(** The page after its first render and mount: the hook starts from
    [INITIAL_DATA], the three documents are empty, and the URL effect has
    registered its first cleanup. *)
Definition initial : page :=
  {| ctx := ActionContext.initial_world (Some INITIAL_DATA);
     doc1 := no_document; doc2 := no_document; doc3 := no_document;
     pending := [];
     captured := [None; None; None];
     mounted := true;
     calls := [] |}.

Definition run (es : list event) : page := fold_left step es initial.

Definition is_host_message (e : event) : bool :=
  match e with
  | Context ce => ActionContext.is_host_message ce
  | _ => false
  end.

Definition is_unmount (e : event) : bool :=
  match e with Unmount => true | _ => false end.

(** The object URLs an event hands to the page. *)
Definition created_url (e : event) : option string :=
  match e with
  | FetchSettled _ (Returned (Some _)) created => Some created
  | _ => None
  end.

End WithPlatform.
End ActionPage.

(** ** More string operations *)

Module JSString.
Section WithPlatform.
Context `{Platform}.

(** The UTF-8 encoding of a code point of the Basic Multilingual Plane. *)
Definition utf8 (cp : N) : string :=
  (if cp <? 0x80 then String (ascii_of_N cp) EmptyString
   else if cp <? 0x800
        then String (ascii_of_N (0xC0 + cp / 0x40))
               (String (ascii_of_N (0x80 + cp mod 0x40)) EmptyString)
        else String (ascii_of_N (0xE0 + cp / 0x1000))
               (String (ascii_of_N (0x80 + (cp / 0x40) mod 0x40))
                  (String (ascii_of_N (0x80 + cp mod 0x40)) EmptyString)))%N.

(** What [trim] removes: the code points of ECMAScript's WhiteSpace (TAB,
    VT, FF, SP, NBSP, ZWNBSP and the Unicode space separators) and of its
    LineTerminator (LF, CR, LS, PS). *)
Definition white_space_code_points : list N :=
  [0x9; 0xB; 0xC; 0x20; 0xA0; 0xFEFF;
   0x1680; 0x2000; 0x2001; 0x2002; 0x2003; 0x2004; 0x2005; 0x2006; 0x2007;
   0x2008; 0x2009; 0x200A; 0x202F; 0x205F; 0x3000;
   0xA; 0xD; 0x2028; 0x2029]%N.

Definition white_space : list string :=
  Eval vm_compute in map utf8 white_space_code_points.

(** The string is one white-space character. *)
Definition is_white_space (s : string) : bool :=
  existsb (String.eqb s) white_space.

(** The line terminators, which [.] does not match. *)
Definition line_terminators : list string :=
  Eval vm_compute in map utf8 [0xA; 0xD; 0x2028; 0x2029]%N.

Definition is_line_terminator (s : string) : bool :=
  existsb (String.eqb s) line_terminators.

(** The character class [[A-Z]]. *)
Definition is_upper (c : ascii) : bool :=
  let n := nat_of_ascii c in (65 <=? n)%nat && (n <=? 90)%nat.

(** [toUpperCase] of one ASCII character. *)
Definition upper_ascii (c : ascii) : ascii :=
  let n := nat_of_ascii c in
  if (97 <=? n)%nat && (n <=? 122)%nat then ascii_of_nat (n - 32) else c.

(** A white-space character is one, two or three bytes long. *)
Fixpoint trimStart (s : string) : string :=
  match s with
  | EmptyString => EmptyString
  | String c1 rest1 =>
      if is_white_space (String c1 EmptyString) then trimStart rest1
      else
        match rest1 with
        | EmptyString => s
        | String c2 rest2 =>
            if is_white_space (String c1 (String c2 EmptyString)) then trimStart rest2
            else
              match rest2 with
              | EmptyString => s
              | String c3 rest3 =>
                  if is_white_space (String c1 (String c2 (String c3 EmptyString)))
                  then trimStart rest3
                  else s
              end
        end
  end.

(** From the right: a character is dropped when nothing but white space
    follows it and it is white space itself. *)
Fixpoint trimEnd (s : string) : string :=
  match s with
  | EmptyString => EmptyString
  | String c rest =>
      let kept := String c (trimEnd rest) in
      if is_white_space kept then EmptyString else kept
  end.

Definition trim (s : string) : string := trimStart (trimEnd s).

(** [s.replace(/([A-Z])/g, ' $1')] *)
Fixpoint space_before_capitals (s : string) : string :=
  match s with
  | EmptyString => EmptyString
  | String c rest =>
      if is_upper c then String " " (String c (space_before_capitals rest))
      else String c (space_before_capitals rest)
  end.

(** The first [n] bytes of [s] and the rest. *)
Fixpoint split_at (n : nat) (s : string) : string * string :=
  match n, s with
  | S n', String c rest => let (a, b) := split_at n' rest in (String c a, b)
  | _, _ => (EmptyString, s)
  end.

(** [s.replace(/^./, str => str.toUpperCase())].  [.] matches the first
    UTF-16 code unit unless it is a line terminator.  That is the first
    character when it takes one to three bytes.  A character of four bytes
    is a surrogate pair: [.] matches its first half alone, which
    [toUpperCase] leaves as it is. *)
Definition capitalize_first (s : string) : string :=
  match s with
  | EmptyString => EmptyString
  | String c rest =>
      let n := nat_of_ascii c in
      if (n <? 128)%nat then
        if is_line_terminator (String c EmptyString) then s
        else String (upper_ascii c) rest
      else if (n <? 192)%nat then s
      else if (n <? 240)%nat then
        let (ch, tail) := split_at (if (n <? 224)%nat then 2 else 3) s in
        if is_line_terminator ch then s else (char_toUpperCase ch ++ tail)%string
      else s
  end.

(** [s.split(sep).pop()]: the part of [s] after its last [sep]. *)
Fixpoint last_after (sep : ascii) (acc s : string) : string :=
  match s with
  | EmptyString => acc
  | String c rest =>
      if Ascii.eqb c sep then last_after sep EmptyString rest
      else last_after sep (acc ++ String c EmptyString) rest
  end.

End WithPlatform.
End JSString.

(** [formatColumnName] of [src/lib/formatters.ts] and [toLabel] of
    [ActionFormRenderer.tsx] are the same three replacements. *)
Definition formatColumnName `{Platform} (key : string) : string :=
  JSString.trim (JSString.capitalize_first (JSString.space_before_capitals key)).

Definition toLabel `{Platform} (name : string) : string :=
  JSString.trim (JSString.capitalize_first (JSString.space_before_capitals name)).

(** ** OutcomeButtons.tsx *)

Module OutcomeButtons.

Inductive icon := Check | X | AlertCircle | ArrowRight.

Inductive variant := Default | Destructive | Outline | Secondary.

Definition mentions (outcome : string) (words : list string) : bool :=
  existsb (fun w => JS.includes w (JS.toLowerCase outcome)) words.

Definition getOutcomeIcon (outcome : string) : icon :=
  if mentions outcome ["approve"; "accept"; "confirm"] then Check
  else if mentions outcome ["reject"; "deny"; "decline"] then X
  else if mentions outcome ["escalate"; "review"; "pending"] then AlertCircle
  else ArrowRight.

Definition getOutcomeVariant (outcome : string) : variant :=
  if mentions outcome ["approve"; "accept"; "confirm"] then Default
  else if mentions outcome ["reject"; "deny"; "decline"] then Destructive
  else Outline.

(** A rendered button; [sends] is the argument its click passes to
    [onOutcome]. *)
Record button := {
  caption : string;
  look : variant;
  picture : icon;
  disabled : bool;
  sends : string;
}.

(** [None] is the component's [return null]. *)
Definition OutcomeButtons (outcomes : list string) (disabled_ readOnly : bool)
    : option (list button) :=
  if readOnly || (length outcomes =? 0)%nat then None
  else Some (map (fun outcome =>
                    {| caption := outcome;
                       look := getOutcomeVariant outcome;
                       picture := getOutcomeIcon outcome;
                       disabled := disabled_;
                       sends := outcome |}) outcomes).

End OutcomeButtons.

(** ** entity-records-table.tsx *)

Module EntityRecordsTable.
Section WithPlatform.
Context `{Json}.

(** An entity record is a flat object; its property list is in the order
    [Object.keys] enumerates. *)
Record props := {
  records : list (list (string * value));
  loading : bool;
  error : option string;
  hasNextPage : bool;
  totalCount : option number;
  entityName : string;
}.

Record table := {
  header : list string;
  rows : list (list string);
  (** the Load More button and whether it is disabled *)
  load_more : option bool;
}.

Record view := {
  total_shown : option number;
  skeleton : bool;
  alert : option string;
  empty_notice : bool;
  grid : option table;
}.

(** Column names come from the first record, without [id]. *)
Definition columns (rs : list (list (string * value))) : list string :=
  match rs with
  | [] => []
  | first :: _ => List.filter (fun key => negb (String.eqb key "id")) (JS.keys first)
  end.

Definition EntityRecordsTable (p : props) : view :=
  let columns := columns (records p) in
  let none := (length (records p) =? 0)%nat in
  {| total_shown := totalCount p;
     skeleton := loading p && none;
     alert := if opt_truthy (error p) then error p else None;
     empty_notice := negb (loading p) && negb (opt_truthy (error p)) && none;
     grid :=
       if none then None
       else Some {| header := map formatColumnName columns;
                    rows := map (fun record =>
                                   map (fun column =>
                                          Formatters.formatCell
                                            (JS.member_of column record))
                                       columns)
                                (records p);
                    load_more := if hasNextPage p then Some (loading p) else None |} |}.

End WithPlatform.
End EntityRecordsTable.

(** ** document-viewer.tsx *)

Module DocumentViewer.

Import Formatters.

Record props := {
  url : option string;
  path : string;
  contentType : content_type;
  loading : bool;
  error : option string;
}.

(** The three [useState] cells of the text preview. *)
Record state := {
  textContent : string;
  textLoading : bool;
  textError : option string;
}.

Definition initial : state :=
  {| textContent := ""; textLoading := false; textError := None |}.

(** [path.split('/').pop() || path] *)
Definition getFileName (p : props) : string :=
  let last := JSString.last_after "/" EmptyString (path p) in
  if str_truthy last then last else path p.

Inductive icon := ImageIcon | FileText | FileX.

Definition getIcon (p : props) : icon :=
  match contentType p with
  | CtImage => ImageIcon
  | CtPdf => FileText
  | CtText => FileText
  | CtUnknown => FileX
  end.

Record text_preview := {
  text_skeleton : bool;
  text_alert : option string;
  text_shown : option string;
}.

Inductive content :=
| ImageContent (src alt : string)
| PdfContent (viewer : PDFViewer.props) (maxHeight : Z)
| TextContent (preview : text_preview)
| DownloadLink (href : string).

Record view := {
  title : string;
  title_icon : icon;
  skeleton : bool;
  alert : option string;
  shown : option content;
  no_document : bool;
}.

Definition DocumentViewer (p : props) (s : state) : view :=
  let idle := negb (loading p) && negb (opt_truthy (error p)) in
  {| title := getFileName p;
     title_icon := getIcon p;
     skeleton := loading p;
     alert := if opt_truthy (error p) then error p else None;
     shown :=
       if idle && opt_truthy (url p) then
         let url := default "" (url p) in
         Some match contentType p with
              | CtImage => ImageContent url (getFileName p)
              | CtPdf => PdfContent {| PDFViewer.file := Some url;
                                       PDFViewer.showControls := true |} 400
              | CtText =>
                  TextContent
                    {| text_skeleton := textLoading s;
                       text_alert := if opt_truthy (textError s) then textError s else None;
                       text_shown :=
                         if negb (textLoading s) && negb (opt_truthy (textError s))
                            && str_truthy (textContent s)
                         then Some (textContent s) else None |}
              | CtUnknown => DownloadLink url
              end
       else None;
     no_document := idle && negb (opt_truthy (url p)) |}.

Inductive net_call := Fetch (url_ : string) | ReadText.

Record world := {
  cells : state;
  net_log : list net_call;
}.

Definition setTextContent (t : string) (s : state) : state :=
  {| textContent := t; textLoading := textLoading s; textError := textError s |}.

Definition setTextLoading (l : bool) (s : state) : state :=
  {| textContent := textContent s; textLoading := l; textError := textError s |}.

Definition setTextError (e : option string) (s : state) : state :=
  {| textContent := textContent s; textLoading := textLoading s; textError := e |}.

Definition on_cells (f : state -> state) (w : world) : world :=
  {| cells := f (cells w); net_log := net_log w |}.

Definition update (f : state -> state) : Eff.M world unit :=
  Eff.modify (on_cells f).

Definition log (c : net_call) : Eff.M world unit :=
  Eff.modify (fun w => {| cells := cells w; net_log := net_log w ++ [c] |}).

(** How the two promises of the text fetch settle ([ok], [statusText] of
    the response, then its text), and what other tasks do to the cells while
    the chain waits. *)
Record environment := {
  fetch_settles : thrown + (bool * string);
  text_settles : thrown + string;
  meanwhile : nat -> state -> state;
}.

Local Open Scope eff_scope.

(** The text fetch effect: the guard, then the promise chain
    [fetch(url).then(...).then(...).catch(...).finally(...)]. *)
Definition text_effect (env : environment) (p : props) : Eff.M world unit :=
  match contentType p with
  | CtText =>
      if opt_truthy (url p) && negb (loading p) && negb (opt_truthy (error p)) then
        update (setTextLoading true);;;
        update (setTextError None);;;
        Eff.try_catch_finally
          (response <- (log (Fetch (default "" (url p)));;;
                        Eff.await (on_cells (meanwhile env 0)) (fetch_settles env) id);;
           (if negb (fst response)
            then Eff.throw (ThrownError ("Failed to fetch text content: " ++ snd response))
            else Eff.ret tt);;;
           text <- (log ReadText;;;
                    Eff.await (on_cells (meanwhile env 1)) (text_settles env) id);;
           update (setTextContent text);;;
           update (setTextError None))
          (fun err =>
             update (setTextError (Some (message_or "Failed to load text content" err))))
          (update (setTextLoading false))
      else Eff.ret tt
  | _ => Eff.ret tt
  end.

End DocumentViewer.

(** ** The schema helpers of src/types/action-schema.ts *)

Inductive VBDataTypeNamespace := NsSystem | NsCustom.

Inductive VBCollectionType := CollArray | CollList | CollDataTable.

Module Schema.

Inductive ActionPropertySchema := PropertySchema {
  name : string;
  type : string;
  isList : bool;
  typeNamespace : VBDataTypeNamespace;
  customType : option string;
  required : bool;
  properties : option (list ActionPropertySchema);
  collectionDataType : option VBCollectionType;
  description : option string;
}.

Record ActionSchema := {
  schema_description : string;
  inputs : list ActionPropertySchema;
  outputs : list ActionPropertySchema;
  inOuts : list ActionPropertySchema;
  outcomes : list ActionPropertySchema;
}.

Definition isInputField (schema : ActionSchema) (fieldName : string) : bool :=
  existsb (fun input => String.eqb (name input) fieldName) (inputs schema).



Definition getOutcomeNames (schema : ActionSchema) : list string :=
  map name (outcomes schema).

End Schema.

(** ** ReadOnlyField and ActionFormRenderer.tsx *)

Module FormRenderer.
Section WithPlatform.
Context `{Platform}.

(** [ReadOnlyField]: the label and the text, [None] for the italic
    "Not provided". *)
Record read_only_view := {
  ro_label : string;
  ro_text : option string;
}.

Definition ReadOnlyField (label : string) (v : value) : read_only_view :=
  {| ro_label := label;
     ro_text := match v with
                | VNull | VUndefined => None
                | _ => Some (JS.to_String v)
                end |}.

(** One rendered field.  An editable field reports its changes to
    [onFieldChange] under [key]. *)
Inductive rendered :=
| ReadOnly (v : read_only_view)
| Editable (key : string) (v : ActionFormField.view).

Record section := {
  (** the card's title and description, when section headers are shown *)
  heading : option (string * string);
  fields : list rendered;
}.

Definition read_only_field (formData : gmap string value)
    (field : Schema.ActionPropertySchema) : rendered :=
  ReadOnly (ReadOnlyField (toLabel (Schema.name field))
              (ActionSchema.field formData (Schema.name field))).

Definition editable_field (formData : gmap string value) (readOnly : bool)
    (field : Schema.ActionPropertySchema) : rendered :=
  Editable (Schema.name field)
    (ActionFormField.ActionFormField
       {| ActionFormField.name := Schema.name field;
          ActionFormField.label := toLabel (Schema.name field);
          ActionFormField.type := Schema.type field;
          ActionFormField.required := Schema.required field;
          ActionFormField.readOnly := readOnly;
          ActionFormField.value_ := ActionSchema.field formData (Schema.name field);
          ActionFormField.description := Schema.description field;
          ActionFormField.placeholder := None;
          ActionFormField.isList := Schema.isList field |}).

Definition FormSection (title description : string) (show : bool)
    (children : list rendered) : section :=
  {| heading := if show then Some (title, description) else None;
     fields := children |}.

Definition ActionFormRenderer (schema : Schema.ActionSchema)
    (formData : gmap string value) (readOnly showSections : bool) : list section :=
  let hasInputs := (0 <? length (Schema.inputs schema))%nat in
  let hasOutputs := (0 <? length (Schema.outputs schema))%nat in
  let hasInOuts := (0 <? length (Schema.inOuts schema))%nat in
  (if hasInputs
   then [FormSection "Information" "Data provided by the automation" showSections
           (map (read_only_field formData) (Schema.inputs schema))]
   else [])
  ++ (if hasInOuts
      then [FormSection "Review & Edit" "Pre-filled data that you can modify" showSections
              (map (editable_field formData readOnly) (Schema.inOuts schema))]
      else [])
  ++ (if hasOutputs
      then [FormSection "Your Input" "Information required from you" showSections
              (map (editable_field formData readOnly) (Schema.outputs schema))]
      else []).

Inductive fieldType := FtInput | FtInOut | FtOutput.

Definition CompactActionForm (schema : Schema.ActionSchema)
    (formData : gmap string value) (readOnly : bool) : list rendered :=
  let allFields :=
    map (fun f => (f, FtInput)) (Schema.inputs schema)
    ++ map (fun f => (f, FtInOut)) (Schema.inOuts schema)
    ++ map (fun f => (f, FtOutput)) (Schema.outputs schema) in
  map (fun '(field, ft) =>
         match ft with
         | FtInput => read_only_field formData field
         | _ => editable_field formData readOnly field
         end) allFields.



End WithPlatform.
End FormRenderer.

(** ** The reviewer tab of src/pages/ActionPage.tsx *)

Module ReviewerTab.
Section WithPlatform.
Context `{Platform}.

Import ActionSchema.

(** [formData.remarks && String(formData.remarks).trim().length > 0]; a
    text has a positive length exactly when it has a byte. *)
Definition isFormValid (formData : gmap string value) : bool :=
  JS.truthy (field formData "remarks")
  && (0 <? String.length (JSString.trim (JS.to_String (field formData "remarks"))))%nat.

(** [[path1, path2, path3].filter(Boolean)] *)
Definition documentPaths (formData : gmap string value) : list value :=
  List.filter JS.truthy
    [field formData "path1"; field formData "path2"; field formData "path3"].

Record decision := {
  buttons : option (list OutcomeButtons.button);
  (** "Please provide remarks before submitting your decision." *)
  hint : bool;
}.

Record view := {
  remarks : ActionFormField.view;
  (** absent for a read-only task *)
  verdict : option decision;
}.

Definition reviewer_tab (r : ActionContext.UseActionContextResult) : view :=
  let formData := ActionContext.r_formData r in
  let isReadOnly := ActionContext.r_isReadOnly r in
  {| remarks :=
       ActionFormField.ActionFormField
         {| ActionFormField.name := "remarks";
            ActionFormField.label := "Remarks";
            ActionFormField.type := vb VB_String;
            ActionFormField.required := true;
            ActionFormField.readOnly := isReadOnly;
            ActionFormField.value_ := field formData "remarks";
            ActionFormField.description :=
              Some "Provide your detailed assessment and observations";
            ActionFormField.placeholder :=
              Some "Enter your remarks about the documents and entity data...";
            ActionFormField.isList := false |};
     verdict :=
       if negb isReadOnly
       then Some {| buttons := OutcomeButtons.OutcomeButtons ["Approve"; "Reject"]
                                 (negb (isFormValid formData)) false;
                    hint := negb (isFormValid formData) |}
       else None |}.

(** What the reviewer and the surroundings can do to the page: type into
    the remarks field, click the [i]-th decision button, or anything that is
    not a call of the hook's functions (a host message, an effect, a settled
    fetch, unmounting). *)
Inductive action :=
| TypeRemarks (sdk : ActionContext.taskEvents) (text : string)
| ClickDecision (sdk : ActionContext.taskEvents) (i : nat)
| Surroundings (e : ActionPage.event).

Definition is_hook_call (e : ActionPage.event) : bool :=
  match e with
  | ActionPage.Context (ActionContext.CallUpdateField _ _ _)
  | ActionPage.Context (ActionContext.CallUpdateFormData _ _)
  | ActionPage.Context (ActionContext.CallCompleteTask _ _)
  | ActionPage.Context (ActionContext.CallResetForm _) => true
  | _ => false
  end.

(** The page event an action leads to.  The remarks field reports a change
    through [updateField('remarks', value)] unless it is disabled; a decision
    button calls [completeTask] with its outcome unless it is absent or
    disabled. *)
Definition enact (p : ActionPage.page) (a : action) : option ActionPage.event :=
  let tab := reviewer_tab (ActionContext.useActionContext_result
                             (ActionContext.cells (ActionPage.ctx p))) in
  match a with
  | TypeRemarks sdk text =>
      match ActionFormField.rendered (remarks tab) with
      | ActionFormField.Input _ _ _ _ false _ onChange
      | ActionFormField.Textarea _ _ _ false _ onChange =>
          Some (ActionPage.Context (ActionContext.CallUpdateField sdk "remarks" (onChange text)))
      | _ => None
      end
  | ClickDecision sdk i =>
      match verdict tab with
      | Some {| buttons := Some bs |} =>
          match bs !! i with
          | Some b =>
              if OutcomeButtons.disabled b then None
              else Some (ActionPage.Context
                           (ActionContext.CallCompleteTask sdk (OutcomeButtons.sends b)))
          | None => None
          end
      | _ => None
      end
  | Surroundings e => if is_hook_call e then None else Some e
  end.

Definition act (p : ActionPage.page) (a : action) : ActionPage.page :=
  match enact p a with
  | Some e => ActionPage.step p e
  | None => p
  end.

Definition review (actions : list action) : ActionPage.page :=
  fold_left act actions ActionPage.initial.

(** A decision handed to the host or, in preview, to [alert]. *)
Definition submission (c : ActionContext.sdk_call)
    : option (string * gmap string value) :=
  match c with
  | ActionContext.CompleteTask o d | ActionContext.Alert o d => Some (o, d)
  | _ => None
  end.

End WithPlatform.
End ReviewerTab.

(** ** A platform to evaluate the model on

    Numbers are integers and dates are day counts; enough to run the
    definitions on concrete inputs. *)

Definition sample_platform : Platform :=
  {| number := Z;
     number_truthy := fun z => negb (z =? 0)%Z;
     number_to_string := fun z => NilZero.string_of_int (Z.to_int z);
     number_of_Z := fun z => z;
     parseInt10 := fun s => match NilZero.int_of_string s with
                            | Some i => Z.of_int i
                            | None => 0%Z
                            end;
     parseFloat := fun s => match NilZero.int_of_string s with
                            | Some i => Z.of_int i
                            | None => 0%Z
                            end;
     date := Z;
     date_to_string := fun d => ("day " ++ NilZero.string_of_int (Z.to_int d))%string;
     date_toLocaleDateString := fun d => ("day " ++ NilZero.string_of_int (Z.to_int d))%string;
     string_toLocaleDateString := fun s => substring 0 10 s;
     char_toUpperCase := fun c => c;
     native_function_to_string :=
       fun name => ("function " ++ name ++ "() { [native code] }")%string |}.

Definition sample_json : @Json sample_platform :=
  {| json_stringify := fun v => match v with
                                | VObj [] => "{}"
                                | _ => "{...}"
                                end |}.



(** ** Vocabulary of the properties *)

(** The input type the specification gives to each declared type. *)
Definition declared_input_type (t : VBDataType) : string :=
  match t with
  | VB_Int16 | VB_Int32 | VB_Int64 | VB_UInt16 | VB_UInt32 | VB_UInt64 => "number"
  | VB_Double | VB_Single | VB_Decimal => "number"
  | VB_Boolean => "checkbox"
  | VB_DateOnly => "date"
  | VB_String | VB_Guid | VB_Object | VB_DataTable | VB_IResource => "text"
  end.

Section ContextVocabulary.
Context `{Platform}.
Import ActionSchema ActionContext.

Definition handshake_call (c : sdk_call) : bool :=
  is_registration c || is_ready_signal c.

(** Before the first entry nothing has been sent; afterwards at most one
    registration and one ready signal have been. *)
Definition handshake_invariant (w : world) : Prop :=
  (isInitializedRef (cells w) = false ->
   count_call is_registration w = 0%nat /\ count_call is_ready_signal w = 0%nat) /\
  (count_call is_registration w <= 1)%nat /\
  (count_call is_ready_signal w <= 1)%nat.

Definition handshake_done (w : world) : Prop :=
  isInitializedRef (cells w) = true /\
  count_call is_registration w = 1%nat /\ count_call is_ready_signal w = 1%nat.

End ContextVocabulary.

Section PageVocabulary.
Context `{Platform}.
Import ActionSchema ActionPage.

(** The service calls made so far. *)
Definition service_calls (p : page) : list page_call :=
  List.filter is_service_call (calls p).

(** [URL.createObjectURL] returns a [blob:] URL, never the empty string. *)
Definition object_url (u : option string) : Prop := u <> Some "".

Definition urls_created (p : page) : Prop :=
  object_url (url (doc1 p)) /\ object_url (url (doc2 p)) /\ object_url (url (doc3 p)).

(** The registered cleanup always closes over the urls on screen. *)
Definition cleanup_current (p : page) : Prop :=
  mounted p = true -> captured p = doc_urls p.

End PageVocabulary.

(** ** Sample data *)

Section FormSamples.
#[local] Existing Instance sample_platform.
Import ActionFormField.

Definition comments_field : props :=
  {| name := "reviewerComments"; label := "Comments"; type := vb VB_String;
     required := true; readOnly := false; value_ := VUndefined;
     description := None; placeholder := None; isList := false |}.

Definition amount_field : props :=
  {| name := "loanAmount"; label := "Loan Amount"; type := vb VB_Int32;
     required := false; readOnly := false; value_ := VNum (number_of_Z 50000);
     description := None; placeholder := None; isList := false |}.

End FormSamples.

Section ContextSamples.
#[local] Existing Instance sample_platform.
Import ActionSchema ActionContext.

Definition sdk_ok : taskEvents :=
  {| getTaskDetailsFromActionCenter_throws := None;
     initializeInActionCenter_throws := None;
     dataChanged_throws := None;
     completeTask_throws := None;
     updater_reruns := [] |}.

(** The same service in a development build: under [<StrictMode>] React
    invokes every updater a second time. *)
Definition sdk_strict : taskEvents :=
  {| getTaskDetailsFromActionCenter_throws := None;
     initializeInActionCenter_throws := None;
     dataChanged_throws := None;
     completeTask_throws := None;
     updater_reruns := [None] |}.

(** Outside Action Center every [taskEvents] call throws. *)
Definition sdk_down : taskEvents :=
  let e := Some (ThrownError "not in Action Center") in
  {| getTaskDetailsFromActionCenter_throws := e;
     initializeInActionCenter_throws := e;
     dataChanged_throws := e;
     completeTask_throws := e;
     updater_reruns := [] |}.

Definition host_message (fd : option (gmap string value)) : ActionCenterData :=
  {| taskId := number_of_Z 42; title := "Review"; status := Pending;
     isReadOnly := false; data := fd; action := "";
     organizationUnitId := number_of_Z 7;
     organizationUnitFullyQualifiedName := "Shared";
     baseUrl := "https://cloud.uipath.com"; orgName := "org";
     tenantName := "tenant"; token := "secret";
     ActionSchema.language := "de"; ActionSchema.theme := Theme.Dark;
     newToken := None; newLanguage := None; newTheme := None |}.

Definition placeholder_data : gmap string value :=
  {[ "entityName" := VStr "SampleEntity" ]}.

Definition invoices : gmap string value :=
  {[ "entityName" := VStr "Invoices" ]}.

Definition orders : gmap string value :=
  {[ "entityName" := VStr "Orders" ]}.

End ContextSamples.

Section PageSamples.
#[local] Existing Instance sample_platform.
Import ActionSchema ActionPage.

Definition task_data : gmap string value :=
  list_to_map
    [("bucketId", VNum (number_of_Z 11));
     ("folderId", VNum (number_of_Z 22));
     ("path1", VStr "/in/scan.pdf");
     ("path3", VStr "/in/photo");
     ("entityName", VStr "Invoices")].

Definition photo : Blob := {| blob_type := "image/png"; blob_bytes := [] |}.

(** A review session: the effects run once in preview mode, the host
    message arrives, the effects run again, and the two fetches settle. *)
Definition session : list event :=
  [Context (ActionContext.EnterInitEffect sdk_ok);
   RunDocumentEffect; RunEntityEffect;
   Context (ActionContext.HostMessage (host_message (Some task_data)));
   RunDocumentEffect; RunEntityEffect;
   FetchSettled Doc3 (Returned (Some photo)) "blob:photo";
   FetchSettled Doc1 (Returned None) ""].

(** Two documents arrive one after the other. *)
Definition two_documents : list event :=
  [Context (ActionContext.HostMessage (host_message (Some task_data)));
   RunDocumentEffect;
   FetchSettled Doc1 (Returned (Some photo)) "blob:a";
   FetchSettled Doc3 (Returned (Some photo)) "blob:b"].

Definition numbered_paths : gmap string value :=
  list_to_map
    [("bucketId", VNum (number_of_Z 11));
     ("folderId", VNum (number_of_Z 22));
     ("path2", VNum (number_of_Z 5))].

End PageSamples.

Section BucketSamples.
#[local] Existing Instance sample_platform.
Import BucketFile.

Definition scan_options : UseBucketFileOptions :=
  {| bucketId := number_of_Z 11; folderId := number_of_Z 22;
     path := "/in/scan.pdf"; expiryInMinutes := Some (number_of_Z 60) |}.

Definition read_uri : BucketFileInfo :=
  {| uri := "https://storage.example/scan.pdf"; httpMethod := "GET";
     requiresAuth := false; headers := [] |}.

(** The URL is issued, the download answers 404; meanwhile another call
    of the hook has set [loading] and cleared [error]. *)
Definition not_found : environment :=
  {| getReadUri_settles := inr read_uri;
     fetch_settles := inr {| ok := false; statusText := "Not Found" |};
     blob_settles := inl ThrownOther;
     meanwhile := fun _ h => setLoading true (setError None h) |}.

(** The SDK rejects with a value that is not an [Error]. *)
Definition sdk_rejects : environment :=
  {| getReadUri_settles := inl ThrownOther;
     fetch_settles := inl ThrownOther;
     blob_settles := inl ThrownOther;
     meanwhile := fun _ h => h |}.

Definition fresh : world := {| cells := initial_hook; net_log := [] |}.

End BucketSamples.

Section ViewerSamples.
Import PDFViewer.

Definition pdf_props : props := {| file := Some "blob:scan"; showControls := true |}.

Definition browsing : list (props * event) :=
  [(pdf_props, ClickNext); (pdf_props, LoadSuccess 3); (pdf_props, ClickPrev);
   (pdf_props, ClickNext); (pdf_props, ClickNext); (pdf_props, ClickNext);
   (pdf_props, ClickNext)].

End ViewerSamples.

(** ** Vocabulary of the further properties *)

Section StringVocabulary.
Import JSString.

(** A character that ECMAScript counts as white space or as a line
    terminator, in UTF-8. *)
Definition white_space_character (w : string) : Prop :=
  exists cp : N, In cp white_space_code_points /\ w = utf8 cp.

(** A text of white space only. *)
Inductive blank : string -> Prop :=
| blank_empty : blank EmptyString
| blank_more (w s : string) : white_space_character w -> blank s -> blank (w ++ s).

Fixpoint all_chars (p : ascii -> bool) (s : string) : bool :=
  match s with
  | EmptyString => true
  | String c rest => p c && all_chars p rest
  end.

(** A visible ASCII character: a letter, a digit or a punctuation mark. *)
Definition graphic (c : ascii) : bool :=
  let n := nat_of_ascii c in (33 <=? n)%nat && (n <=? 126)%nat.

(** The words of a camelCase name: a word of visible characters without
    a capital, and words that begin with their only capital. *)
Definition small (c : ascii) : bool := graphic c && negb (is_upper c).

Definition small_word (s : string) : bool := all_chars small s.

Definition capital_word (s : string) : bool :=
  match s with
  | EmptyString => false
  | String c rest => is_upper c && small_word rest
  end.

(** A name cut before each of its capitals: the part before the first
    capital, and the words that follow. *)
Fixpoint camel_words (s : string) : string * list string :=
  match s with
  | EmptyString => (EmptyString, [])
  | String c rest =>
      let (w, ws) := camel_words rest in
      if is_upper c then (EmptyString, String c w :: ws) else (String c w, ws)
  end.

(** A character of ASCII. *)
Definition ascii7 (c : ascii) : bool := (nat_of_ascii c <? 128)%nat.

(** The last character of the string is a visible ASCII character. *)
Fixpoint ends_graphic (s : string) : bool :=
  match s with
  | EmptyString => false
  | String c EmptyString => graphic c
  | String c rest => ends_graphic rest
  end.

(** The strings of a list one after the other. *)
Definition flat (l : list string) : string := fold_right append EmptyString l.

Fixpoint has_char (c : ascii) (s : string) : bool :=
  match s with
  | EmptyString => false
  | String d rest => Ascii.eqb d c || has_char c rest
  end.

End StringVocabulary.

Section MessageVocabulary.
Context `{Platform}.
Import ActionSchema ActionContext.

(** All four credentials are present. *)
Definition has_credentials (d : ActionCenterData) : bool :=
  str_truthy (baseUrl d) && str_truthy (orgName d)
  && str_truthy (tenantName d) && str_truthy (token d).

(** How often React invokes the updater of one [setFormData] call. *)
Definition updater_runs (sdk : taskEvents) : nat := S (length (updater_reruns sdk)).

(** The number of notifications an editing call sends. *)
Definition reports (e : event) : nat :=
  match e with
  | CallUpdateField sdk _ _ | CallUpdateFormData sdk _ => updater_runs sdk
  | CallResetForm _ => 1
  | _ => 0
  end.

End MessageVocabulary.

Section NavigationVocabulary.
Import PDFViewer.

(** The viewer is on screen with its controls and a loaded document. *)
Definition browsable (p : props) (s : state) : Prop :=
  opt_truthy (file p) = true /\ showControls p = true /\
  opt_truthy (error s) = false /\ loading s = false /\
  (1 <= pageNumber s <= numPages s)%Z.

Definition clicks (p : props) (e : event) (k : nat) : list (props * event) :=
  repeat (p, e) k.

End NavigationVocabulary.

Section DocumentVocabulary.
Import Formatters DocumentViewer.

(** The kind of preview a content block is. *)
Definition content_kind (c : content) : content_type :=
  match c with
  | ImageContent _ _ => CtImage
  | PdfContent _ _ => CtPdf
  | TextContent _ => CtText
  | DownloadLink _ => CtUnknown
  end.

(** The props of a card for the file at [path]. *)
Definition card_for (path : string) : props :=
  {| url := None; path := path; contentType := CtUnknown; loading := false;
     error := None |}.

(** The text of the document may be fetched. *)
Definition text_wanted (p : props) : bool :=
  match contentType p with
  | CtText => opt_truthy (url p) && negb (loading p) && negb (opt_truthy (error p))
  | _ => false
  end.

End DocumentVocabulary.

Section FormVocabulary.
Context `{Platform}.
Import ActionFormField FormRenderer.

(** The value a control passes to [onChange] for an input event. *)
Definition reported (c : control) (typed : string) : option value :=
  match c with
  | Checkbox _ _ _ _ => None
  | Textarea _ _ _ _ _ onChange => Some (onChange typed)
  | Input _ _ _ _ _ _ onChange => Some (onChange typed)
  end.

Definition input_step (c : control) : option step_attr :=
  match c with
  | Input _ _ _ _ _ step _ => step
  | _ => None
  end.


End FormVocabulary.

Section ReviewerVocabulary.
Context `{Platform}.
Import ActionSchema ReviewerTab.

(** A decision in the log is one of the page's two outcomes, made on
    valid form data. *)
Definition sound_submission (c : ActionContext.sdk_call) : Prop :=
  match submission c with
  | Some (o, d) => (o = "Approve" \/ o = "Reject") /\ isFormValid d = true
  | None => True
  end.

End ReviewerVocabulary.

Section EffectVocabulary.
Context `{Platform}.
Import ActionSchema ActionPage.

(** The call the document effect makes for one path. *)
Definition fetch_call (p : page) (path : value) : page_call :=
  FetchFileContent (field (formData p) "bucketId") (field (formData p) "folderId") path 60.

End EffectVocabulary.

(** ** More sample data *)

Section TableSamples.
#[local] Existing Instance sample_platform.
#[local] Existing Instance sample_json.
Import EntityRecordsTable.

Definition two_records : props :=
  {| records := [[("id", VStr "r1"); ("customerName", VStr "Ada"); ("paid", VBool true)];
                 [("id", VStr "r2"); ("paid", VBool false); ("note", VStr "late")]];
     loading := true; error := None; hasNextPage := true;
     totalCount := Some (number_of_Z 2); entityName := "Invoices" |}.

End TableSamples.

Section DocumentSamples.
Import Formatters DocumentViewer.

Definition pdf_card : props :=
  {| url := Some "blob:scan"; path := "/in/2024/scan.pdf"; contentType := CtPdf;
     loading := false; error := None |}.

Definition notes_card : props :=
  {| url := Some "blob:notes"; path := "/in/notes.txt"; contentType := CtText;
     loading := false; error := None |}.

Definition notes_missing : environment :=
  {| fetch_settles := inr (false, "Gone");
     text_settles := inr "never read";
     meanwhile := fun _ s => s |}.

End DocumentSamples.

Section FormSamples2.
#[local] Existing Instance sample_platform.
Import ActionFormField FormRenderer.

Definition property (name type : string) : Schema.ActionPropertySchema :=
  {| Schema.name := name; Schema.type := type; Schema.isList := false;
     Schema.typeNamespace := NsSystem; Schema.customType := None;
     Schema.required := true; Schema.properties := None;
     Schema.collectionDataType := None; Schema.description := None |}.

Definition loan_schema : Schema.ActionSchema :=
  {| Schema.schema_description := "Loan review";
     Schema.inputs := [property "applicantName" (vb VB_String);
                       property "loanAmount" (vb VB_Double)];
     Schema.outputs := [property "riskFactor" (vb VB_Int32)];
     Schema.inOuts := [];
     Schema.outcomes := [property "Approve" (vb VB_String)] |}.

Definition loan_data : gmap string value :=
  {[ "applicantName" := VStr "John Doe" ]}.

End FormSamples2.

Section ReviewSamples.
#[local] Existing Instance sample_platform.
Import ActionSchema ReviewerTab.

(** The host's task arrives; a click on Approve before any remark is lost,
    blank remarks do not help, and after a real remark Reject goes through
    although the host call throws. *)
Definition hasty_review : list action :=
  [Surroundings (ActionPage.Context (ActionContext.HostMessage (host_message (Some task_data))));
   ClickDecision sdk_ok 0;
   TypeRemarks sdk_ok "   ";
   ClickDecision sdk_ok 0;
   TypeRemarks sdk_ok "page 2 is missing";
   Surroundings (ActionPage.Context (ActionContext.CallCompleteTask sdk_ok "Escalate"));
   ClickDecision sdk_down 1].

End ReviewSamples.

Section NavigationSamples.
Import PDFViewer.

Definition on_page_two : state :=
  {| numPages := 5; pageNumber := 2; loading := false; error := None |}.

End NavigationSamples.

(** * Properties *)

(** ** formatCellValue *)

Section FormatCellValue.
Context `{Json}.
Import Formatters.





End FormatCellValue.

Section FormatCellValueExamples.
#[local] Existing Instance sample_platform.
#[local] Existing Instance sample_json.
Import Formatters.

Example formatCellValue_nested :
  formatCellValue (VArr [VBool true; VNull; VArr [VStr "a"; VNum (number_of_Z 7)]]) = "Yes, -, a, 7".
Proof. reflexivity. Qed.

Example formatCellValue_five_items :
  formatCellValue (VArr [VNull; VNull; VNull; VNull; VNull]) = "5 items".
Proof. reflexivity. Qed.

Example formatCellValue_name_before_value :
  formatCellValue (VObj [("value", VStr "v"); ("id", VNum (number_of_Z 1)); ("name", VStr "n")]) = "n".
Proof. reflexivity. Qed.


End FormatCellValueExamples.

(** ** getInputType and ActionFormField *)

Lemma getInputType_declared (t : VBDataType) :
  getInputType (vb t) = declared_input_type t.
Proof. destruct t; reflexivity. Qed.

Lemma one_of_false (s : string) (cases : list VBDataType) :
  (forall t, s <> vb t) -> one_of s cases = false.
Proof.
  intros Hs. unfold one_of. induction cases as [|t cases IH]; [reflexivity|].
  cbn [existsb]. rewrite IH, orb_false_r. apply String.eqb_neq, Hs.
Qed.

Lemma getInputType_undeclared (s : string) :
  (forall t, s <> vb t) -> getInputType s = "text".
Proof.
  intros Hs. unfold getInputType.
  rewrite !one_of_false by assumption.
  rewrite (proj2 (String.eqb_neq _ _) (Hs VB_Boolean)).
  rewrite (proj2 (String.eqb_neq _ _) (Hs VB_DateOnly)).
  reflexivity.
Qed.

(** The four results of [getInputType], with the reason for each. *)
Lemma getInputType_cases (s : string) :
  (getInputType s = "number" /\ s <> vb VB_Boolean /\ s <> vb VB_DateOnly) \/
  (getInputType s = "checkbox" /\ s = vb VB_Boolean) \/
  (getInputType s = "date" /\ s = vb VB_DateOnly /\ s <> vb VB_Boolean) \/
  (getInputType s = "text" /\ s <> vb VB_Boolean /\ s <> vb VB_DateOnly).
Proof.
  unfold getInputType.
  destruct (one_of s integer_types) eqn:Hint.
  { left. split; [reflexivity|].
    unfold one_of, integer_types in Hint. cbn [existsb] in Hint.
    split; intros ->; discriminate Hint. }
  destruct (one_of s floating_types) eqn:Hfl.
  { left. split; [reflexivity|].
    unfold one_of, floating_types in Hfl. cbn [existsb] in Hfl.
    split; intros ->; discriminate Hfl. }
  destruct (String.eqb_spec s (vb VB_Boolean)) as [Hb|Hb].
  { right. left. split; [reflexivity|assumption]. }
  destruct (String.eqb_spec s (vb VB_DateOnly)) as [Hd|Hd].
  { right. right. left. repeat split; assumption. }
  right. right. right. repeat split; assumption.
Qed.

Section ActionFormFieldFacts.
Context `{Platform}.
Import ActionFormField.

Lemma isLongText_String (p : props) :
  isLongText p = true -> type p = vb VB_String.
Proof.
  unfold isLongText. intros Hl. apply andb_true_iff in Hl as [Ht _].
  apply String.eqb_eq, Ht.
Qed.

Lemma ActionFormField_long_text (p : props) :
  isLongText p = true -> widget_of (rendered (ActionFormField p)) = WTextarea.
Proof.
  intros Hl. unfold ActionFormField.
  rewrite (isLongText_String p Hl), Hl. reflexivity.
Qed.

Lemma ActionFormField_by_type (p : props) :
  isLongText p = false ->
  widget_of (rendered (ActionFormField p)) = widget_of_input_type (getInputType (type p)).
Proof.
  intros Hl. unfold ActionFormField. rewrite Hl.
  destruct (getInputType_cases (type p))
    as [(E & Hb & Hd)|[(E & Hb)|[(E & Hd & Hb)|(E & Hb & Hd)]]]; rewrite E.
  - rewrite (proj2 (String.eqb_neq _ _) Hb). reflexivity.
  - rewrite (proj2 (String.eqb_eq _ _) Hb). reflexivity.
  - rewrite (proj2 (String.eqb_neq _ _) Hb), (proj2 (String.eqb_eq _ _) Hd).
    reflexivity.
  - rewrite (proj2 (String.eqb_neq _ _) Hb), (proj2 (String.eqb_neq _ _) Hd).
    reflexivity.
Qed.

(** C5, as amended: [getInputType] maps every integer, floating and
    decimal type to ["number"], Boolean to ["checkbox"], DateOnly to
    ["date"], and every other declared type and every undeclared string to
    ["text"]; [ActionFormField] renders the widget of that input type,
    except for a String field whose lower-cased name contains [comment],
    [description], [note], [reason] or [message], which is rendered as a
    textarea. *)
Theorem ActionFormField_widget :
  (forall t : VBDataType, getInputType (vb t) = declared_input_type t) /\
  (forall s : string, (forall t, s <> vb t) -> getInputType s = "text") /\
  (forall p : props,
      isLongText p = false ->
      widget_of (rendered (ActionFormField p))
      = widget_of_input_type (getInputType (type p))) /\
  (forall p : props,
      isLongText p = true ->
      type p = vb VB_String /\ widget_of (rendered (ActionFormField p)) = WTextarea).
Proof.
  split; [exact getInputType_declared|].
  split; [exact getInputType_undeclared|].
  split; [exact ActionFormField_by_type|].
  intros p Hl. split; [exact (isLongText_String p Hl)|exact (ActionFormField_long_text p Hl)].
Qed.

End ActionFormFieldFacts.

Section ActionFormFieldExamples.
#[local] Existing Instance sample_platform.
Import ActionFormField.

Example amount_field_rendered :
  widget_of (rendered (ActionFormField amount_field)) = WNumberInput.
Proof. reflexivity. Qed.

(** C5, as stated, fails: a String field named [reviewerComments] has
    input type ["text"] but is rendered as a textarea, not as a text
    input. *)
Lemma ActionFormField_textarea_counterexample :
  getInputType (type comments_field) = "text" /\
  widget_of (rendered (ActionFormField comments_field)) = WTextarea /\
  widget_of (rendered (ActionFormField comments_field))
  <> widget_of_input_type (getInputType (type comments_field)).
Proof. repeat split. discriminate. Qed.

Lemma ActionFormField_widget_witness :
  getInputType "System.Unknown" = "text" /\
  widget_of (rendered (ActionFormField amount_field)) = WNumberInput /\
  widget_of (rendered (ActionFormField comments_field)) = WTextarea.
Proof.
  destruct ActionFormField_widget as (_ & Hunk & Hty & Hlong).
  split; [|split].
  - apply Hunk. intros t; destruct t; discriminate.
  - rewrite (Hty amount_field); reflexivity.
  - apply (Hlong comments_field). reflexivity.
Defined.

End ActionFormFieldExamples.

(** ** useActionContext *)

Section ActionContextFacts.
Context `{Platform}.
Import ActionSchema ActionContext.

(** Unfolds one handler run down to the record of cells and the log. *)
Ltac run_handler :=
  unfold step, handler, init_effect, handleActionCenterMessage,
    completeTask, resetForm, when, update, call,
    Eff.exec, Eff.result, Eff.bind, Eff.gets, Eff.modify, Eff.ret,
    Eff.try_catch, on_cells;
  cbn [fst snd cells sdk_log].

(** The notifications of an updater: one [dataChanged] call for each of
    its invocations, whatever the calls do. *)
Lemma each_notify (updated : gmap string value) (l : list (option thrown)) (w : world) :
  each (notify updated) l w
  = (Returned tt,
     {| cells := cells w;
        sdk_log := sdk_log w ++ repeat (DataChanged updated) (length l) |}).
Proof.
  revert w. induction l as [|t l IH]; intros w.
  - cbn. rewrite app_nil_r. destruct w; reflexivity.
  - cbn [each length repeat]. unfold Eff.bind, notify, Eff.try_catch, call, Eff.ret.
    destruct t; rewrite IH; cbn [cells sdk_log]; rewrite <- app_assoc; reflexivity.
Qed.

Lemma updateField_run (sdk : taskEvents) (f : string) (v : value) (w : world) :
  let updated := <[f := v]> (formData (cells w)) in
  updateField sdk f v w
  = (Returned tt,
     {| cells := setFormData updated (cells w);
        sdk_log := sdk_log w
                   ++ repeat (DataChanged updated) (S (length (updater_reruns sdk))) |}).
Proof.
  cbn zeta. unfold updateField, Eff.bind, Eff.gets. rewrite each_notify. reflexivity.
Qed.

Lemma updateFormData_run (sdk : taskEvents) (d : gmap string value) (w : world) :
  let updated := d ∪ formData (cells w) in
  updateFormData sdk d w
  = (Returned tt,
     {| cells := setFormData updated (cells w);
        sdk_log := sdk_log w
                   ++ repeat (DataChanged updated) (S (length (updater_reruns sdk))) |}).
Proof.
  cbn zeta. unfold updateFormData, Eff.bind, Eff.gets. rewrite each_notify. reflexivity.
Qed.

Lemma Forall_repeat_same {A} (P : A -> Prop) (x : A) (n : nat) :
  P x -> Forall P (repeat x n).
Proof. intros Hx. induction n; cbn; constructor; assumption. Qed.

Lemma handler_returns (e : event) (w : world) :
  Eff.result (handler e) w = Returned tt.
Proof.
  destruct e as [sdk|d|sdk f v|sdk d|sdk o|sdk]; run_handler.
  - destruct (isInitializedRef (cells w)); [reflexivity|]. cbn.
    destruct (getTaskDetailsFromActionCenter_throws sdk); [reflexivity|].
    destruct (initializeInActionCenter_throws sdk); reflexivity.
  - destruct (str_truthy (baseUrl d) && str_truthy (orgName d)
              && str_truthy (tenantName d) && str_truthy (token d));
      destruct (opt_truthy (newToken d));
      destruct (opt_truthy (newTheme d));
      destruct (str_truthy (ActionSchema.theme d));
      destruct (opt_truthy (newLanguage d));
      destruct (str_truthy (ActionSchema.language d));
      destruct (data d); reflexivity.
  - rewrite updateField_run. reflexivity.
  - rewrite updateFormData_run. reflexivity.
  - destruct (completeTask_throws sdk); reflexivity.
  - destruct (dataChanged_throws sdk); reflexivity.
Qed.

(** The cells after each kind of event. *)
Lemma step_init_effect_cells (sdk : taskEvents) (w : world) :
  cells (step w (EnterInitEffect sdk)) = set_isInitializedRef true (cells w).
Proof.
  run_handler. destruct w as [[td fd th la has idr iir] lg]. cbn.
  destruct iir; [reflexivity|]. cbn.
  destruct (getTaskDetailsFromActionCenter_throws sdk); [reflexivity|].
  destruct (initializeInActionCenter_throws sdk); reflexivity.
Qed.

Lemma step_updateField_cells (sdk : taskEvents) (f : string) (v : value) (w : world) :
  cells (step w (CallUpdateField sdk f v))
  = setFormData (<[f := v]> (formData (cells w))) (cells w).
Proof. run_handler. rewrite updateField_run. reflexivity. Qed.

Lemma step_updateFormData_cells (sdk : taskEvents) (d : gmap string value) (w : world) :
  cells (step w (CallUpdateFormData sdk d))
  = setFormData (d ∪ formData (cells w)) (cells w).
Proof. run_handler. rewrite updateFormData_run. reflexivity. Qed.

Lemma step_completeTask_cells (sdk : taskEvents) (o : string) (w : world) :
  cells (step w (CallCompleteTask sdk o)) = cells w.
Proof. run_handler. destruct (completeTask_throws sdk); reflexivity. Qed.

Lemma step_resetForm_cells (sdk : taskEvents) (w : world) :
  cells (step w (CallResetForm sdk))
  = setFormData (initialDataRef (cells w)) (cells w).
Proof. run_handler. destruct (dataChanged_throws sdk); reflexivity. Qed.

Lemma step_host_message_facts (d : ActionCenterData) (w : world) :
  let h := cells (step w (HostMessage d)) in
  taskData h = Some d /\
  hasActionCenterData h = true /\
  formData h = default (formData (cells w)) (data d) /\
  initialDataRef h = default (initialDataRef (cells w)) (data d) /\
  isInitializedRef h = isInitializedRef (cells w).
Proof.
  run_handler.
  destruct (str_truthy (baseUrl d) && str_truthy (orgName d)
            && str_truthy (tenantName d) && str_truthy (token d));
    destruct (opt_truthy (newToken d));
    destruct (opt_truthy (newTheme d));
    destruct (str_truthy (ActionSchema.theme d));
    destruct (opt_truthy (newLanguage d));
    destruct (str_truthy (ActionSchema.language d));
    destruct (data d); cbn; repeat split; reflexivity.
Qed.

Lemma run_app (w : world) (es1 es2 : list event) :
  run w (es1 ++ es2) = run (run w es1) es2.
Proof. unfold run. apply fold_left_app. Qed.

Lemma run_cons (w : world) (e : event) (es : list event) :
  run w (e :: es) = run (step w e) es.
Proof. reflexivity. Qed.

Lemma run_snoc (w : world) (es : list event) (e : event) :
  run w (es ++ [e]) = step (run w es) e.
Proof. rewrite run_app. reflexivity. Qed.

(** *** C6: updateField *)

(** C6: [updateField(f, v)] sets key [f] of the form data to [v] and
    changes nothing else: every other key keeps its value, and the task
    data, the theme, the language and the readiness flag (and the two refs)
    are as before; the call returns normally whatever the SDK does. *)
Theorem updateField_frame (sdk : taskEvents) (f : string) (v : value) (w : world) :
  let w' := step w (CallUpdateField sdk f v) in
  formData (cells w') !! f = Some v /\
  (forall g : string, g <> f -> formData (cells w') !! g = formData (cells w) !! g) /\
  taskData (cells w') = taskData (cells w) /\
  theme (cells w') = theme (cells w) /\
  language (cells w') = language (cells w) /\
  hasActionCenterData (cells w') = hasActionCenterData (cells w) /\
  initialDataRef (cells w') = initialDataRef (cells w) /\
  isInitializedRef (cells w') = isInitializedRef (cells w) /\
  Eff.result (updateField sdk f v) w = Returned tt.
Proof.
  cbn zeta. rewrite step_updateField_cells. cbn.
  split; [apply lookup_insert_eq|].
  split; [intros g Hg; apply lookup_insert_ne; congruence|].
  repeat split. exact (handler_returns (CallUpdateField sdk f v) w).
Qed.

(** *** C4: the preview default *)

Lemma no_message_step (e : event) (w : world) :
  is_host_message e = false ->
  let h := cells w in
  let h' := cells (step w e) in
  taskData h' = taskData h /\ theme h' = theme h /\ language h' = language h /\
  hasActionCenterData h' = hasActionCenterData h /\
  initialDataRef h' = initialDataRef h /\
  (is_local_edit e = false -> formData h' = formData h).
Proof.
  destruct e as [sdk|d|sdk f v|sdk d|sdk o|sdk]; cbn [is_host_message is_local_edit];
    intros Hm; try discriminate Hm; cbn zeta.
  - rewrite step_init_effect_cells. repeat split.
  - rewrite step_updateField_cells. repeat split. discriminate.
  - rewrite step_updateFormData_cells. repeat split. discriminate.
  - rewrite step_completeTask_cells. repeat split.
  - rewrite step_resetForm_cells. repeat split. discriminate.
Qed.

(** C4, as amended: as long as no host message has been received the hook
    shows the preview default: the readiness flag is false, the task data is
    null, [isReadOnly] is false, the theme is Light and the language ['en'];
    as long as the component has not edited the form either ([updateField],
    [updateFormData], [resetForm]), the form data is the caller's
    [initialData] (the empty record when none is given); and no handler of
    the hook raises an error. *)
Theorem preview_default (initialData : option (gmap string value)) (es : list event) :
  Forall (fun e => is_host_message e = false) es ->
  let r := useActionContext_result (cells (run (initial_world initialData) es)) in
  r_hasActionCenterData r = false /\
  r_taskData r = None /\
  r_isReadOnly r = false /\
  r_theme r = Theme.Light /\
  r_language r = "en" /\
  (Forall (fun e => is_local_edit e = false) es ->
   r_formData r = default ∅ initialData) /\
  (forall (e : event) (w : world), Eff.result (handler e) w = Returned tt).
Proof.
  intros Hes. cbn zeta.
  assert (Hinv : let h := cells (run (initial_world initialData) es) in
                 taskData h = None /\ theme h = Theme.Light /\ language h = "en" /\
                 hasActionCenterData h = false /\
                 (Forall (fun e => is_local_edit e = false) es ->
                  formData h = default ∅ initialData)).
  { induction es as [|e es IH] using rev_ind.
    - cbn. repeat split.
    - apply Forall_app in Hes as [Hes He]. inversion He as [|? ? He' _]; subst.
      cbn zeta. rewrite run_snoc.
      destruct (no_message_step e (run (initial_world initialData) es) He')
        as (Htd & Hth & Hla & Hhas & _ & Hfd).
      destruct (IH Hes) as (Itd & Ith & Ila & Ihas & Ifd).
      rewrite Htd, Hth, Hla, Hhas. repeat split; try assumption.
      intros Hed. apply Forall_app in Hed as [Hed Hed1].
      inversion Hed1 as [|? ? Hed' _]; subst.
      rewrite Hfd by assumption. apply Ifd, Hed. }
  cbn zeta in Hinv. destruct Hinv as (Itd & Ith & Ila & Ihas & Ifd).
  unfold useActionContext_result. cbn. rewrite Itd.
  repeat split; try assumption. apply handler_returns.
Qed.

(** *** C8: resetForm *)

Lemma run_initialDataRef (es : list event) (w : world) :
  initialDataRef (cells (run w es)) = last_host_data (initialDataRef (cells w)) es.
Proof.
  revert w. induction es as [|e es IH]; intros w; [reflexivity|].
  rewrite run_cons, IH. unfold last_host_data. cbn [fold_left]. f_equal.
  destruct e as [sdk|d|sdk f v|sdk d|sdk o|sdk].
  - rewrite step_init_effect_cells. reflexivity.
  - apply (step_host_message_facts d w).
  - rewrite step_updateField_cells. reflexivity.
  - rewrite step_updateFormData_cells. reflexivity.
  - rewrite step_completeTask_cells. reflexivity.
  - rewrite step_resetForm_cells. reflexivity.
Qed.

(** C8: after any sequence of events (host messages, [updateField],
    [updateFormData], earlier resets, ...), [resetForm] sets the form data to
    the data of the last host message that carried data, and to the caller's
    [initialData] when there was none. *)
Theorem resetForm_restores_baseline
    (initialData : option (gmap string value)) (es : list event) (sdk : taskEvents) :
  formData (cells (step (run (initial_world initialData) es) (CallResetForm sdk)))
  = last_host_data (default ∅ initialData) es.
Proof.
  rewrite step_resetForm_cells. cbn [formData setFormData].
  rewrite run_initialDataRef. reflexivity.
Qed.

(** *** C2: the mount effect *)

Lemma step_other_log (e : event) (w : world) :
  is_init_effect e = false ->
  exists l, sdk_log (step w e) = sdk_log w ++ l /\
            Forall (fun c => handshake_call c = false) l.
Proof.
  destruct e as [sdk|d|sdk f v|sdk d|sdk o|sdk]; cbn [is_init_effect];
    intros He; try discriminate He; run_handler.
  - destruct (str_truthy (baseUrl d) && str_truthy (orgName d)
              && str_truthy (tenantName d) && str_truthy (token d));
      destruct (opt_truthy (newToken d));
      destruct (opt_truthy (newTheme d));
      destruct (str_truthy (ActionSchema.theme d));
      destruct (opt_truthy (newLanguage d));
      destruct (str_truthy (ActionSchema.language d));
      destruct (data d); cbn; rewrite <- ?app_assoc;
      first [ eexists; split; [reflexivity|repeat constructor]
            | exists []; split; [symmetry; apply app_nil_r|constructor] ].
  - rewrite updateField_run. cbn [snd sdk_log]. eexists. split; [reflexivity|].
    apply Forall_repeat_same. reflexivity.
  - rewrite updateFormData_run. cbn [snd sdk_log]. eexists. split; [reflexivity|].
    apply Forall_repeat_same. reflexivity.
  - destruct (completeTask_throws sdk); cbn; rewrite <- ?app_assoc; eexists; split;
      try reflexivity; repeat constructor.
  - destruct (dataChanged_throws sdk); cbn; eexists; split;
      try reflexivity; repeat constructor.
Qed.

Lemma filter_none {A} (p : A -> bool) (l : list A) :
  Forall (fun c => p c = false) l -> List.filter p l = [].
Proof.
  induction 1 as [|c l Hc _ IH]; [reflexivity|].
  cbn. rewrite Hc. exact IH.
Qed.

Lemma step_other_counts (e : event) (w : world) :
  is_init_effect e = false ->
  count_call is_registration (step w e) = count_call is_registration w /\
  count_call is_ready_signal (step w e) = count_call is_ready_signal w.
Proof.
  intros He. destruct (step_other_log e w He) as (l & El & Hl).
  unfold count_call. rewrite El, !List.filter_app.
  rewrite (filter_none is_registration l), (filter_none is_ready_signal l), !app_nil_r.
  - split; reflexivity.
  - eapply Forall_impl; [exact Hl|]. intros c Hc. unfold handshake_call in Hc.
    apply orb_false_iff in Hc. apply Hc.
  - eapply Forall_impl; [exact Hl|]. intros c Hc. unfold handshake_call in Hc.
    apply orb_false_iff in Hc. apply Hc.
Qed.

Lemma step_other_ref (e : event) (w : world) :
  is_init_effect e = false ->
  isInitializedRef (cells (step w e)) = isInitializedRef (cells w).
Proof.
  destruct e as [sdk|d|sdk f v|sdk d|sdk o|sdk]; cbn [is_init_effect];
    intros He; try discriminate He.
  - apply (step_host_message_facts d w).
  - rewrite step_updateField_cells. reflexivity.
  - rewrite step_updateFormData_cells. reflexivity.
  - rewrite step_completeTask_cells. reflexivity.
  - rewrite step_resetForm_cells. reflexivity.
Qed.

(** Entering the mount effect again changes nothing. *)
Lemma init_effect_reentry (sdk : taskEvents) (w : world) :
  isInitializedRef (cells w) = true -> step w (EnterInitEffect sdk) = w.
Proof.
  intros Hr. run_handler. rewrite Hr. destruct w; reflexivity.
Qed.

Lemma init_effect_first (sdk : taskEvents) (w : world) :
  isInitializedRef (cells w) = false ->
  let w' := step w (EnterInitEffect sdk) in
  isInitializedRef (cells w') = true /\
  count_call is_registration w' = S (count_call is_registration w) /\
  count_call is_ready_signal w'
  = match getTaskDetailsFromActionCenter_throws sdk with
    | Some _ => count_call is_ready_signal w
    | None => S (count_call is_ready_signal w)
    end.
Proof.
  intros Hr. cbn zeta. rewrite step_init_effect_cells. split; [reflexivity|].
  run_handler. rewrite Hr. cbn. unfold count_call.
  destruct (getTaskDetailsFromActionCenter_throws sdk); cbn.
  - rewrite !List.filter_app, !length_app. cbn. lia.
  - destruct (initializeInActionCenter_throws sdk); cbn;
      rewrite !List.filter_app, !length_app; cbn; lia.
Qed.

Lemma handshake_invariant_step (e : event) (w : world) :
  handshake_invariant w -> handshake_invariant (step w e).
Proof.
  intros (H0 & Hreg & Hrdy).
  destruct (is_init_effect e) eqn:He.
  - destruct e as [sdk| | | | |]; try discriminate He.
    destruct (isInitializedRef (cells w)) eqn:Hr.
    + rewrite init_effect_reentry by assumption.
      split; [intros Hf; congruence|split; assumption].
    + destruct (init_effect_first sdk w Hr) as (Hr' & Ereg & Erdy).
      destruct (H0 eq_refl) as [Z1 Z2]. unfold handshake_invariant.
      split; [intros Hf; congruence|].
      rewrite Ereg, Erdy, Z1.
      destruct (getTaskDetailsFromActionCenter_throws sdk); rewrite ?Z2; lia.
  - destruct (step_other_counts e w He) as [E1 E2]. unfold handshake_invariant.
    rewrite E1, E2, (step_other_ref e w He). split; [assumption|split; assumption].
Qed.

Lemma handshake_invariant_run (es : list event) (w : world) :
  handshake_invariant w -> handshake_invariant (run w es).
Proof.
  revert w. induction es as [|e es IH]; intros w Hw; [exact Hw|].
  rewrite run_cons. apply IH, handshake_invariant_step, Hw.
Qed.

Lemma handshake_invariant_initial (initialData : option (gmap string value)) :
  handshake_invariant (initial_world initialData).
Proof. unfold handshake_invariant, count_call. cbn. repeat split; lia. Qed.

Lemma handshake_done_run (es : list event) (w : world) :
  handshake_done w -> handshake_done (run w es).
Proof.
  revert w. induction es as [|e es IH]; intros w Hw; [exact Hw|].
  rewrite run_cons. apply IH. destruct Hw as (Hr & Hreg & Hrdy).
  destruct (is_init_effect e) eqn:He.
  - destruct e as [sdk| | | | |]; try discriminate He.
    rewrite init_effect_reentry by assumption. repeat split; assumption.
  - destruct (step_other_counts e w He) as [E1 E2].
    unfold handshake_done. rewrite E1, E2, (step_other_ref e w He).
    repeat split; assumption.
Qed.

Lemma not_entered_run (es : list event) (w : world) :
  Forall (fun e => is_init_effect e = false) es ->
  isInitializedRef (cells (run w es)) = isInitializedRef (cells w).
Proof.
  revert w. induction es as [|e es IH]; intros w Hes; [reflexivity|].
  inversion Hes as [|? ? He Hes']; subst.
  rewrite run_cons, IH by assumption. apply step_other_ref, He.
Qed.

(** C2, as amended: whatever the SDK does and however often the mount
    effect is entered, the host callback is registered at most once and the
    ready signal is sent at most once; a further entry changes nothing; when
    the two SDK calls of the first entry return normally, each has happened
    exactly once from then on.  The callback handles every host message it
    is given, not only the first: each sets the readiness flag, and each that
    carries data replaces the form data by that data. *)
Theorem init_effect_once (initialData : option (gmap string value)) :
  (forall es : list event,
      let w := run (initial_world initialData) es in
      (count_call is_registration w <= 1)%nat /\
      (count_call is_ready_signal w <= 1)%nat) /\
  (forall (w : world) (sdk : taskEvents),
      isInitializedRef (cells w) = true -> step w (EnterInitEffect sdk) = w) /\
  (forall (pre post : list event) (sdk : taskEvents),
      Forall (fun e => is_init_effect e = false) pre ->
      getTaskDetailsFromActionCenter_throws sdk = None ->
      initializeInActionCenter_throws sdk = None ->
      let w := run (initial_world initialData) (pre ++ EnterInitEffect sdk :: post) in
      count_call is_registration w = 1%nat /\
      count_call is_ready_signal w = 1%nat) /\
  (forall (w : world) (m : ActionCenterData),
      let h := cells (step w (HostMessage m)) in
      hasActionCenterData h = true /\
      taskData h = Some m /\
      formData h = default (formData (cells w)) (data m)).
Proof.
  split; [|split; [|split]].
  - intros es. cbn zeta.
    apply (handshake_invariant_run es), handshake_invariant_initial.
  - intros w sdk. apply init_effect_reentry.
  - intros pre post sdk Hpre Hreg Hrdy. cbn zeta.
    rewrite run_app, run_cons.
    assert (Hdone : handshake_done
                      (step (run (initial_world initialData) pre) (EnterInitEffect sdk))).
    { pose proof (handshake_invariant_run pre _ (handshake_invariant_initial initialData))
        as (H0 & _ & _).
      assert (Hr : isInitializedRef (cells (run (initial_world initialData) pre)) = false)
        by (rewrite not_entered_run by assumption; reflexivity).
      destruct (H0 Hr) as [Z1 Z2].
      destruct (init_effect_first sdk _ Hr) as (Hr' & Ereg & Erdy).
      rewrite Hreg in Erdy. unfold handshake_done.
      rewrite Ereg, Erdy, Z1, Z2. repeat split; assumption. }
    apply (handshake_done_run post) in Hdone. apply Hdone.
  - intros w m. cbn zeta.
    destruct (step_host_message_facts m w) as (Htd & Hhas & Hfd & _).
    repeat split; assumption.
Qed.

End ActionContextFacts.

Section ActionContextExamples.
#[local] Existing Instance sample_platform.
Import ActionSchema ActionContext.

Example message_then_edit_then_reset :
  let es := [EnterInitEffect sdk_ok; HostMessage (host_message (Some invoices));
             CallUpdateField sdk_ok "remarks" (VStr "fine");
             HostMessage (host_message None)] in
  let w := run (initial_world (Some placeholder_data)) es in
  formData (cells w) !! "remarks" = Some (VStr "fine") /\
  formData (cells (step w (CallResetForm sdk_ok))) = invoices /\
  theme (cells w) = "dark" /\ language (cells w) = "de".
Proof. cbn zeta. repeat apply conj; vm_compute; reflexivity. Qed.

(** C2, as stated, fails twice over.  Host data is not received exactly
    once: the callback handles a second message like the first, and the form
    data moves on from the first message's data to the second's.  And the
    ready signal is not always sent once: when registering the callback
    throws, the [catch] swallows the error, the ref stays set, and no later
    entry sends the signal. *)
Lemma host_data_twice_counterexample :
  let w0 := initial_world (Some placeholder_data) in
  let w1 := run w0 [EnterInitEffect sdk_ok; HostMessage (host_message (Some invoices))] in
  let w2 := step w1 (HostMessage (host_message (Some orders))) in
  formData (cells w1) = invoices /\
  formData (cells w2) = orders /\
  formData (cells w2) <> formData (cells w1) /\
  count_call is_ready_signal
    (run w0 [EnterInitEffect sdk_down; EnterInitEffect sdk_ok]) = 0%nat.
Proof.
  cbn zeta. split; [reflexivity|]. split; [reflexivity|]. split; [|reflexivity].
  intros E. apply (f_equal (fun m => m !! "entityName")) in E.
  vm_compute in E. discriminate E.
Qed.

Lemma init_effect_once_witness :
  let w := run (initial_world (Some placeholder_data))
             ([CallUpdateField sdk_down "remarks" (VStr "x")]
                ++ EnterInitEffect sdk_ok
                   :: [EnterInitEffect sdk_ok; HostMessage (host_message (Some orders))]) in
  (count_call is_registration w = 1%nat /\ count_call is_ready_signal w = 1%nat) /\
  step w (EnterInitEffect sdk_down) = w.
Proof.
  destruct (init_effect_once (Some placeholder_data)) as (_ & Hre & Hone & _).
  split.
  - apply (Hone [CallUpdateField sdk_down "remarks" (VStr "x")]).
    + repeat constructor.
    + reflexivity.
    + reflexivity.
  - apply Hre. reflexivity.
Defined.

Lemma updateField_frame_witness :
  let w := initial_world (Some placeholder_data) in
  let w' := step w (CallUpdateField sdk_down "remarks" (VStr "fine")) in
  formData (cells w') !! "remarks" = Some (VStr "fine") /\
  formData (cells w') !! "entityName" = formData (cells w) !! "entityName".
Proof.
  destruct (updateField_frame sdk_down "remarks" (VStr "fine")
              (initial_world (Some placeholder_data))) as (Hf & Hother & _).
  split; [exact Hf|]. apply Hother. discriminate.
Defined.

(** C4, as stated, fails: without any host message, typing into a field
    calls [updateField], and the form data is no longer the caller's
    [initialData], while the hook is still in preview mode. *)
Lemma preview_edit_counterexample :
  let es := [EnterInitEffect sdk_down; CallUpdateField sdk_down "remarks" (VStr "x")] in
  let r := useActionContext_result (cells (run (initial_world None) es)) in
  Forall (fun e => is_host_message e = false) es /\
  r_hasActionCenterData r = false /\
  r_formData r !! "remarks" = Some (VStr "x") /\
  r_formData r <> default ∅ None.
Proof.
  cbn zeta. split; [repeat constructor|]. split; [reflexivity|].
  split; [vm_compute; reflexivity|].
  intros E. apply (f_equal (fun m => m !! "remarks")) in E.
  vm_compute in E. discriminate E.
Qed.

Lemma preview_default_witness :
  let es := [EnterInitEffect sdk_down; EnterInitEffect sdk_ok;
             CallCompleteTask sdk_down "Approve"] in
  let r := useActionContext_result (cells (run (initial_world None) es)) in
  r_hasActionCenterData r = false /\ r_isReadOnly r = false /\
  r_theme r = "light" /\ r_formData r = ∅.
Proof.
  assert (Hquiet : Forall (fun e => is_host_message e = false)
                      [EnterInitEffect sdk_down; EnterInitEffect sdk_ok;
                       CallCompleteTask sdk_down "Approve"])
    by (repeat constructor).
  destruct (preview_default None _ Hquiet) as (Hhas & _ & Hro & Hth & _ & Hfd & _).
  split; [exact Hhas|]. split; [exact Hro|]. split; [exact Hth|].
  apply Hfd. repeat constructor.
Defined.

End ActionContextExamples.

(** ** ActionPage *)

Section ActionPageFacts.
Context `{Platform}.
Import ActionSchema ActionPage.

Lemma run_page_snoc (es : list event) (e : event) :
  run (es ++ [e]) = step (run es) e.
Proof. unfold run. rewrite fold_left_app. reflexivity. Qed.

Lemma commit_frame (p : page) :
  ctx (commit p) = ctx p /\ doc_urls (commit p) = doc_urls p /\
  mounted (commit p) = mounted p /\ pending (commit p) = pending p /\
  service_calls (commit p) = service_calls p.
Proof.
  unfold commit.
  destruct (negb (mounted p) || same_urls (captured p) (doc_urls p));
    [repeat split|].
  unfold service_calls. cbn. rewrite List.filter_app.
  replace (List.filter is_service_call (cleanup (captured p))) with (@nil page_call).
  - rewrite app_nil_r. repeat split.
  - unfold cleanup. induction (captured p) as [|u us IH]; [reflexivity|].
    cbn. rewrite List.filter_app, <- IH. destruct (opt_truthy u); reflexivity.
Qed.

Lemma commit_captured (p : page) :
  mounted p = true -> captured (commit p) = doc_urls (commit p).
Proof.
  intros Hm. unfold commit. rewrite Hm. cbn [negb orb].
  unfold same_urls. case_bool_decide as E; [exact E|reflexivity].
Qed.

Lemma setDoc_frame (s : slot) (f : DocumentInfo -> DocumentInfo) (p : page) :
  ctx (setDoc s f p) = ctx p /\ mounted (setDoc s f p) = mounted p /\
  calls (setDoc s f p) = calls p /\ pending (setDoc s f p) = pending p.
Proof.
  destruct p as [c d1 d2 d3 pe ca m cl]. unfold setDoc. cbn.
  destruct m; repeat split.
Qed.

Lemma fetchDocument_frame (path : value) (s : slot) (p : page) :
  ctx (fetchDocument path s p) = ctx p /\
  mounted (fetchDocument path s p) = mounted p /\
  doc_urls (fetchDocument path s p) = doc_urls p.
Proof.
  destruct p as [c d1 d2 d3 pe ca m cl].
  unfold fetchDocument, setDoc, doc_urls. cbn.
  destruct m; destruct s; repeat split.
Qed.

Lemma document_effect_frame (p : page) :
  ctx (document_effect p) = ctx p /\
  mounted (document_effect p) = mounted p /\
  doc_urls (document_effect p) = doc_urls p.
Proof.
  unfold document_effect.
  destruct (negb (hasActionCenterData p)
            || negb (JS.truthy (field (formData p) "bucketId"))
            || negb (JS.truthy (field (formData p) "folderId")));
    [repeat split|].
  set (fd := formData p).
  set (p1 := if JS.truthy (field fd "path1") then fetchDocument (field fd "path1") Doc1 p else p).
  set (p2 := if JS.truthy (field fd "path2") then fetchDocument (field fd "path2") Doc2 p1 else p1).
  set (p3 := if JS.truthy (field fd "path3") then fetchDocument (field fd "path3") Doc3 p2 else p2).
  assert (H1 : ctx p1 = ctx p /\ mounted p1 = mounted p /\ doc_urls p1 = doc_urls p).
  { subst p1. destruct (JS.truthy (field fd "path1"));
      [apply fetchDocument_frame|repeat split]. }
  assert (H2 : ctx p2 = ctx p1 /\ mounted p2 = mounted p1 /\ doc_urls p2 = doc_urls p1).
  { subst p2. destruct (JS.truthy (field fd "path2"));
      [apply fetchDocument_frame|repeat split]. }
  assert (H3 : ctx p3 = ctx p2 /\ mounted p3 = mounted p2 /\ doc_urls p3 = doc_urls p2).
  { subst p3. destruct (JS.truthy (field fd "path3"));
      [apply fetchDocument_frame|repeat split]. }
  destruct H1 as (A1 & B1 & C1), H2 as (A2 & B2 & C2), H3 as (A3 & B3 & C3).
  repeat split; congruence.
Qed.

(** The guard of the two fetch effects: with the flag unset they return
    at once. *)
Lemma effects_gated (p : page) :
  hasActionCenterData p = false ->
  document_effect p = p /\ entity_effect p = p.
Proof.
  intros Hf. unfold document_effect, entity_effect. rewrite Hf. split; reflexivity.
Qed.

Lemma entity_effect_frame (p : page) :
  ctx (entity_effect p) = ctx p /\
  mounted (entity_effect p) = mounted p /\
  doc_urls (entity_effect p) = doc_urls p.
Proof.
  unfold entity_effect.
  destruct (negb (hasActionCenterData p)
            || negb (JS.truthy (field (formData p) "entityName"))); repeat split.
Qed.

Lemma fetchDocument_resume_frame (s : slot) (path : value)
    (r : outcome (option Blob)) (created : string) (p : page) :
  let p' := fetchDocument_resume s path r created p in
  ctx p' = ctx p /\ mounted p' = mounted p /\
  service_calls p' = service_calls p.
Proof.
  destruct p as [c d1 d2 d3 pe ca m cl].
  cbn zeta. unfold fetchDocument_resume, service_calls.
  destruct r as [[blob|]|err].
  - destruct (Formatters.content_type_of_mime (Some (blob_type blob)));
      [|destruct path]; unfold setDoc, record_call, record_calls; cbn;
      destruct m; cbn; rewrite ?List.filter_app, ?app_nil_r; repeat split.
  - unfold setDoc. cbn. destruct m; repeat split.
  - unfold setDoc. cbn. destruct m; repeat split.
Qed.

(** The hook's flag is raised by a host message and never lowered. *)
Lemma flag_step (w : ActionContext.world) (ce : ActionContext.event) :
  ActionContext.hasActionCenterData (ActionContext.cells (ActionContext.step w ce))
  = ActionContext.is_host_message ce
    || ActionContext.hasActionCenterData (ActionContext.cells w).
Proof.
  destruct (ActionContext.is_host_message ce) eqn:Hm.
  - destruct ce; try discriminate Hm.
    apply (step_host_message_facts d w).
  - apply (no_message_step ce w Hm).
Qed.

Lemma page_flag_step (p : page) (e : event) :
  hasActionCenterData (step p e) = true ->
  is_host_message e = true \/ hasActionCenterData p = true.
Proof.
  unfold hasActionCenterData at 1.
  destruct e as [ce| | |s r created|]; cbn [step is_host_message].
  - destruct (mounted p); [|right; assumption].
    destruct (commit_frame (set_ctx (ActionContext.step (ctx p) ce) p)) as (-> & _).
    cbn [ctx set_ctx]. rewrite flag_step. intros Hf.
    apply orb_true_iff in Hf. exact Hf.
  - destruct (mounted p); [|right; assumption].
    destruct (commit_frame (document_effect p)) as (-> & _).
    destruct (document_effect_frame p) as (-> & _). right; assumption.
  - destruct (mounted p); [|right; assumption].
    destruct (commit_frame (entity_effect p)) as (-> & _).
    destruct (entity_effect_frame p) as (-> & _). right; assumption.
  - destruct (take_pending s (pending p)) as [[path rest]|]; [|right; assumption].
    destruct (commit_frame (fetchDocument_resume s path r created (set_pending rest p)))
      as (-> & _).
    destruct (fetchDocument_resume_frame s path r created (set_pending rest p)) as (-> & _).
    right; assumption.
  - unfold unmount. destruct (mounted p); right; assumption.
Qed.

Lemma page_service_step (p : page) (e : event) :
  hasActionCenterData p = false ->
  service_calls (step p e) = service_calls p.
Proof.
  intros Hf.
  destruct e as [ce| | |s r created|]; cbn [step].
  - destruct (mounted p); [|reflexivity].
    destruct (commit_frame (set_ctx (ActionContext.step (ctx p) ce) p))
      as (_ & _ & _ & _ & ->). reflexivity.
  - destruct (mounted p); [|reflexivity].
    rewrite (proj1 (effects_gated p Hf)).
    apply (commit_frame p).
  - destruct (mounted p); [|reflexivity].
    rewrite (proj2 (effects_gated p Hf)).
    apply (commit_frame p).
  - destruct (take_pending s (pending p)) as [[path rest]|]; [|reflexivity].
    destruct (commit_frame (fetchDocument_resume s path r created (set_pending rest p)))
      as (_ & _ & _ & _ & ->).
    apply (fetchDocument_resume_frame s path r created (set_pending rest p)).
  - unfold unmount. destruct (mounted p); [|reflexivity].
    unfold service_calls. cbn. rewrite List.filter_app.
    replace (List.filter is_service_call (cleanup (captured p))) with (@nil page_call);
      [apply app_nil_r|].
    unfold cleanup. induction (captured p) as [|u us IH]; [reflexivity|].
    cbn. rewrite List.filter_app, <- IH. destruct (opt_truthy u); reflexivity.
Qed.

(** C1: in every execution of the page, as long as the readiness flag
    [hasActionCenterData] is false neither [fetchFileContent] nor
    [fetchByName] has been called, and both fetch effects return without a
    call; the flag is false until a host message has been received. *)
Theorem no_fetch_before_ready (es : list event) :
  let p := run es in
  (hasActionCenterData p = false -> service_calls p = []) /\
  (hasActionCenterData p = false -> document_effect p = p /\ entity_effect p = p) /\
  (hasActionCenterData p = true -> existsb is_host_message es = true).
Proof.
  cbn zeta. split; [|split].
  - induction es as [|e es IH] using rev_ind; [reflexivity|].
    rewrite run_page_snoc. intros Hf.
    destruct (hasActionCenterData (run es)) eqn:Hprev.
    + exfalso. clear IH. revert Hf.
      assert (Hmono : hasActionCenterData (step (run es) e) = true); [|congruence].
      unfold hasActionCenterData in *.
      destruct e as [ce| | |s r created|]; cbn [step].
      * destruct (mounted (run es)); [|assumption].
        destruct (commit_frame (set_ctx (ActionContext.step (ctx (run es)) ce) (run es)))
          as (-> & _).
        cbn [ctx set_ctx]. rewrite flag_step, Hprev. apply orb_true_r.
      * destruct (mounted (run es)); [|assumption].
        destruct (commit_frame (document_effect (run es))) as (-> & _).
        destruct (document_effect_frame (run es)) as (-> & _). assumption.
      * destruct (mounted (run es)); [|assumption].
        destruct (commit_frame (entity_effect (run es))) as (-> & _).
        destruct (entity_effect_frame (run es)) as (-> & _). assumption.
      * destruct (take_pending s (pending (run es))) as [[path rest]|]; [|assumption].
        destruct (commit_frame
                    (fetchDocument_resume s path r created (set_pending rest (run es))))
          as (-> & _).
        destruct (fetchDocument_resume_frame s path r created (set_pending rest (run es)))
          as (-> & _).
        assumption.
      * unfold unmount. destruct (mounted (run es)); assumption.
    + rewrite page_service_step by assumption. apply IH. reflexivity.
  - apply effects_gated.
  - induction es as [|e es IH] using rev_ind; [discriminate|].
    rewrite run_page_snoc, existsb_app. intros Hf.
    destruct (page_flag_step _ _ Hf) as [Hm|Hprev].
    + cbn. rewrite Hm. apply orb_true_r.
    + rewrite (IH Hprev). reflexivity.
Qed.

End ActionPageFacts.

Section UrlCleanupFacts.
Context `{Platform}.
Import ActionSchema ActionPage.

Lemma cleanup_object_urls (urls : list (option string)) :
  Forall object_url urls ->
  cleanup urls = map RevokeObjectURL (omap id urls).
Proof.
  unfold cleanup. induction 1 as [|u urls Hu _ IH]; [reflexivity|].
  cbn [flat_map omap]. rewrite IH.
  destruct u as [s|]; cbn; [|reflexivity].
  unfold str_truthy. destruct (String.eqb_spec s "") as [->|_]; [|reflexivity].
  exfalso. apply Hu. reflexivity.
Qed.

Lemma commit_urls_created (p : page) : urls_created p -> urls_created (commit p).
Proof.
  unfold commit.
  destruct (negb (mounted p) || same_urls (captured p) (doc_urls p)); intros Hp; exact Hp.
Qed.

Lemma commit_current (p : page) : cleanup_current (commit p).
Proof.
  unfold cleanup_current. destruct (commit_frame p) as (_ & _ & -> & _).
  apply commit_captured.
Qed.

Lemma resume_urls_created (s : slot) (path : value) (r : outcome (option Blob))
    (created : string) (p : page) :
  created_url (FetchSettled s r created) <> Some "" ->
  urls_created p ->
  urls_created (fetchDocument_resume s path r created p).
Proof.
  destruct p as [c d1 d2 d3 pe ca m cl].
  unfold urls_created, fetchDocument_resume.
  intros Hc (U1 & U2 & U3).
  destruct r as [[blob|]|err];
    [destruct (Formatters.content_type_of_mime (Some (blob_type blob)));
     [|destruct path]|..];
    unfold setDoc, record_call, record_calls; cbn in *;
    destruct m, s; cbn; repeat split; assumption.
Qed.

Lemma step_urls_created (p : page) (e : event) :
  created_url e <> Some "" -> urls_created p -> urls_created (step p e).
Proof.
  intros Hc Hp. destruct e as [ce| | |s r created|]; cbn [step].
  - destruct (mounted p); [|exact Hp]. apply commit_urls_created. exact Hp.
  - destruct (mounted p); [|exact Hp]. apply commit_urls_created.
    unfold urls_created in *. pose proof (document_effect_frame p) as (_ & _ & E).
    unfold doc_urls in E. injection E as -> -> ->. exact Hp.
  - destruct (mounted p); [|exact Hp]. apply commit_urls_created.
    unfold urls_created in *. pose proof (entity_effect_frame p) as (_ & _ & E).
    unfold doc_urls in E. injection E as -> -> ->. exact Hp.
  - destruct (take_pending s (pending p)) as [[path rest]|]; [|exact Hp].
    apply commit_urls_created, resume_urls_created; assumption.
  - unfold unmount. destruct (mounted p); exact Hp.
Qed.

Lemma step_current (p : page) (e : event) :
  cleanup_current p -> cleanup_current (step p e).
Proof.
  intros Hp. destruct e as [ce| | |s r created|]; cbn [step].
  - destruct (mounted p); [apply commit_current|exact Hp].
  - destruct (mounted p); [apply commit_current|exact Hp].
  - destruct (mounted p); [apply commit_current|exact Hp].
  - destruct (take_pending s (pending p)) as [[path rest]|]; [|exact Hp].
    apply commit_current.
  - unfold unmount, cleanup_current. destruct (mounted p) eqn:Hm; cbn.
    + intros Hf. discriminate Hf.
    + intros Hf. congruence.
Qed.

Lemma run_cleanup_invariant (es : list event) :
  Forall (fun e => created_url e <> Some "") es ->
  urls_created (run es) /\ cleanup_current (run es).
Proof.
  induction es as [|e es IH] using rev_ind.
  - intros _. split; [repeat split; discriminate|intros _; reflexivity].
  - intros Hes. apply Forall_app in Hes as [Hes He].
    inversion He as [|? ? He' _]; subst.
    rewrite run_page_snoc. destruct (IH Hes) as [IU IC].
    split; [apply step_urls_created; assumption|apply step_current; assumption].
Qed.

(** C7: when the page is unmounted, the cleanup calls
    [URL.revokeObjectURL] on the url of each of the three document states
    that has one, in slot order, and does nothing else: no other call is
    made and the hook and the documents are untouched.  The urls are those
    [URL.createObjectURL] returned, which are never empty. *)
Theorem unmount_revokes_object_urls (es : list event) :
  Forall (fun e => created_url e <> Some "") es ->
  let p := run es in
  mounted p = true ->
  calls (step p Unmount) = calls p ++ map RevokeObjectURL (omap id (doc_urls p)) /\
  ctx (step p Unmount) = ctx p /\
  doc_urls (step p Unmount) = doc_urls p /\
  mounted (step p Unmount) = false.
Proof.
  intros Hes. cbn zeta. intros Hm.
  destruct (run_cleanup_invariant es Hes) as [(U1 & U2 & U3) Hcur].
  cbn [step]. unfold unmount. rewrite Hm. cbn [negb].
  rewrite (Hcur Hm), cleanup_object_urls by (repeat constructor; assumption).
  repeat split.
Qed.

End UrlCleanupFacts.

Section ActionPageExamples.
#[local] Existing Instance sample_platform.
Import ActionSchema ActionPage.

Example preview_makes_no_call :
  calls (run [Context (ActionContext.EnterInitEffect sdk_ok);
              RunDocumentEffect; RunEntityEffect]) = [].
Proof. vm_compute. reflexivity. Qed.

Example session_calls :
  calls (run session)
  = [FetchFileContent (VNum (number_of_Z 11)) (VNum (number_of_Z 22)) (VStr "/in/scan.pdf") 60;
     FetchFileContent (VNum (number_of_Z 11)) (VNum (number_of_Z 22)) (VStr "/in/photo") 60;
     FetchByName (VStr "Invoices") 50 1;
     CreateObjectURL photo].
Proof. vm_compute. reflexivity. Qed.

Example session_documents :
  doc1 (run session)
  = {| url := None; contentType := Formatters.CtUnknown; loading := false;
       error := Some "Failed to fetch document" |} /\
  doc3 (run session)
  = {| url := Some "blob:photo"; contentType := Formatters.CtImage; loading := false;
       error := None |}.
Proof. vm_compute. split; reflexivity. Qed.

(** The cleanup also runs when a url changes: the arrival of the second
    document revokes the url of the first, and unmounting revokes both. *)
Example url_change_runs_cleanup :
  List.filter (fun c => negb (is_service_call c)) (calls (step (run two_documents) Unmount))
  = [CreateObjectURL photo; CreateObjectURL photo; RevokeObjectURL "blob:a";
     RevokeObjectURL "blob:a"; RevokeObjectURL "blob:b"].
Proof. vm_compute. reflexivity. Qed.

Lemma no_fetch_before_ready_witness :
  service_calls
    (run [Context (ActionContext.EnterInitEffect sdk_ok);
          Context (ActionContext.CallUpdateField sdk_ok "remarks" (VStr "looks fine"));
          RunDocumentEffect; RunEntityEffect]) = [] /\
  existsb is_host_message session = true.
Proof.
  split.
  - apply (no_fetch_before_ready
             [Context (ActionContext.EnterInitEffect sdk_ok);
              Context (ActionContext.CallUpdateField sdk_ok "remarks" (VStr "looks fine"));
              RunDocumentEffect; RunEntityEffect]).
    vm_compute. reflexivity.
  - apply (no_fetch_before_ready session). vm_compute. reflexivity.
Defined.

Lemma unmount_revokes_object_urls_witness :
  calls (step (run session) Unmount)
  = calls (run session) ++ [RevokeObjectURL "blob:photo"].
Proof.
  apply (unmount_revokes_object_urls session).
  - repeat constructor; discriminate.
  - vm_compute. reflexivity.
Defined.

End ActionPageExamples.

(** ** useBucketFile *)

Section BucketFileFacts.
Context `{Platform}.
Import BucketFile.

Ltac run_bucket :=
  unfold getReadUri, fetchFileContent, update, log, suspended, on_cells,
    Eff.exec, Eff.result, Eff.try_catch_finally, Eff.try_catch, Eff.bind,
    Eff.await, Eff.modify, Eff.ret, Eff.throw;
  cbn [fst snd cells net_log].

(** The calls one run of [getReadUri] makes. *)
Lemma getReadUri_log (env : environment) (options : UseBucketFileOptions) (w : world) :
  net_log (Eff.exec (getReadUri env options) w)
  = net_log w ++ [SdkGetReadUri options].
Proof. run_bucket. destruct (getReadUri_settles env); reflexivity. Qed.

(** The calls one run of [fetchFileContent] makes: the SDK call, then the
    HTTP request if the SDK call succeeded, then the body read if the
    response was [ok]. *)
Lemma fetchFileContent_log (env : environment) (options : UseBucketFileOptions)
    (w : world) :
  exists l,
    net_log (Eff.exec (fetchFileContent env options) w) = net_log w ++ l /\
    (l = [SdkGetReadUri options] \/
     (exists u m h, l = [SdkGetReadUri options; HttpFetch u m h]) \/
     (exists u m h, l = [SdkGetReadUri options; HttpFetch u m h; ReadBlob])).
Proof.
  run_bucket.
  destruct (getReadUri_settles env) as [e|r]; cbn.
  { eexists; split; [reflexivity|left; reflexivity]. }
  destruct (fetch_settles env) as [e|resp]; cbn.
  { rewrite <- app_assoc. eexists; split; [reflexivity|right; left; eauto]. }
  destruct (ok resp); cbn.
  - destruct (blob_settles env) as [e|b]; cbn; rewrite <- !app_assoc;
      eexists; (split; [reflexivity|right; right; eauto]).
  - rewrite <- app_assoc. eexists; split; [reflexivity|right; left; eauto].
Qed.

Lemma getReadUri_total (env : environment) (options : UseBucketFileOptions) (w : world) :
  exists r, Eff.result (getReadUri env options) w = Returned r.
Proof. run_bucket. destruct (getReadUri_settles env); eexists; reflexivity. Qed.

Lemma fetchFileContent_total (env : environment) (options : UseBucketFileOptions)
    (w : world) :
  exists r, Eff.result (fetchFileContent env options) w = Returned r.
Proof.
  run_bucket.
  destruct (getReadUri_settles env) as [e|r]; cbn; [eexists; reflexivity|].
  destruct (fetch_settles env) as [e|resp]; cbn; [eexists; reflexivity|].
  destruct (ok resp); cbn; [|eexists; reflexivity].
  destruct (blob_settles env); eexists; reflexivity.
Qed.

Lemma getReadUri_no_retry (env : environment) (options : UseBucketFileOptions)
    (w : world) :
  no_retry (calls_since w (Eff.exec (getReadUri env options) w)).
Proof.
  unfold calls_since. rewrite getReadUri_log, drop_app_length.
  unfold no_retry. cbn. lia.
Qed.

Lemma fetchFileContent_no_retry (env : environment) (options : UseBucketFileOptions)
    (w : world) :
  no_retry (calls_since w (Eff.exec (fetchFileContent env options) w)).
Proof.
  unfold calls_since.
  destruct (fetchFileContent_log env options w)
    as (l & -> & [->|[(u & m & h & ->)|(u & m & h & ->)]]);
    rewrite drop_app_length; unfold no_retry; cbn; lia.
Qed.

Lemma getReadUri_failure (env : environment) (options : UseBucketFileOptions)
    (w : world) (e : thrown) :
  getReadUri_fails env e ->
  let w' := Eff.exec (getReadUri env options) w in
  Eff.result (getReadUri env options) w = Returned None /\
  error (cells w') = Some (message_or "Failed to get file read URI" e) /\
  fileInfo (cells w') = None /\
  loading (cells w') = false.
Proof.
  intros [e' He]. run_bucket. rewrite He. cbn. repeat split.
Qed.

Lemma fetchFileContent_failure (env : environment) (options : UseBucketFileOptions)
    (w : world) (e : thrown) :
  fetchFileContent_fails env e ->
  let w' := Eff.exec (fetchFileContent env options) w in
  Eff.result (fetchFileContent env options) w = Returned None /\
  error (cells w') = Some (message_or "Failed to fetch file content" e) /\
  fileContent (cells w') = None /\
  loading (cells w') = false.
Proof.
  intros Hfail. run_bucket.
  destruct Hfail as [e Hu|r e Hu Hf|r resp Hu Hf Hok|r resp e Hu Hf Hok Hb];
    rewrite Hu; cbn; rewrite ?Hf; cbn; rewrite ?Hok; cbn; rewrite ?Hb; cbn;
    repeat split.
Qed.

(** C3: whatever the SDK call and the HTTP request do, [getReadUri] and
    [fetchFileContent] return to their caller and never throw; when the SDK
    call is rejected, the request is rejected, the response is not [ok] or
    the body cannot be read, they return [null], the hook's [error] is the
    failure's message (the function's fixed message when the thrown value is
    not an [Error]), the function's result cell ([fileInfo], [fileContent])
    is [null] and [loading] is false; and one run calls the SDK at most once
    and issues at most one HTTP request. *)
Theorem bucket_failures_are_local (env : environment) (options : UseBucketFileOptions)
    (w : world) :
  (exists r, Eff.result (getReadUri env options) w = Returned r) /\
  (exists r, Eff.result (fetchFileContent env options) w = Returned r) /\
  (forall e : thrown,
      getReadUri_fails env e ->
      let w' := Eff.exec (getReadUri env options) w in
      Eff.result (getReadUri env options) w = Returned None /\
      error (cells w') = Some (message_or "Failed to get file read URI" e) /\
      fileInfo (cells w') = None /\
      loading (cells w') = false) /\
  (forall e : thrown,
      fetchFileContent_fails env e ->
      let w' := Eff.exec (fetchFileContent env options) w in
      Eff.result (fetchFileContent env options) w = Returned None /\
      error (cells w') = Some (message_or "Failed to fetch file content" e) /\
      fileContent (cells w') = None /\
      loading (cells w') = false) /\
  no_retry (calls_since w (Eff.exec (getReadUri env options) w)) /\
  no_retry (calls_since w (Eff.exec (fetchFileContent env options) w)) /\
  loading (cells (Eff.exec (getReadUri env options) w)) = false /\
  loading (cells (Eff.exec (fetchFileContent env options) w)) = false.
Proof.
  split; [apply getReadUri_total|].
  split; [apply fetchFileContent_total|].
  split; [intros e; apply getReadUri_failure|].
  split; [intros e; apply fetchFileContent_failure|].
  split; [apply getReadUri_no_retry|].
  split; [apply fetchFileContent_no_retry|].
  split.
  - run_bucket. destruct (getReadUri_settles env); reflexivity.
  - run_bucket.
    destruct (getReadUri_settles env) as [e|r]; cbn; [reflexivity|].
    destruct (fetch_settles env) as [e|resp]; cbn; [reflexivity|].
    destruct (ok resp); cbn; [|reflexivity].
    destruct (blob_settles env); reflexivity.
Qed.

End BucketFileFacts.

Section BucketFileExamples.
#[local] Existing Instance sample_platform.
Import BucketFile.

Example not_found_run :
  fetchFileContent not_found scan_options fresh
  = (Returned None,
     {| cells := {| fileInfo := Some read_uri; fileContent := None; loading := false;
                    error := Some "Failed to fetch file: Not Found" |};
        net_log := [SdkGetReadUri scan_options;
                    HttpFetch "https://storage.example/scan.pdf" "GET" []] |}).
Proof. reflexivity. Qed.

Lemma bucket_failures_are_local_witness :
  error (cells (Eff.exec (fetchFileContent not_found scan_options) fresh))
  = Some "Failed to fetch file: Not Found" /\
  Eff.result (getReadUri sdk_rejects scan_options) fresh = Returned None /\
  error (cells (Eff.exec (getReadUri sdk_rejects scan_options) fresh))
  = Some "Failed to get file read URI".
Proof.
  destruct (bucket_failures_are_local not_found scan_options fresh)
    as (_ & _ & _ & Hfetch & _).
  destruct (bucket_failures_are_local sdk_rejects scan_options fresh)
    as (_ & _ & Huri & _).
  split.
  - apply (Hfetch (ThrownError "Failed to fetch file: Not Found")).
    apply (FetchNotOk not_found read_uri {| ok := false; statusText := "Not Found" |});
      reflexivity.
  - destruct (Huri ThrownOther) as (Hr & He & _).
    + constructor. reflexivity.
    + split; [exact Hr|exact He].
Defined.

End BucketFileExamples.

(** ** PDFViewer *)

Section PDFViewerFacts.
Import PDFViewer.

Lemma initial_invariant : page_invariant initial.
Proof. unfold page_invariant. cbn. lia. Qed.

Lemma onLoadSuccess_invariant (n : Z) (s : state) : page_invariant (onLoadSuccess n s).
Proof. unfold page_invariant. cbn. lia. Qed.

Lemma onLoadError_invariant (m : string) (s : state) :
  page_invariant s -> page_invariant (onLoadError m s).
Proof. unfold page_invariant. cbn. tauto. Qed.

Lemma goToPrevPage_invariant (s : state) :
  page_invariant s -> page_invariant (goToPrevPage s).
Proof. unfold page_invariant, goToPrevPage, setPageNumber. cbn. lia. Qed.

(** With a loaded document the clamp of [goToNextPage] keeps the page in
    range. *)
Lemma goToNextPage_loaded (s : state) :
  page_invariant s -> (1 <= numPages s)%Z -> page_invariant (goToNextPage s).
Proof. unfold page_invariant, goToNextPage, setPageNumber. cbn. lia. Qed.

(** The Next button is enabled only below the last page. *)
Lemma next_enabled_below_last (s : state) :
  next_disabled s = false -> (pageNumber s < numPages s)%Z /\ loading s = false.
Proof.
  unfold next_disabled. intros Hd. apply orb_false_iff in Hd as [Hge Hl].
  split; [|exact Hl]. rewrite Z.geb_leb in Hge. apply Z.leb_gt in Hge. exact Hge.
Qed.

Lemma goToNextPage_enabled (s : state) :
  page_invariant s -> next_disabled s = false -> page_invariant (goToNextPage s).
Proof.
  intros Hs Hd. apply goToNextPage_loaded; [exact Hs|].
  destruct (next_enabled_below_last s Hd) as [Hlt _].
  destruct Hs as [H1 _]. lia.
Qed.

Lemma step_invariant (s : state) (pe : props * event) :
  page_invariant s -> page_invariant (step s pe).
Proof.
  intros Hs. destruct pe as [p [n|m| |]]; cbn [step].
  - apply onLoadSuccess_invariant.
  - apply onLoadError_invariant, Hs.
  - destruct (viewer_shown p s && showControls p && negb (prev_disabled s));
      [apply goToPrevPage_invariant|]; exact Hs.
  - destruct (viewer_shown p s && showControls p && negb (next_disabled s)) eqn:Hg;
      [|exact Hs].
    apply andb_true_iff in Hg as [_ Hd]. apply negb_true_iff in Hd.
    apply goToNextPage_enabled; assumption.
Qed.

(** C10: [pageNumber >= 1], and [pageNumber <= numPages] once a document
    with [numPages >= 1] has loaded, holds in the initial state, after
    [onLoadSuccess], and is kept by [goToPrevPage] and by [goToNextPage]
    (with a loaded document, and wherever the Next button is enabled), hence
    in every state the viewer reaches. *)
Theorem page_number_in_range :
  page_invariant initial /\
  (forall (n : Z) (s : state), page_invariant (onLoadSuccess n s)) /\
  (forall s : state, page_invariant s -> page_invariant (goToPrevPage s)) /\
  (forall s : state,
      page_invariant s -> (1 <= numPages s)%Z -> page_invariant (goToNextPage s)) /\
  (forall s : state,
      page_invariant s -> next_disabled s = false -> page_invariant (goToNextPage s)) /\
  (forall es : list (props * event), page_invariant (run es)).
Proof.
  split; [exact initial_invariant|].
  split; [exact onLoadSuccess_invariant|].
  split; [exact goToPrevPage_invariant|].
  split; [exact goToNextPage_loaded|].
  split; [exact goToNextPage_enabled|].
  intros es. unfold run. generalize initial_invariant. generalize initial.
  induction es as [|pe es IH]; intros s Hs; [exact Hs|].
  cbn [fold_left]. apply IH, step_invariant, Hs.
Qed.

Example browsing_ends_on_last_page :
  pageNumber (run browsing) = 3%Z /\ numPages (run browsing) = 3%Z.
Proof. split; reflexivity. Qed.

(** Before a document has loaded the Next button is disabled; the bare
    callback would leave the range there. *)
Example next_disabled_while_loading :
  next_disabled initial = true /\ pageNumber (goToNextPage initial) = 0%Z.
Proof. split; reflexivity. Qed.

Lemma page_number_in_range_witness :
  page_invariant (goToPrevPage (run browsing)) /\
  page_invariant (goToNextPage (onLoadSuccess 3 initial)).
Proof.
  destruct page_number_in_range as (_ & Hload & Hprev & Hnext & Henabled & Hrun).
  split.
  - apply Hprev, Hrun.
  - apply Henabled; [apply Hload|reflexivity].
Defined.

End PDFViewerFacts.

Section FetchDocumentExamples.
#[local] Existing Instance sample_platform.
Import ActionSchema ActionPage.

(** A path that is a number: with an untyped blob the extension is asked
    for and the [catch] reports the [TypeError]; the object URL was created
    before. *)
Example untyped_blob_for_numbered_path :
  let p := run [Context (ActionContext.HostMessage (host_message (Some numbered_paths)));
                RunDocumentEffect;
                FetchSettled Doc2 (Returned (Some {| blob_type := ""; blob_bytes := [] |}))
                  "blob:5"] in
  doc2 p = {| url := None; contentType := Formatters.CtUnknown; loading := false;
              error := Some "path.split is not a function" |} /\
  pending p = [].
Proof. vm_compute. split; reflexivity. Qed.

End FetchDocumentExamples.

(** * Further properties of the code *)

(** ** useActionContext: the editing functions and the message handler *)

Section ActionContextMore.
Context `{Platform}.
Import ActionSchema ActionContext.

Ltac unfold_handler :=
  unfold step, handler, init_effect, handleActionCenterMessage,
    completeTask, resetForm, when, update, call,
    Eff.exec, Eff.result, Eff.bind, Eff.gets, Eff.modify, Eff.ret,
    Eff.try_catch, on_cells;
  cbn [fst snd cells sdk_log].

(** X1: [updateFormData(data)] merges: every key of [data] reads the value
    [data] gives it, every key absent from [data] keeps its value, and no
    other cell of the hook changes. *)
Theorem updateFormData_merge (sdk : taskEvents) (d : gmap string value) (w : world) :
  let w' := step w (CallUpdateFormData sdk d) in
  (forall (k : string) (v : value),
      d !! k = Some v -> formData (cells w') !! k = Some v) /\
  (forall k : string,
      d !! k = None -> formData (cells w') !! k = formData (cells w) !! k) /\
  taskData (cells w') = taskData (cells w) /\
  theme (cells w') = theme (cells w) /\
  language (cells w') = language (cells w) /\
  hasActionCenterData (cells w') = hasActionCenterData (cells w) /\
  initialDataRef (cells w') = initialDataRef (cells w).
Proof.
  cbn zeta. rewrite step_updateFormData_cells. cbn.
  split; [intros k v Hk; apply lookup_union_Some_l, Hk|].
  split; [intros k Hk; apply lookup_union_r, Hk|].
  repeat split.
Qed.

(** X2: updating the single key [f] through [updateFormData] is the same
    as [updateField(f, v)]: the same cells and the same notification. *)
Theorem updateFormData_singleton (sdk : taskEvents) (f : string) (v : value) (w : world) :
  step w (CallUpdateFormData sdk {[ f := v ]}) = step w (CallUpdateField sdk f v).
Proof.
  unfold step, handler, Eff.exec.
  rewrite updateFormData_run, updateField_run, <- insert_union_singleton_l. reflexivity.
Qed.

(** X3: each editing function reports to the host, and all it reports is
    the form data the hook holds afterwards, also when a report throws:
    [resetForm] reports once, [updateField] and [updateFormData] once for
    every invocation of their updater by React (once in a production build,
    twice in development under [<StrictMode>]), and never less than once. *)
Theorem edits_are_reported (e : event) (w : world) :
  is_local_edit e = true ->
  sdk_log (step w e)
  = sdk_log w ++ repeat (DataChanged (formData (cells (step w e)))) (reports e) /\
  (1 <= reports e)%nat.
Proof.
  destruct e as [sdk|d|sdk f v|sdk d|sdk o|sdk]; cbn [is_local_edit];
    intros He; try discriminate He.
  - unfold step, handler, Eff.exec. rewrite updateField_run.
    cbn [snd cells sdk_log formData setFormData reports]. unfold updater_runs.
    split; [reflexivity|lia].
  - unfold step, handler, Eff.exec. rewrite updateFormData_run.
    cbn [snd cells sdk_log formData setFormData reports]. unfold updater_runs.
    split; [reflexivity|lia].
  - unfold_handler. cbn [reports].
    destruct (dataChanged_throws sdk); split; (reflexivity || lia).
Qed.

(** X4: [completeTask(outcome)] changes no cell; it hands the outcome and
    the current form data to the host once, and shows them in an [alert]
    instead when the host call throws. *)
Theorem completeTask_submits (sdk : taskEvents) (o : string) (w : world) :
  let w' := step w (CallCompleteTask sdk o) in
  cells w' = cells w /\
  sdk_log w'
  = sdk_log w ++ CompleteTask o (formData (cells w))
                 :: match completeTask_throws sdk with
                    | Some _ => [Alert o (formData (cells w))]
                    | None => []
                    end.
Proof.
  cbn zeta. unfold_handler.
  destruct (completeTask_throws sdk); cbn; rewrite <- ?app_assoc; split; reflexivity.
Qed.

(** X5: a host message initializes the SDK only when base URL, organization,
    tenant and token are all non-empty, and forwards a token only when
    [newToken] is non-empty; the readiness flag is set in either case. *)
Theorem host_message_sdk_calls (d : ActionCenterData) (w : world) :
  let w' := step w (HostMessage d) in
  sdk_log w'
  = sdk_log w
    ++ (if has_credentials d
        then [InitializeSdk (baseUrl d) (orgName d) (tenantName d) (token d)]
        else [])
    ++ (if opt_truthy (newToken d) then [UpdateToken (default "" (newToken d))] else []) /\
  hasActionCenterData (cells w') = true.
Proof.
  cbn zeta. unfold has_credentials. unfold_handler.
  destruct (str_truthy (baseUrl d) && str_truthy (orgName d)
            && str_truthy (tenantName d) && str_truthy (token d));
    destruct (opt_truthy (newToken d));
    destruct (opt_truthy (newTheme d));
    destruct (str_truthy (ActionSchema.theme d));
    destruct (opt_truthy (newLanguage d));
    destruct (str_truthy (ActionSchema.language d));
    destruct (data d); cbn; rewrite <- ?app_assoc, ?app_nil_r; split; reflexivity.
Qed.

(** In a host message a non-empty [newTheme] wins over [theme], and a
    message with neither leaves the theme as it is; likewise for the
    language. *)
Lemma host_message_theme_language (d : ActionCenterData) (w : world) :
  let h := cells (step w (HostMessage d)) in
  theme h = (if opt_truthy (newTheme d) then default "" (newTheme d)
             else if str_truthy (ActionSchema.theme d) then ActionSchema.theme d
                  else theme (cells w)) /\
  language h = (if opt_truthy (newLanguage d) then default "" (newLanguage d)
                else if str_truthy (ActionSchema.language d) then ActionSchema.language d
                     else language (cells w)).
Proof.
  cbn zeta. unfold_handler.
  destruct (str_truthy (baseUrl d) && str_truthy (orgName d)
            && str_truthy (tenantName d) && str_truthy (token d));
    destruct (opt_truthy (newToken d));
    destruct (opt_truthy (newTheme d));
    destruct (str_truthy (ActionSchema.theme d));
    destruct (opt_truthy (newLanguage d));
    destruct (str_truthy (ActionSchema.language d));
    destruct (data d); cbn; split; reflexivity.
Qed.

Lemma local_edit_baseline (e : event) (w : world) :
  is_local_edit e = true ->
  let h := cells w in
  let h' := cells (step w e) in
  taskData h' = taskData h /\ theme h' = theme h /\ language h' = language h /\
  hasActionCenterData h' = hasActionCenterData h /\
  initialDataRef h' = initialDataRef h /\ isInitializedRef h' = isInitializedRef h.
Proof.
  destruct e as [sdk|d|sdk f v|sdk d|sdk o|sdk]; cbn [is_local_edit];
    intros He; try discriminate He; cbn zeta.
  - rewrite step_updateField_cells. repeat split.
  - rewrite step_updateFormData_cells. repeat split.
  - rewrite step_resetForm_cells. repeat split.
Qed.

(** X6: [resetForm] undoes local edits from any state of the hook: after
    any sequence of [updateField], [updateFormData] and [resetForm] calls it
    leaves exactly the cells a reset without those edits leaves. *)
Theorem resetForm_discards_edits (w : world) (es : list event) (sdk : taskEvents) :
  Forall (fun e => is_local_edit e = true) es ->
  cells (step (run w es) (CallResetForm sdk)) = cells (step w (CallResetForm sdk)).
Proof.
  intros Hes. rewrite !step_resetForm_cells.
  assert (Hkeep : let h := cells w in
                  let h' := cells (run w es) in
                  taskData h' = taskData h /\ theme h' = theme h /\
                  language h' = language h /\
                  hasActionCenterData h' = hasActionCenterData h /\
                  initialDataRef h' = initialDataRef h /\
                  isInitializedRef h' = isInitializedRef h).
  { induction es as [|e es IH] using rev_ind; [cbn; repeat split|].
    apply Forall_app in Hes as [Hes He]. inversion He as [|? ? He' _]; subst.
    cbn zeta. rewrite run_snoc.
    destruct (local_edit_baseline e (run w es) He') as (A1 & A2 & A3 & A4 & A5 & A6).
    destruct (IH Hes) as (B1 & B2 & B3 & B4 & B5 & B6).
    repeat split; congruence. }
  cbn zeta in Hkeep. destruct Hkeep as (K1 & K2 & K3 & K4 & K5 & K6).
  destruct (cells (run w es)), (cells w). cbn in *. subst. reflexivity.
Qed.

End ActionContextMore.

Section ActionContextMoreExamples.
#[local] Existing Instance sample_platform.
Import ActionSchema ActionContext.

Example token_refresh_keeps_edits :
  let refresh :=
    {| taskId := number_of_Z 42; title := "Review"; status := Pending;
       isReadOnly := false; data := None; action := "";
       organizationUnitId := number_of_Z 7;
       organizationUnitFullyQualifiedName := "Shared";
       baseUrl := ""; orgName := ""; tenantName := ""; token := "";
       ActionSchema.language := ""; ActionSchema.theme := "";
       newToken := Some "fresh"; newLanguage := None; newTheme := Some "dark-hc" |} in
  let w := run (initial_world (Some placeholder_data))
             [HostMessage (host_message (Some invoices));
              CallUpdateField sdk_ok "remarks" (VStr "fine");
              HostMessage refresh] in
  formData (cells w) !! "remarks" = Some (VStr "fine") /\
  theme (cells w) = "dark-hc" /\ language (cells w) = "de" /\
  count_call (fun c => match c with UpdateToken "fresh" => true | _ => false end) w
  = 1%nat.
Proof. cbn zeta. repeat apply conj; vm_compute; reflexivity. Qed.

Lemma updateFormData_merge_witness :
  let w := initial_world (Some placeholder_data) in
  let w' := step w (CallUpdateFormData sdk_down orders) in
  formData (cells w') !! "entityName" = Some (VStr "Orders") /\
  formData (cells w') !! "remarks" = formData (cells w) !! "remarks".
Proof.
  destruct (updateFormData_merge sdk_down orders (initial_world (Some placeholder_data)))
    as (Hin & Hout & _).
  split; [apply Hin; reflexivity|apply Hout; reflexivity].
Defined.

(** One edit in a production build and in a development build. *)
Example edit_reports :
  let w := initial_world (Some placeholder_data) in
  let edit sdk := CallUpdateField sdk "remarks" (VStr "fine") in
  count_call (fun _ => true) (step w (edit sdk_ok)) = 1%nat /\
  count_call (fun _ => true) (step w (edit sdk_strict)) = 2%nat /\
  cells (step w (edit sdk_strict)) = cells (step w (edit sdk_ok)).
Proof. cbn zeta. repeat apply conj; vm_compute; reflexivity. Qed.

Lemma edits_are_reported_witness :
  let w := initial_world (Some placeholder_data) in
  let e := CallUpdateField sdk_strict "remarks" (VStr "fine") in
  sdk_log (step w e) = sdk_log w ++ repeat (DataChanged (formData (cells (step w e)))) 2 /\
  sdk_log (step w (CallResetForm sdk_down)) = [DataChanged placeholder_data].
Proof.
  split.
  - apply (edits_are_reported (CallUpdateField sdk_strict "remarks" (VStr "fine"))
             (initial_world (Some placeholder_data))).
    reflexivity.
  - apply (edits_are_reported (CallResetForm sdk_down) (initial_world (Some placeholder_data))).
    reflexivity.
Defined.

Lemma resetForm_discards_edits_witness :
  cells (step (run (initial_world (Some placeholder_data))
                 [CallUpdateField sdk_ok "remarks" (VStr "x");
                  CallUpdateFormData sdk_down orders])
           (CallResetForm sdk_ok))
  = cells (step (initial_world (Some placeholder_data)) (CallResetForm sdk_ok)).
Proof.
  apply resetForm_discards_edits. repeat constructor.
Defined.

End ActionContextMoreExamples.

(** ** useBucketFile: the successful download *)

Section BucketFileMore.
Context `{Platform}.
Import BucketFile.

Ltac run_bucket :=
  unfold getReadUri, fetchFileContent, reset, update, log, suspended, on_cells,
    Eff.exec, Eff.result, Eff.try_catch_finally, Eff.try_catch, Eff.bind,
    Eff.await, Eff.modify, Eff.ret, Eff.throw;
  cbn [fst snd cells net_log].

(** X7: when the SDK issues a read URI, the request to it answers [ok] and
    the body can be read, [fetchFileContent] returns the blob and stores it
    in [fileContent] with [loading] false; it has called the SDK once with
    the caller's options, then requested exactly the URI the SDK returned
    with the method and headers it returned, then read the body.  With no
    other task touching the hook, [fileInfo] is the SDK's answer and
    [error] is null. *)
Theorem fetchFileContent_success (env : environment) (options : UseBucketFileOptions)
    (w : world) (r : BucketFileInfo) (resp : Response) (blob : Blob) :
  getReadUri_settles env = inr r ->
  fetch_settles env = inr resp ->
  ok resp = true ->
  blob_settles env = inr blob ->
  let w' := Eff.exec (fetchFileContent env options) w in
  Eff.result (fetchFileContent env options) w = Returned (Some blob) /\
  fileContent (cells w') = Some blob /\
  loading (cells w') = false /\
  net_log w' = net_log w ++ [SdkGetReadUri options;
                             HttpFetch (uri r) (httpMethod r) (headers r);
                             ReadBlob] /\
  ((forall n h, meanwhile env n h = h) ->
   fileInfo (cells w') = Some r /\ error (cells w') = None).
Proof.
  intros Hu Hf Hok Hb. cbn zeta. run_bucket.
  rewrite Hu. cbn. rewrite Hf. cbn. rewrite Hok. cbn. rewrite Hb. cbn.
  rewrite <- !app_assoc.
  split; [reflexivity|]. split; [reflexivity|]. split; [reflexivity|].
  split; [reflexivity|].
  intros Hquiet. rewrite !Hquiet. destruct r; split; reflexivity.
Qed.

(** X8: a download that fails after the SDK issued the read URI still
    publishes that URI: with no other task touching the hook, [fileInfo] is
    the SDK's answer although [fetchFileContent] returns null; and
    [getReadUri] alone never touches [fileContent]. *)
Theorem read_uri_survives_failed_download (env : environment)
    (options : UseBucketFileOptions) (w : world) (r : BucketFileInfo) (e : thrown) :
  getReadUri_settles env = inr r ->
  fetchFileContent_fails env e ->
  (forall n h, meanwhile env n h = h) ->
  fileInfo (cells (Eff.exec (fetchFileContent env options) w)) = Some r /\
  Eff.result (fetchFileContent env options) w = Returned None /\
  fileContent (cells (Eff.exec (getReadUri env options) w)) = fileContent (cells w).
Proof.
  intros Hu Hfail Hquiet. run_bucket. rewrite Hu. cbn.
  destruct Hfail as [e Hu'|r' e Hu' Hf|r' resp Hu' Hf Hok|r' resp e Hu' Hf Hok Hb];
    try (rewrite Hu in Hu'; discriminate Hu');
    rewrite ?Hf; cbn; rewrite ?Hok; cbn; rewrite ?Hb; cbn; rewrite !Hquiet;
    destruct r; repeat split.
Qed.

End BucketFileMore.

Section BucketFileMoreExamples.
#[local] Existing Instance sample_platform.
Import BucketFile.

Lemma fetchFileContent_success_witness :
  let env := {| getReadUri_settles := inr read_uri;
                fetch_settles := inr {| ok := true; statusText := "OK" |};
                blob_settles := inr photo;
                meanwhile := fun _ h => h |} in
  Eff.result (fetchFileContent env scan_options) fresh = Returned (Some photo) /\
  net_log (Eff.exec (fetchFileContent env scan_options) fresh)
  = [SdkGetReadUri scan_options;
     HttpFetch "https://storage.example/scan.pdf" "GET" []; ReadBlob].
Proof.
  pose (env := {| getReadUri_settles := inr read_uri;
                  fetch_settles := inr {| ok := true; statusText := "OK" |};
                  blob_settles := inr photo;
                  meanwhile := fun _ h => h |}).
  destruct (fetchFileContent_success env scan_options fresh read_uri
              {| ok := true; statusText := "OK" |} photo
              eq_refl eq_refl eq_refl eq_refl) as (Hr & _ & _ & Hlog & _).
  split; [exact Hr|exact Hlog].
Defined.

Lemma read_uri_survives_failed_download_witness :
  let env := {| getReadUri_settles := inr read_uri;
                fetch_settles := inr {| ok := false; statusText := "Not Found" |};
                blob_settles := inl ThrownOther;
                meanwhile := fun _ h => h |} in
  fileInfo (cells (Eff.exec (fetchFileContent env scan_options) fresh)) = Some read_uri.
Proof.
  pose (env := {| getReadUri_settles := inr read_uri;
                  fetch_settles := inr {| ok := false; statusText := "Not Found" |};
                  blob_settles := inl ThrownOther;
                  meanwhile := fun _ h => h |}).
  apply (read_uri_survives_failed_download env scan_options fresh read_uri
           (ThrownError "Failed to fetch file: Not Found")).
  - reflexivity.
  - apply (FetchNotOk env read_uri {| ok := false; statusText := "Not Found" |});
      reflexivity.
  - reflexivity.
Defined.

End BucketFileMoreExamples.

(** ** PDFViewer: navigation *)

Section PDFViewerMore.
Import PDFViewer.

Lemma browsable_shown (p : props) (s : state) :
  browsable p s -> viewer_shown p s && showControls p = true.
Proof.
  intros (Hf & Hc & He & _ & _). unfold viewer_shown, render.
  rewrite Hf, He, Hc. reflexivity.
Qed.

Lemma click_next_browsable (p : props) (s : state) :
  browsable p s ->
  let s' := step s (p, ClickNext) in
  browsable p s' /\ numPages s' = numPages s /\
  pageNumber s' = Z.min (numPages s) (pageNumber s + 1).
Proof.
  intros Hb. pose proof (browsable_shown p s Hb) as Hs.
  destruct Hb as (Hf & Hc & He & Hl & Hp).
  cbn zeta. cbn [step]. rewrite Hs. cbn [andb].
  unfold next_disabled. rewrite Hl, orb_false_r.
  destruct (Z.geb_spec (pageNumber s) (numPages s)) as [Hge|Hlt]; cbn [negb].
  - split; [repeat split; assumption || lia|]. split; [reflexivity|lia].
  - unfold goToNextPage, setPageNumber, browsable. cbn.
    split; [repeat split; assumption || lia|]. split; [reflexivity|lia].
Qed.

Lemma click_prev_browsable (p : props) (s : state) :
  browsable p s ->
  let s' := step s (p, ClickPrev) in
  browsable p s' /\ numPages s' = numPages s /\
  pageNumber s' = Z.max 1 (pageNumber s - 1).
Proof.
  intros Hb. pose proof (browsable_shown p s Hb) as Hs.
  destruct Hb as (Hf & Hc & He & Hl & Hp).
  cbn zeta. cbn [step]. rewrite Hs. cbn [andb].
  unfold prev_disabled. rewrite Hl, orb_false_r.
  destruct (Z.leb_spec (pageNumber s) 1) as [Hle|Hgt]; cbn [negb].
  - split; [repeat split; assumption || lia|]. split; [reflexivity|lia].
  - unfold goToPrevPage, setPageNumber, browsable. cbn.
    split; [repeat split; assumption || lia|]. split; [reflexivity|lia].
Qed.

(** X9: with a loaded document on screen, [k] clicks on Next lead from
    page [n] to page [min(numPages, n + k)] and [k] clicks on Previous to
    page [max(1, n - k)]: navigation stops at the last and at the first page
    however often the buttons are clicked, and the page count is
    untouched. *)
Theorem repeated_navigation (p : props) (s : state) (k : nat) :
  browsable p s ->
  pageNumber (fold_left step (clicks p ClickNext k) s)
  = Z.min (numPages s) (pageNumber s + Z.of_nat k) /\
  pageNumber (fold_left step (clicks p ClickPrev k) s)
  = Z.max 1 (pageNumber s - Z.of_nat k) /\
  numPages (fold_left step (clicks p ClickNext k) s) = numPages s /\
  numPages (fold_left step (clicks p ClickPrev k) s) = numPages s.
Proof.
  revert s. unfold clicks.
  induction k as [|k IH]; intros s Hb.
  - destruct Hb as (_ & _ & _ & _ & Hp). cbn. repeat split; lia.
  - cbn [repeat fold_left].
    destruct (click_next_browsable p s Hb) as (Hbn & Hnn & Hpn).
    destruct (click_prev_browsable p s Hb) as (Hbp & Hnp & Hpp).
    cbn zeta in *.
    destruct (IH _ Hbn) as (In1 & _ & In3 & _).
    destruct (IH _ Hbp) as (_ & Ip2 & _ & Ip4).
    destruct Hb as (_ & _ & _ & _ & Hp).
    rewrite In1, Ip2, In3, Ip4, Hnn, Hnp, Hpn, Hpp.
    repeat split; lia.
Qed.

Lemma state_ext (s t : state) :
  numPages s = numPages t -> pageNumber s = pageNumber t ->
  loading s = loading t -> error s = error t -> s = t.
Proof. destruct s, t. cbn. intros -> -> -> ->. reflexivity. Qed.

Lemma click_frame (p : props) (s : state) (e : event) :
  e = ClickPrev \/ e = ClickNext ->
  numPages (step s (p, e)) = numPages s /\
  loading (step s (p, e)) = loading s /\
  error (step s (p, e)) = error s.
Proof.
  intros [->| ->]; cbn [step].
  - destruct (viewer_shown p s && showControls p && negb (prev_disabled s));
      repeat split.
  - destruct (viewer_shown p s && showControls p && negb (next_disabled s));
      repeat split.
Qed.

(** X10: below the last page, Previous undoes Next; above the first page,
    Next undoes Previous. *)
Theorem navigation_round_trip (p : props) (s : state) :
  browsable p s ->
  ((pageNumber s < numPages s)%Z ->
   step (step s (p, ClickNext)) (p, ClickPrev) = s) /\
  ((1 < pageNumber s)%Z ->
   step (step s (p, ClickPrev)) (p, ClickNext) = s).
Proof.
  intros Hb.
  destruct (click_next_browsable p s Hb) as (Hbn & Hnn & Hpn).
  destruct (click_prev_browsable p s Hb) as (Hbp & Hnp & Hpp).
  cbn zeta in Hbn, Hnn, Hpn, Hbp, Hnp, Hpp.
  destruct (click_prev_browsable p _ Hbn) as (_ & _ & Hp2).
  destruct (click_next_browsable p _ Hbp) as (_ & _ & Hp3).
  cbn zeta in Hp2, Hp3.
  destruct (click_frame p s ClickNext (or_intror eq_refl)) as (N1 & N2 & N3).
  destruct (click_frame p s ClickPrev (or_introl eq_refl)) as (P1 & P2 & P3).
  destruct (click_frame p (step s (p, ClickNext)) ClickPrev (or_introl eq_refl))
    as (NP1 & NP2 & NP3).
  destruct (click_frame p (step s (p, ClickPrev)) ClickNext (or_intror eq_refl))
    as (PN1 & PN2 & PN3).
  destruct Hb as (_ & _ & _ & _ & Hp).
  split; intros Hlt; apply state_ext; try congruence.
  - rewrite Hp2, Hpn. lia.
  - rewrite Hp3, Hpp, Hnp. lia.
Qed.

End PDFViewerMore.

(** ** Labels and file types *)

Section StringFacts.
Context `{Platform}.
Import JSString.

Ltac every_char c := destruct c as [[] [] [] [] [] [] [] []].

Lemma lower_ascii_dot (c : ascii) : Ascii.eqb (JS.lower_ascii c) "." = Ascii.eqb c ".".
Proof. every_char c; reflexivity. Qed.

Lemma lower_ascii_idem (c : ascii) : JS.lower_ascii (JS.lower_ascii c) = JS.lower_ascii c.
Proof. every_char c; reflexivity. Qed.

Lemma append_cons (c : ascii) (s b : string) :
  (String c s ++ b)%string = String c (s ++ b).
Proof. reflexivity. Qed.

Lemma append_empty (s : string) : (s ++ "")%string = s.
Proof.
  induction s as [|c s IH]; [reflexivity|]. rewrite append_cons. f_equal. exact IH.
Qed.

Lemma append_assoc (a b c : string) : ((a ++ b) ++ c)%string = (a ++ (b ++ c))%string.
Proof.
  induction a as [|d a IH]; [reflexivity|]. rewrite !append_cons. f_equal. exact IH.
Qed.

(** *** White space *)

Lemma is_white_space_In (s : string) : is_white_space s = true <-> In s white_space.
Proof.
  unfold is_white_space. rewrite existsb_exists. split.
  - intros (w & Hw & E). apply String.eqb_eq in E. subst. exact Hw.
  - intros Hs. exists s. split; [exact Hs|apply String.eqb_refl].
Qed.

Lemma white_space_character_In (w : string) : white_space_character w <-> In w white_space.
Proof.
  change white_space with (map utf8 white_space_code_points).
  rewrite in_map_iff. unfold white_space_character. split.
  - intros (cp & Hcp & ->). exists cp. split; [reflexivity|exact Hcp].
  - intros (cp & <- & Hcp). exists cp. split; [exact Hcp|reflexivity].
Qed.

Lemma blank_app (a b : string) : blank a -> blank b -> blank (a ++ b).
Proof.
  induction 1 as [|w s Hw Hs IH]; intros Hb; [exact Hb|].
  rewrite append_assoc. apply blank_more; [exact Hw|apply IH, Hb].
Qed.

Lemma blank_one (w : string) : is_white_space w = true -> blank w.
Proof.
  intros Hw. rewrite <- (append_empty w). apply blank_more; [|constructor].
  apply white_space_character_In, is_white_space_In, Hw.
Qed.

(** [trimEnd] cuts a blank tail off. *)
Lemma trimEnd_split (s : string) :
  exists tail : string, s = (trimEnd s ++ tail)%string /\ blank tail.
Proof.
  induction s as [|c rest (tail & E & Htail)].
  - exists EmptyString. split; [reflexivity|constructor].
  - cbn [trimEnd]. cbv zeta. destruct (is_white_space (String c (trimEnd rest))) eqn:Hw.
    + exists (String c rest). split; [reflexivity|].
      rewrite E at 1. rewrite <- append_cons. apply blank_app; [apply blank_one, Hw|exact Htail].
    + exists tail. split; [rewrite append_cons; f_equal; exact E|exact Htail].
Qed.

Lemma trimStart_blank (n : nat) (s : string) :
  (String.length s <= n)%nat -> trimStart s = EmptyString -> blank s.
Proof.
  revert s. induction n as [|n IH]; intros s Hn.
  - destruct s; [constructor|cbn in Hn; lia].
  - destruct s as [|c1 rest1]; [constructor|]. cbn [trimStart].
    destruct (is_white_space (String c1 "")) eqn:H1.
    { intros Ht. change (String c1 rest1) with (String c1 "" ++ rest1)%string.
      apply blank_app; [apply blank_one, H1|]. apply IH; [cbn in Hn; lia|exact Ht]. }
    destruct rest1 as [|c2 rest2]; [discriminate|].
    destruct (is_white_space (String c1 (String c2 ""))) eqn:H2.
    { intros Ht. change (String c1 (String c2 rest2))
        with (String c1 (String c2 "") ++ rest2)%string.
      apply blank_app; [apply blank_one, H2|]. apply IH; [cbn in Hn; lia|exact Ht]. }
    destruct rest2 as [|c3 rest3]; [discriminate|].
    destruct (is_white_space (String c1 (String c2 (String c3 "")))) eqn:H3; [|discriminate].
    intros Ht. change (String c1 (String c2 (String c3 rest3)))
      with (String c1 (String c2 (String c3 "")) ++ rest3)%string.
    apply blank_app; [apply blank_one, H3|]. apply IH; [cbn in Hn; lia|exact Ht].
Qed.

Lemma trimEnd_white_space (w s : string) :
  In w white_space -> trimEnd s = EmptyString -> trimEnd (w ++ s) = EmptyString.
Proof.
  intros Hw Hs. unfold white_space in Hw. cbn [In] in Hw.
  repeat (destruct Hw as [<-|Hw];
          [rewrite ?append_cons; change ("" ++ s)%string with s;
           cbn [trimEnd]; rewrite Hs; reflexivity|]).
  destruct Hw.
Qed.

Lemma trimEnd_blank (s : string) : blank s -> trimEnd s = EmptyString.
Proof.
  induction 1 as [|w s Hw _ IH]; [reflexivity|].
  apply trimEnd_white_space; [apply white_space_character_In, Hw|exact IH].
Qed.

(** [trim] leaves nothing exactly of a blank string. *)
Lemma trim_empty (s : string) : trim s = EmptyString <-> blank s.
Proof.
  unfold trim. split.
  - intros Ht. destruct (trimEnd_split s) as (tail & E & Htail).
    rewrite E. apply blank_app; [|exact Htail].
    apply (trimStart_blank (String.length (trimEnd s))); [lia|exact Ht].
  - intros Hs. rewrite (trimEnd_blank s Hs). reflexivity.
Qed.

(** *** Labels *)

Lemma graphic_ascii7 (c : ascii) : graphic c = true -> ascii7 c = true.
Proof. every_char c; cbn; intros E; try reflexivity; discriminate E. Qed.

Lemma upper_graphic (c : ascii) : is_upper c = true -> graphic c = true.
Proof. every_char c; cbn; intros E; try reflexivity; discriminate E. Qed.

Lemma upper_ascii_graphic (c : ascii) : graphic c = true -> graphic (upper_ascii c) = true.
Proof. every_char c; cbn; intros E; try reflexivity; discriminate E. Qed.

Lemma graphic_not_white_space (c : ascii) :
  graphic c = true -> is_white_space (String c EmptyString) = false.
Proof. every_char c; cbn; intros E; try reflexivity; discriminate E. Qed.

Lemma ascii7_not_white_space (c d : ascii) (r : string) :
  ascii7 c = true -> is_white_space (String c (String d r)) = false.
Proof. every_char c; cbn; intros E; try reflexivity; discriminate E. Qed.

Lemma capitalize_first_graphic (c : ascii) (rest : string) :
  graphic c = true -> capitalize_first (String c rest) = String (upper_ascii c) rest.
Proof. every_char c; cbn; intros E; try reflexivity; discriminate E. Qed.

Lemma trimStart_graphic (c : ascii) (rest : string) :
  graphic c = true -> trimStart (String c rest) = String c rest.
Proof.
  intros Hc. cbn [trimStart]. rewrite (graphic_not_white_space c Hc).
  destruct rest as [|c2 rest2]; [reflexivity|].
  rewrite (ascii7_not_white_space c c2 "" (graphic_ascii7 c Hc)).
  destruct rest2 as [|c3 rest3]; [reflexivity|].
  rewrite (ascii7_not_white_space c c2 (String c3 "") (graphic_ascii7 c Hc)). reflexivity.
Qed.

Lemma trimEnd_fixed (s : string) :
  all_chars ascii7 s = true -> ends_graphic s = true -> trimEnd s = s.
Proof.
  induction s as [|c rest IH]; [reflexivity|].
  cbn [all_chars]. intros Ha He. apply andb_true_iff in Ha as [Hc Ha].
  cbn [trimEnd]. cbv zeta. destruct rest as [|d r].
  - cbn [trimEnd]. cbn [ends_graphic] in He.
    rewrite (graphic_not_white_space c He). reflexivity.
  - rewrite (IH Ha He). rewrite (ascii7_not_white_space c d r Hc). reflexivity.
Qed.

Lemma all_chars_app (p : ascii -> bool) (a b : string) :
  all_chars p (a ++ b) = all_chars p a && all_chars p b.
Proof.
  induction a as [|c a IH]; [reflexivity|].
  rewrite append_cons. cbn [all_chars]. rewrite IH. apply andb_assoc.
Qed.

Lemma all_chars_weaken (p q : ascii -> bool) (s : string) :
  (forall c, p c = true -> q c = true) -> all_chars p s = true -> all_chars q s = true.
Proof.
  intros Hpq. induction s as [|c s IH]; [reflexivity|]. cbn [all_chars].
  intros Hs. apply andb_true_iff in Hs as [Hc Hs]. rewrite (Hpq c Hc), (IH Hs). reflexivity.
Qed.

Lemma small_graphic (c : ascii) : small c = true -> graphic c = true.
Proof. unfold small. intros Hc. apply andb_true_iff in Hc. apply Hc. Qed.

Lemma small_not_upper (c : ascii) : small c = true -> is_upper c = false.
Proof. unfold small. intros Hc. apply andb_true_iff in Hc as [_ Hc]. apply negb_true_iff, Hc. Qed.

Lemma capital_word_graphic (w : string) :
  capital_word w = true -> w <> EmptyString /\ all_chars graphic w = true.
Proof.
  destruct w as [|c rest]; [discriminate|]. cbn [capital_word all_chars].
  intros Hw. apply andb_true_iff in Hw as [Hc Hrest]. split; [discriminate|].
  rewrite (upper_graphic c Hc). apply (all_chars_weaken small); [apply small_graphic|exact Hrest].
Qed.

Lemma ends_graphic_app (a b : string) :
  ends_graphic b = true -> ends_graphic (a ++ b) = true.
Proof.
  intros Hb. induction a as [|c a IH]; [exact Hb|].
  rewrite append_cons. cbn [ends_graphic].
  destruct (a ++ b)%string eqn:E; [|exact IH].
  destruct a; [|discriminate E]. change ("" ++ b)%string with b in E.
  rewrite E in Hb. discriminate Hb.
Qed.

Lemma ends_graphic_all (s : string) :
  s <> EmptyString -> all_chars graphic s = true -> ends_graphic s = true.
Proof.
  induction s as [|c rest IH]; [congruence|]. intros _. cbn [all_chars].
  intros Hs. apply andb_true_iff in Hs as [Hc Hrest].
  destruct rest as [|d r]; [exact Hc|]. apply IH; [discriminate|exact Hrest].
Qed.

Lemma concat_flat (l : list string) : String.concat "" l = flat l.
Proof.
  induction l as [|x xs IH]; [reflexivity|].
  destruct xs as [|y ys].
  - symmetry. apply append_empty.
  - change (String.concat "" (x :: y :: ys))
      with (x ++ "" ++ String.concat "" (y :: ys))%string.
    rewrite IH. reflexivity.
Qed.

Lemma concat_space (x : string) (xs : list string) :
  String.concat " " (x :: xs) = (x ++ flat (map (append " ") xs))%string.
Proof.
  revert x. induction xs as [|y ys IH]; intros x.
  - symmetry. apply append_empty.
  - change (String.concat " " (x :: y :: ys))
      with (x ++ " " ++ String.concat " " (y :: ys))%string.
    rewrite (IH y). cbn [map flat fold_right].
    rewrite append_assoc. reflexivity.
Qed.

Lemma space_before_small (w t : string) :
  small_word w = true ->
  space_before_capitals (w ++ t) = (w ++ space_before_capitals t)%string.
Proof.
  induction w as [|c w IH]; [reflexivity|]. cbn [small_word all_chars].
  intros Hw. apply andb_true_iff in Hw as [Hc Hw].
  rewrite !append_cons. cbn [space_before_capitals].
  rewrite (small_not_upper c Hc), (IH Hw). reflexivity.
Qed.

Lemma space_before_capital (w t : string) :
  capital_word w = true ->
  space_before_capitals (w ++ t) = (String " " w ++ space_before_capitals t)%string.
Proof.
  destruct w as [|c w]; [discriminate|]. cbn [capital_word].
  intros Hw. apply andb_true_iff in Hw as [Hc Hw].
  rewrite !append_cons. cbn [space_before_capitals].
  rewrite Hc, (space_before_small w t Hw). reflexivity.
Qed.

Lemma space_before_words (ws : list string) :
  forallb capital_word ws = true ->
  space_before_capitals (flat ws) = flat (map (append " ") ws).
Proof.
  induction ws as [|w ws IH]; [reflexivity|]. cbn [forallb].
  intros Hws. apply andb_true_iff in Hws as [Hw Hws].
  cbn [flat fold_right map]. fold (flat ws). fold (flat (map (append " ") ws)).
  rewrite (space_before_capital w (flat ws) Hw), (IH Hws).
  rewrite append_cons, append_assoc. reflexivity.
Qed.

Lemma spaced_words_ascii7 (ws : list string) :
  forallb capital_word ws = true ->
  all_chars ascii7 (flat (map (append " ") ws)) = true.
Proof.
  induction ws as [|w ws IH]; [reflexivity|]. cbn [forallb].
  intros Hws. apply andb_true_iff in Hws as [Hw Hws].
  cbn [flat fold_right map]. fold (flat (map (append " ") ws)).
  rewrite all_chars_app, (IH Hws), andb_true_r.
  change (" " ++ w)%string with (String " " w). cbn [all_chars].
  change (ascii7 " ") with true. cbn [andb].
  apply (all_chars_weaken graphic); [apply graphic_ascii7|].
  apply capital_word_graphic, Hw.
Qed.

Lemma spaced_words_end (ws : list string) :
  ws <> [] -> forallb capital_word ws = true ->
  ends_graphic (flat (map (append " ") ws)) = true.
Proof.
  induction ws as [|w ws IH]; [congruence|]. intros _. cbn [forallb].
  intros Hws. apply andb_true_iff in Hws as [Hw Hws].
  cbn [flat fold_right map]. fold (flat (map (append " ") ws)).
  destruct ws as [|w' ws'].
  - cbn [map flat fold_right]. rewrite append_empty.
    apply ends_graphic_app. destruct (capital_word_graphic w Hw) as [Hne Hg].
    apply ends_graphic_all; assumption.
  - apply ends_graphic_app, IH; [discriminate|exact Hws].
Qed.

Lemma camelCase_label (c : ascii) (first : string) (others : list string) :
  small_word (String c first) = true ->
  forallb capital_word others = true ->
  formatColumnName (String c first ++ String.concat "" others)
  = String.concat " " (String (upper_ascii c) first :: others).
Proof.
  intros Hfirst Hothers. unfold formatColumnName.
  rewrite concat_flat, concat_space, (space_before_small _ _ Hfirst).
  rewrite (space_before_words others Hothers).
  cbn [small_word all_chars] in Hfirst. apply andb_true_iff in Hfirst as [Hc Hfirst].
  pose proof (upper_ascii_graphic c (small_graphic c Hc)) as Hup.
  rewrite append_cons, (capitalize_first_graphic c _ (small_graphic c Hc)).
  unfold trim. rewrite trimEnd_fixed.
  - rewrite append_cons. apply trimStart_graphic, Hup.
  - cbn [all_chars]. rewrite all_chars_app, (spaced_words_ascii7 others Hothers), andb_true_r.
    rewrite (graphic_ascii7 _ Hup). cbn [andb].
    apply (all_chars_weaken small); [|exact Hfirst].
    intros d Hd. apply graphic_ascii7, small_graphic, Hd.
  - rewrite <- append_cons. destruct others as [|w ws].
    + cbn [map flat fold_right]. rewrite append_empty.
      apply ends_graphic_all; [discriminate|]. cbn [all_chars].
      rewrite Hup. cbn [andb].
      apply (all_chars_weaken small); [apply small_graphic|exact Hfirst].
    + apply ends_graphic_app, spaced_words_end; [discriminate|exact Hothers].
Qed.

Lemma PascalCase_label (others : list string) :
  forallb capital_word others = true ->
  formatColumnName (String.concat "" others) = String.concat " " others.
Proof.
  intros Hothers. unfold formatColumnName.
  rewrite concat_flat, (space_before_words others Hothers).
  destruct others as [|w ws]; [reflexivity|].
  rewrite concat_space.
  pose proof (spaced_words_ascii7 (w :: ws) Hothers) as Ha.
  pose proof (spaced_words_end (w :: ws) ltac:(discriminate) Hothers) as He.
  cbn [map flat fold_right] in *. fold (flat (map (append " ") ws)) in *.
  change (" " ++ w)%string with (String " " w) in *. rewrite append_cons in *.
  change (capitalize_first (String " " (w ++ flat (map (append " ") ws))))
    with (String " " (w ++ flat (map (append " ") ws))).
  unfold trim. rewrite (trimEnd_fixed _ Ha He).
  cbn [forallb] in Hothers. apply andb_true_iff in Hothers as [Hw _].
  destruct w as [|d w]; [discriminate Hw|].
  cbn [capital_word] in Hw. apply andb_true_iff in Hw as [Hd _].
  change (trimStart (String " " (String d w ++ flat (map (append " ") ws))))
    with (trimStart (String d w ++ flat (map (append " ") ws))).
  rewrite append_cons. apply trimStart_graphic, upper_graphic, Hd.
Qed.

(** Every name of visible ASCII characters is made of such words. *)
Lemma camel_words_spec (s : string) :
  all_chars graphic s = true ->
  s = (fst (camel_words s) ++ String.concat "" (snd (camel_words s)))%string /\
  small_word (fst (camel_words s)) = true /\
  forallb capital_word (snd (camel_words s)) = true.
Proof.
  induction s as [|c s IH]; [repeat split|]. cbn [all_chars].
  intros Hs. apply andb_true_iff in Hs as [Hc Hs].
  destruct (IH Hs) as (E & Hw & Hws). cbn [camel_words].
  destruct (camel_words s) as [w ws]. cbn [fst snd] in *.
  rewrite concat_flat in E. destruct (is_upper c) eqn:Hu; cbn [fst snd].
  - rewrite concat_flat. cbn [flat fold_right]. fold (flat ws).
    change ("" ++ String c w ++ flat ws)%string with (String c (w ++ flat ws)).
    rewrite <- E. split; [reflexivity|]. split; [reflexivity|].
    cbn [forallb capital_word]. rewrite Hu, Hw, Hws. reflexivity.
  - rewrite concat_flat, append_cons, <- E. split; [reflexivity|].
    split; [|exact Hws]. cbn [small_word all_chars]. unfold small. rewrite Hc, Hu. exact Hw.
Qed.

(** X11: [formatColumnName] and the identical [toLabel] turn a camelCase
    name into its words separated by single spaces, the first letter in
    upper case: for a name that is a word without capitals followed by
    words that each begin with their only capital, the label is exactly
    these words joined by one space, with the first character of the first
    word upper-cased and nothing else changed; a name that begins with a
    capital gives the words as they are.  Every name of visible ASCII
    characters is cut into such words by cutting before each capital. *)
Theorem label_of_camel_case (c : ascii) (first : string) (others : list string) :
  small_word (String c first) = true ->
  forallb capital_word others = true ->
  formatColumnName (String c first ++ String.concat "" others)
  = String.concat " " (String (upper_ascii c) first :: others) /\
  formatColumnName (String.concat "" others) = String.concat " " others /\
  toLabel (String c first ++ String.concat "" others)
  = formatColumnName (String c first ++ String.concat "" others) /\
  (forall name : string,
      all_chars graphic name = true ->
      name = (fst (camel_words name) ++ String.concat "" (snd (camel_words name)))%string /\
      small_word (fst (camel_words name)) = true /\
      forallb capital_word (snd (camel_words name)) = true).
Proof.
  intros Hfirst Hothers.
  split; [apply camelCase_label; assumption|].
  split; [apply PascalCase_label; assumption|].
  split; [reflexivity|]. apply camel_words_spec.
Qed.

(** *** The part after the last separator *)

Lemma append_snoc (a b : string) (c : ascii) :
  ((a ++ String c EmptyString) ++ b)%string = (a ++ String c b)%string.
Proof.
  induction a as [|d a IH]; [reflexivity|]. rewrite !append_cons. f_equal. exact IH.
Qed.

Lemma last_after_clean (sep : ascii) (acc b : string) :
  has_char sep b = false -> last_after sep acc b = (acc ++ b)%string.
Proof.
  revert acc. induction b as [|c b IH]; intros acc; cbn.
  - intros _. symmetry. apply append_empty.
  - intros Hb. apply orb_false_iff in Hb as [Hc Hb]. rewrite Hc, IH by exact Hb.
    apply append_snoc.
Qed.

Lemma last_after_app (sep : ascii) (acc a b : string) :
  last_after sep acc (a ++ String sep b) = last_after sep EmptyString b.
Proof.
  revert acc. induction a as [|c a IH]; intros acc.
  - change ("" ++ String sep b)%string with (String sep b). cbn [last_after].
    rewrite Ascii.eqb_refl. reflexivity.
  - rewrite append_cons. cbn [last_after]. destruct (Ascii.eqb c sep); apply IH.
Qed.

Lemma last_segment_last_after (acc s : string) :
  Formatters.last_segment acc s = last_after "." acc s.
Proof.
  revert acc. induction s as [|c s IH]; intros acc; [reflexivity|].
  cbn. destruct (Ascii.eqb c "."); apply IH.
Qed.

Lemma toLowerCase_app (a b : string) :
  JS.toLowerCase (a ++ b) = (JS.toLowerCase a ++ JS.toLowerCase b)%string.
Proof.
  induction a as [|c a IH]; [reflexivity|].
  rewrite !append_cons. cbn [JS.toLowerCase]. rewrite append_cons. f_equal. exact IH.
Qed.

Lemma toLowerCase_idem (s : string) :
  JS.toLowerCase (JS.toLowerCase s) = JS.toLowerCase s.
Proof.
  induction s as [|c s IH]; cbn; [reflexivity|]. rewrite lower_ascii_idem, IH.
  reflexivity.
Qed.

Lemma toLowerCase_last_segment (acc s : string) :
  JS.toLowerCase (Formatters.last_segment acc s)
  = Formatters.last_segment (JS.toLowerCase acc) (JS.toLowerCase s).
Proof.
  revert acc. induction s as [|c s IH]; intros acc; [reflexivity|].
  cbn [Formatters.last_segment JS.toLowerCase]. rewrite lower_ascii_dot.
  destruct (Ascii.eqb c "."); rewrite IH; [reflexivity|].
  rewrite toLowerCase_app. reflexivity.
Qed.

Import Formatters.

(** X12: without a deciding MIME type the file type depends only on the
    text after the last dot of the path, whatever comes before that dot, and
    not on the case of its letters. *)
Theorem extension_decides (a b : string) (mimeType : option string) :
  content_type_of_mime mimeType = None ->
  getContentType (a ++ String "." b) mimeType = getContentType b mimeType /\
  getContentType (JS.toLowerCase b) mimeType = getContentType b mimeType.
Proof.
  intros Hm. unfold getContentType. rewrite Hm. unfold content_type_of_extension.
  split.
  - rewrite !last_segment_last_after, last_after_app. reflexivity.
  - rewrite <- (toLowerCase_idem (last_segment EmptyString b)).
    rewrite (toLowerCase_last_segment EmptyString b). reflexivity.
Qed.

Lemma prefix_head (p s : string) (c : ascii) :
  String.prefix (String c p) s = true -> exists r, s = String c r.
Proof.
  destruct s as [|d r]; cbn; [discriminate|].
  destruct (ascii_dec c d) as [->|]; [eauto|discriminate].
Qed.

(** X13: the MIME type takes priority over the path: a blob typed
    [image/...] is an image, [application/pdf] a PDF and [text/...] a text
    whatever the extension of the path says. *)
Theorem mime_type_wins (path m : string) :
  (JS.startsWith "image/" m = true -> getContentType path (Some m) = CtImage) /\
  (m = "application/pdf" -> getContentType path (Some m) = CtPdf) /\
  (JS.startsWith "text/" m = true -> getContentType path (Some m) = CtText).
Proof.
  unfold getContentType, content_type_of_mime, JS.startsWith.
  split; [|split].
  - intros Hi. destruct (prefix_head _ _ _ Hi) as [r ->].
    cbn [String.eqb]. rewrite Hi. reflexivity.
  - intros ->. reflexivity.
  - intros Ht. destruct (prefix_head _ _ _ Ht) as [r ->].
    change (String.eqb (String "t" r) "") with false. cbn iota.
    change (String.prefix "image/" (String "t" r)) with false. cbn iota.
    change (String.eqb (String "t" r) "application/pdf") with false. cbn iota.
    rewrite Ht. reflexivity.
Qed.

Example content_types :
  getContentType "/in/scan" (Some "application/pdf") = CtPdf /\
  getContentType "/in/archive.tar.PNG" (Some "application/octet-stream") = CtImage /\
  getContentType "/in/v1.2/readme" None = CtUnknown /\
  getContentType "pdf" (Some "") = CtPdf.
Proof. repeat split. Qed.

Lemma extension_decides_witness :
  getContentType ("/in/v1.2/notes" ++ String "." "TXT") None = CtText.
Proof.
  destruct (extension_decides "/in/v1.2/notes" "TXT" None eq_refl) as [Hdot _].
  rewrite Hdot. reflexivity.
Defined.

Lemma mime_type_wins_witness :
  getContentType "/in/scan.pdf" (Some "image/png") = CtImage.
Proof. apply (mime_type_wins "/in/scan.pdf" "image/png"). reflexivity. Defined.

End StringFacts.

Section LabelExamples.
#[local] Existing Instance sample_platform.
Import JSString.

Example labels :
  formatColumnName "loanAmount" = "Loan Amount" /\
  toLabel "ApplicantName" = "Applicant Name" /\
  formatColumnName "customerID" = "Customer I D" /\
  formatColumnName "  spaced " = "spaced" /\
  formatColumnName (utf8 0x3000 ++ "total" ++ utf8 0xA0) = "total".
Proof. repeat split. Qed.

Example trim_unicode :
  trim (utf8 0xFEFF ++ " a" ++ utf8 0x2003 ++ "b" ++ utf8 0x2029 ++ utf8 0xA0) 
  = ("a" ++ utf8 0x2003 ++ "b")%string /\
  trim (utf8 0x3000 ++ utf8 0xA0 ++ utf8 0x9) = "" /\
  trim (utf8 0x85) = utf8 0x85.
Proof. repeat split. Qed.

Lemma label_of_camel_case_witness :
  formatColumnName ("loan" ++ String.concat "" ["Amount"; "Due"]) = "Loan Amount Due" /\
  formatColumnName (String.concat "" ["Customer"; "I"; "D"]) = "Customer I D".
Proof.
  destruct (label_of_camel_case "l" "oan" ["Amount"; "Due"] eq_refl eq_refl) as (Hcamel & _).
  destruct (label_of_camel_case "x" "" ["Customer"; "I"; "D"] eq_refl eq_refl)
    as (_ & Hpascal & _).
  split; [exact Hcamel|exact Hpascal].
Defined.

End LabelExamples.

(** ** OutcomeButtons *)

Section OutcomeButtonsFacts.
Import OutcomeButtons.

(** X14: the icon and the colour of a decision button always agree: the
    check mark goes with the default variant, the cross with the destructive
    one, the two neutral icons with the outline; an outcome that mentions
    both approving and rejecting is shown as an approval. *)
Theorem icon_matches_variant (outcome : string) :
  (getOutcomeVariant outcome = Default <-> getOutcomeIcon outcome = Check) /\
  (getOutcomeVariant outcome = Destructive <-> getOutcomeIcon outcome = X) /\
  (getOutcomeVariant outcome = Outline <->
   getOutcomeIcon outcome = AlertCircle \/ getOutcomeIcon outcome = ArrowRight) /\
  getOutcomeVariant outcome <> Secondary /\
  (mentions outcome ["approve"; "accept"; "confirm"] = true ->
   getOutcomeVariant outcome = Default).
Proof.
  unfold getOutcomeVariant, getOutcomeIcon.
  destruct (mentions outcome ["approve"; "accept"; "confirm"]);
    destruct (mentions outcome ["reject"; "deny"; "decline"]);
    destruct (mentions outcome ["escalate"; "review"; "pending"]);
    repeat split; try discriminate; try reflexivity; auto;
    try (intros [E|E]; discriminate E).
Qed.

(** X15: [OutcomeButtons] renders nothing for a read-only task or an empty
    list of outcomes; otherwise it renders one button per outcome, in order,
    each captioned with its outcome and passing exactly that outcome to
    [onOutcome], and all of them disabled together. *)
Theorem OutcomeButtons_rendering (outcomes : list string) (disabled_ readOnly : bool) :
  (OutcomeButtons outcomes disabled_ readOnly = None <->
   readOnly = true \/ outcomes = []) /\
  (forall bs, OutcomeButtons outcomes disabled_ readOnly = Some bs ->
              map sends bs = outcomes /\ map caption bs = outcomes /\
              Forall (fun b => disabled b = disabled_) bs).
Proof.
  unfold OutcomeButtons. split.
  - destruct readOnly; cbn [orb]; [split; auto|].
    destruct outcomes as [|o os]; cbn; split; auto; try discriminate.
    intros [E|E]; discriminate E.
  - intros bs. destruct (readOnly || (length outcomes =? 0)%nat); [discriminate|].
    intros [= <-]. rewrite !map_map. cbn. rewrite !map_id.
    repeat split. apply Forall_map. apply Forall_forall. intros; reflexivity.
Qed.

Example outcome_looks :
  map (fun o => (getOutcomeVariant o, getOutcomeIcon o))
    ["Approve"; "REJECT"; "Escalate"; "Reject or approve"; "Send back"]
  = [(Default, Check); (Destructive, X); (Outline, AlertCircle);
     (Default, Check); (Outline, ArrowRight)].
Proof. reflexivity. Qed.

Lemma icon_matches_variant_witness : getOutcomeVariant "Accept offer" = Default.
Proof. apply (icon_matches_variant "Accept offer"). reflexivity. Defined.

Lemma OutcomeButtons_rendering_witness :
  exists bs, OutcomeButtons ["Approve"; "Reject"] true false = Some bs /\
             map sends bs = ["Approve"; "Reject"].
Proof.
  eexists. split; [reflexivity|].
  apply (OutcomeButtons_rendering ["Approve"; "Reject"] true false). reflexivity.
Defined.

End OutcomeButtonsFacts.

(** ** EntityRecordsTable *)

Section EntityRecordsTableFacts.
Context `{Json}.
Import EntityRecordsTable.

(** X16: the table takes its columns from the first record, never shows
    the [id] column, and gives every record one row with one cell per
    column.  The cell of a record that has the column shows the formatted
    value.  The cell of a record that lacks the column shows ["-"], unless
    the column is named like a member of [Object.prototype]: then the
    record inherits that member, and the cell shows the text of the
    inherited function (the formatted empty object for [__proto__]). *)
Theorem table_shape (p : props) (t : table) :
  grid (EntityRecordsTable p) = Some t ->
  header t = map formatColumnName (columns (records p)) /\
  ~ In "id" (columns (records p)) /\
  length (rows t) = length (records p) /\
  Forall (fun row => length row = length (header t)) (rows t) /\
  (forall (i j : nat) (record : list (string * value)) (column : string),
      records p !! i = Some record ->
      columns (records p) !! j = Some column ->
      let cell := rows t !! i ≫= (fun row => row !! j) in
      (JS.has_key column record = true ->
       cell = Some (Formatters.formatCellValue (JS.get column record))) /\
      (JS.has_key column record = false ->
       (column <> "__proto__" -> JS.is_object_prototype_method column = false ->
        cell = Some "-") /\
       (JS.is_object_prototype_method column = true ->
        cell = Some (native_function_to_string column)) /\
       (column = "__proto__" -> cell = Some (Formatters.formatCellValue (VObj []))))).
Proof.
  unfold EntityRecordsTable. cbn [grid].
  destruct (length (records p) =? 0)%nat; [discriminate|].
  intros [= <-]. cbn [header rows].
  split; [reflexivity|]. split.
  { unfold columns. destruct (records p) as [|first rest]; [intros []|].
    intros Hin. apply List.filter_In in Hin as [_ Hid]. discriminate Hid. }
  split; [apply length_map|]. split.
  { apply Forall_map. apply Forall_forall. intros record _.
    cbn. rewrite !length_map. reflexivity. }
  intros i j record column Hi Hj. cbn zeta.
  rewrite list_lookup_fmap, Hi. cbn [fmap option_fmap option_map mbind option_bind].
  rewrite list_lookup_fmap, Hj. cbn [fmap option_fmap option_map].
  unfold JS.member_of. split.
  - intros ->. reflexivity.
  - intros ->. split; [|split].
    + intros Hproto Hmethod. apply String.eqb_neq in Hproto.
      rewrite Hproto, Hmethod. reflexivity.
    + intros Hmethod.
      assert (Hproto : String.eqb column "__proto__" = false).
      { destruct (String.eqb_spec column "__proto__") as [->|]; [discriminate Hmethod|reflexivity]. }
      rewrite Hproto, Hmethod. reflexivity.
    + intros ->. reflexivity.
Qed.

(** X17: the table always shows something, and never two of its three
    bodies at once: the loading skeleton only while loading with no record,
    the "no records" notice only when idle without error and without
    records, the grid exactly when there are records; with a grid, Load More
    is offered exactly when there is a next page and is disabled while
    loading. *)
Theorem table_states (p : props) :
  let v := EntityRecordsTable p in
  (skeleton v = true \/ is_Some (alert v) \/ empty_notice v = true \/ is_Some (grid v)) /\
  (skeleton v = true -> empty_notice v = false /\ grid v = None) /\
  (empty_notice v = true -> grid v = None /\ alert v = None) /\
  (is_Some (grid v) <-> records p <> []) /\
  (forall t, grid v = Some t ->
             load_more t = if hasNextPage p then Some (loading p) else None).
Proof.
  cbn zeta. unfold EntityRecordsTable. cbn [skeleton alert empty_notice grid].
  destruct (records p) as [|first rest]; cbn [length Nat.eqb].
  - split.
    { destruct (loading p); [left; reflexivity|].
      destruct (opt_truthy (error p)) eqn:He.
      - right; left. destruct (error p); [eauto|discriminate He].
      - right; right; left. reflexivity. }
    split.
    { intros Hs. apply andb_true_iff in Hs as [-> _]. split; reflexivity. }
    split.
    { intros Hs. apply andb_true_iff in Hs as [Hs _].
      apply andb_true_iff in Hs as [_ He]. apply negb_true_iff in He.
      rewrite He. split; reflexivity. }
    split.
    { split; [intros [x Hx]; discriminate Hx|intros Hne; contradiction Hne; reflexivity]. }
    intros t Ht. discriminate Ht.
  - split; [right; right; right; eauto|].
    split; [rewrite andb_false_r; discriminate|].
    split; [rewrite andb_false_r; discriminate|].
    split; [split; [discriminate|eauto]|].
    intros t [= <-]. reflexivity.
Qed.

End EntityRecordsTableFacts.

Section EntityRecordsTableExamples.
#[local] Existing Instance sample_platform.
#[local] Existing Instance sample_json.
Import EntityRecordsTable.

Example two_records_grid :
  grid (EntityRecordsTable two_records)
  = Some {| header := ["Customer Name"; "Paid"];
            rows := [["Ada"; "Yes"]; ["-"; "No"]];
            load_more := Some true |}.
Proof. reflexivity. Qed.

(** A column named like a member of [Object.prototype]: the record
    without it shows the inherited function. *)
Example inherited_cell :
  grid (EntityRecordsTable
          {| records := [[("constructor", VStr "Ada")]; [("id", VStr "r2")]];
             loading := false; error := None; hasNextPage := false;
             totalCount := None; entityName := "Builders" |})
  = Some {| header := ["Constructor"];
            rows := [["Ada"]; ["function constructor() { [native code] }"]];
            load_more := None |}.
Proof. reflexivity. Qed.

Lemma table_shape_witness :
  exists t, grid (EntityRecordsTable two_records) = Some t /\
            rows t !! 1%nat ≫= (fun row => row !! 0%nat) = Some "-" /\
            rows t !! 0%nat ≫= (fun row => row !! 0%nat) = Some "Ada".
Proof.
  eexists. split; [reflexivity|].
  destruct (table_shape two_records _ eq_refl) as (_ & _ & _ & _ & Hcell).
  split.
  - destruct (Hcell 1%nat 0%nat _ "customerName" eq_refl eq_refl) as [_ Habsent].
    destruct (Habsent eq_refl) as [Hdash _].
    apply Hdash; [discriminate|reflexivity].
  - destruct (Hcell 0%nat 0%nat _ "customerName" eq_refl eq_refl) as [Hown _].
    apply (Hown eq_refl).
Defined.

Lemma table_states_witness :
  skeleton (EntityRecordsTable two_records) = false /\
  is_Some (grid (EntityRecordsTable two_records)).
Proof.
  destruct (table_states two_records) as (_ & _ & _ & Hgrid & _).
  split; [reflexivity|]. apply Hgrid. discriminate.
Defined.

End EntityRecordsTableExamples.

(** ** DocumentViewer *)

Section DocumentViewerFacts.
Import Formatters DocumentViewer.

(** X18: a document card always shows exactly one of: the preview, or
    "no document", or the loading and error blocks; a preview appears only
    when the document is neither loading nor failed and has a url, it is of
    the kind the content type names, and a PDF preview hands exactly that
    url to the PDF viewer, with controls. *)
Theorem document_card_states (p : props) (s : state) :
  let v := DocumentViewer p s in
  (is_Some (shown v) <->
   loading p = false /\ opt_truthy (error p) = false /\ opt_truthy (url p) = true) /\
  (no_document v = true <->
   loading p = false /\ opt_truthy (error p) = false /\ opt_truthy (url p) = false) /\
  (is_Some (shown v) \/ no_document v = true \/ skeleton v = true \/ is_Some (alert v)) /\
  (forall c, shown v = Some c ->
             content_kind c = contentType p /\ no_document v = false /\
             skeleton v = false /\ alert v = None /\
             (forall viewer h, c = PdfContent viewer h ->
                               PDFViewer.file viewer = url p /\
                               PDFViewer.showControls viewer = true)).
Proof.
  cbn zeta. unfold DocumentViewer. cbn [shown no_document skeleton alert].
  destruct (loading p) eqn:HL, (opt_truthy (error p)) eqn:HE,
    (opt_truthy (url p)) eqn:HU; cbn [negb andb].
  all: split;
    [split; [intros [x Hx]; first [discriminate Hx|repeat split]
            |intros (A & B & C);
             first [discriminate A|discriminate B|discriminate C|eauto]]|].
  all: split;
    [split; [intros Hx; first [discriminate Hx|repeat split]
            |intros (A & B & C);
             first [discriminate A|discriminate B|discriminate C|reflexivity]]|].
  all: split;
    [first [left; eexists; reflexivity
           |right; left; reflexivity
           |right; right; left; reflexivity
           |right; right; right; destruct (error p); [eauto|discriminate HE]]|].
  all: intros c Hc; try discriminate Hc.
  injection Hc as <-.
  destruct (url p) as [u|]; [|discriminate HU]. cbn [default].
  destruct (contentType p); cbn [content_kind];
    (split; [reflexivity|]); (split; [reflexivity|]);
    (split; [reflexivity|]); (split; [reflexivity|]);
    intros viewer h Hv; try discriminate Hv; injection Hv as <- <-;
    split; reflexivity.
Qed.

(** X19: the title of a document card is the part of the path after its
    last slash; a path that ends in a slash, or has none, is shown whole. *)
Theorem file_name_of_path (dir name : string) :
  (has_char "/" name = false -> name <> EmptyString ->
   getFileName (card_for (dir ++ String "/" name)) = name) /\
  getFileName (card_for (dir ++ String "/" EmptyString))
  = (dir ++ String "/" EmptyString)%string /\
  (has_char "/" name = false -> getFileName (card_for name) = name).
Proof.
  unfold getFileName, card_for. cbn [path].
  split; [|split].
  - intros Hn Hne. rewrite last_after_app, (last_after_clean "/" "" name Hn).
    change ("" ++ name)%string with name.
    unfold str_truthy. destruct (String.eqb_spec name "") as [E|_]; [contradiction|].
    reflexivity.
  - rewrite last_after_app. reflexivity.
  - intros Hn. rewrite (last_after_clean "/" "" name Hn).
    change ("" ++ name)%string with name.
    unfold str_truthy. destruct (String.eqb_spec name "") as [->|_]; reflexivity.
Qed.

Ltac run_text :=
  unfold text_effect, update, log, on_cells,
    Eff.exec, Eff.result, Eff.try_catch_finally, Eff.try_catch, Eff.bind,
    Eff.await, Eff.modify, Eff.ret, Eff.throw;
  cbn [fst snd cells net_log].

(** X20: the text preview fetches only for a text document that has a url
    and is neither loading nor failed, and then exactly once from that url;
    the fetch never throws; it always ends with [textLoading] false; a
    rejected request, a response that is not [ok] or an unreadable body end
    in [textError] holding the failure's message, and a success in the text
    being stored with [textError] null. *)
Theorem text_preview_fetch (env : environment) (p : props) (w : world) :
  Eff.result (text_effect env p) w = Returned tt /\
  (text_wanted p = false -> Eff.exec (text_effect env p) w = w) /\
  (text_wanted p = true ->
   let w' := Eff.exec (text_effect env p) w in
   textLoading (cells w') = false /\
   List.filter (fun c => match c with Fetch _ => true | _ => false end) (net_log w')
   = List.filter (fun c => match c with Fetch _ => true | _ => false end) (net_log w)
     ++ [Fetch (default "" (url p))] /\
   (forall e, fetch_settles env = inl e ->
              textError (cells w') = Some (message_or "Failed to load text content" e)) /\
   (forall status, fetch_settles env = inr (false, status) ->
                   textError (cells w')
                   = Some ("Failed to fetch text content: " ++ status)%string) /\
   (forall status e, fetch_settles env = inr (true, status) -> text_settles env = inl e ->
                     textError (cells w')
                     = Some (message_or "Failed to load text content" e)) /\
   (forall status text, fetch_settles env = inr (true, status) ->
                        text_settles env = inr text ->
                        textContent (cells w') = text /\ textError (cells w') = None)).
Proof.
  unfold text_wanted. split; [|split].
  - run_text. destruct (contentType p); try reflexivity.
    destruct (opt_truthy (url p) && negb (loading p) && negb (opt_truthy (error p)));
      [|reflexivity]. cbn.
    destruct (fetch_settles env) as [e|[[] status]]; cbn; try reflexivity.
    destruct (text_settles env); reflexivity.
  - run_text. destruct (contentType p); try (intros _; destruct w; reflexivity).
    intros ->. destruct w; reflexivity.
  - run_text. destruct (contentType p); try discriminate.
    intros ->. cbn zeta. cbn.
    destruct (fetch_settles env) as [e|[[] status]] eqn:Hf; cbn.
    + split; [reflexivity|]. split; [rewrite List.filter_app; reflexivity|].
      repeat split; intros; try discriminate. congruence.
    + destruct (text_settles env) as [e|text] eqn:Ht; cbn.
      * split; [reflexivity|].
        split; [rewrite <- app_assoc, List.filter_app; reflexivity|].
        repeat split; intros; try discriminate; congruence.
      * split; [reflexivity|].
        split; [rewrite <- app_assoc, List.filter_app; reflexivity|].
        repeat split; intros; try discriminate; congruence.
    + split; [reflexivity|]. split; [rewrite List.filter_app; reflexivity|].
      repeat split; intros; try discriminate; congruence.
Qed.

End DocumentViewerFacts.

Section DocumentViewerExamples.
Import Formatters DocumentViewer.

Example pdf_card_view :
  DocumentViewer pdf_card initial
  = {| title := "scan.pdf"; title_icon := FileText; skeleton := false; alert := None;
       shown := Some (PdfContent {| PDFViewer.file := Some "blob:scan";
                                    PDFViewer.showControls := true |} 400);
       no_document := false |}.
Proof. reflexivity. Qed.

Example notes_missing_run :
  text_effect notes_missing notes_card {| cells := initial; net_log := [] |}
  = (Returned tt,
     {| cells := {| textContent := ""; textLoading := false;
                    textError := Some "Failed to fetch text content: Gone" |};
        net_log := [Fetch "blob:notes"] |}).
Proof. reflexivity. Qed.

Lemma document_card_states_witness :
  exists c, shown (DocumentViewer pdf_card initial) = Some c /\ content_kind c = CtPdf.
Proof.
  destruct (document_card_states pdf_card initial) as (Hshown & _ & _ & Hkind).
  assert (Hsome : is_Some (shown (DocumentViewer pdf_card initial)))
    by (apply Hshown; repeat split).
  destruct Hsome as [c Hc].
  exists c. split; [exact Hc|]. apply (Hkind c Hc).
Defined.

Lemma file_name_of_path_witness :
  getFileName (card_for ("/in/2024" ++ String "/" "scan.pdf")) = "scan.pdf".
Proof.
  destruct (file_name_of_path "/in/2024" "scan.pdf") as (Hname & _ & _).
  apply Hname; [reflexivity|discriminate].
Defined.

Lemma text_preview_fetch_witness :
  textError (cells (Eff.exec (text_effect notes_missing notes_card)
                      {| cells := initial; net_log := [] |}))
  = Some "Failed to fetch text content: Gone" /\
  Eff.exec (text_effect notes_missing pdf_card) {| cells := initial; net_log := [] |}
  = {| cells := initial; net_log := [] |}.
Proof.
  destruct (text_preview_fetch notes_missing notes_card {| cells := initial; net_log := [] |})
    as (_ & _ & Hrun).
  destruct (text_preview_fetch notes_missing pdf_card {| cells := initial; net_log := [] |})
    as (_ & Hskip & _).
  split.
  - destruct (Hrun eq_refl) as (_ & _ & _ & Hnot_ok & _).
    apply (Hnot_ok "Gone"). reflexivity.
  - apply Hskip. reflexivity.
Defined.

End DocumentViewerExamples.

(** ** ActionFormField and the form renderers *)

Section FormFacts.
Context `{Platform}.
Import ActionFormField FormRenderer.


(** X21: a field of a numeric type reports [undefined] when it is
    cleared, and otherwise the parsed number: [parseInt(_, 10)] with step 1
    for the six integer types, [parseFloat] with step [any] for Double,
    Single and Decimal. *)
Theorem number_field_reports (p : props) (t : VBDataType) (typed : string) :
  type p = vb t ->
  (In t integer_types ->
   input_step (ActionFormField.rendered (ActionFormField p)) = Some StepOne /\
   reported (ActionFormField.rendered (ActionFormField p)) "" = Some VUndefined /\
   (typed <> "" ->
    reported (ActionFormField.rendered (ActionFormField p)) typed = Some (VNum (parseInt10 typed)))) /\
  (In t floating_types ->
   input_step (ActionFormField.rendered (ActionFormField p)) = Some StepAny /\
   reported (ActionFormField.rendered (ActionFormField p)) "" = Some VUndefined /\
   (typed <> "" ->
    reported (ActionFormField.rendered (ActionFormField p)) typed = Some (VNum (parseFloat typed)))).
Proof.
  intros Ht. unfold ActionFormField, isLongText. rewrite Ht.
  split; intros Hin; cbn in Hin;
    repeat (destruct Hin as [<-|Hin]; [|]); try contradiction; cbn;
    (split; [reflexivity|]); (split; [reflexivity|]);
    intros Hne; apply String.eqb_neq in Hne; rewrite Hne; reflexivity.
Qed.

Lemma sections_flatten (schema : Schema.ActionSchema) (formData : gmap string value)
    (readOnly showSections : bool) :
  flat_map fields (ActionFormRenderer schema formData readOnly showSections)
  = map (read_only_field formData) (Schema.inputs schema)
    ++ map (editable_field formData readOnly) (Schema.inOuts schema)
    ++ map (editable_field formData readOnly) (Schema.outputs schema).
Proof.
  unfold ActionFormRenderer.
  destruct (Schema.inputs schema) as [|i1 ins];
    destruct (Schema.inOuts schema) as [|io1 ios];
    destruct (Schema.outputs schema) as [|o1 os]; cbn; rewrite ?app_nil_r; reflexivity.
Qed.

Lemma compact_flatten (schema : Schema.ActionSchema) (formData : gmap string value)
    (readOnly : bool) :
  CompactActionForm schema formData readOnly
  = map (read_only_field formData) (Schema.inputs schema)
    ++ map (editable_field formData readOnly) (Schema.inOuts schema)
    ++ map (editable_field formData readOnly) (Schema.outputs schema).
Proof.
  unfold CompactActionForm. rewrite !map_app, !map_map. reflexivity.
Qed.

(** X22: the sectioned form and the compact form render the same fields
    in the same order: the inputs, then the in-outs, then the outputs; a
    section without fields is left out, and without section headers no
    heading is rendered. *)
Theorem compact_form_matches_sections (schema : Schema.ActionSchema)
    (formData : gmap string value) (readOnly showSections : bool) :
  flat_map fields (ActionFormRenderer schema formData readOnly showSections)
  = CompactActionForm schema formData readOnly /\
  Forall (fun s => fields s <> [])
    (ActionFormRenderer schema formData readOnly showSections) /\
  (showSections = false ->
   Forall (fun s => heading s = None)
     (ActionFormRenderer schema formData readOnly showSections)).
Proof.
  split; [rewrite sections_flatten, compact_flatten; reflexivity|].
  unfold ActionFormRenderer.
  destruct (Schema.inputs schema) as [|i1 ins];
    destruct (Schema.inOuts schema) as [|io1 ios];
    destruct (Schema.outputs schema) as [|o1 os]; cbn;
    (split; [repeat constructor; discriminate|intros ->; repeat constructor]).
Qed.


End FormFacts.

Section FormExamples.
#[local] Existing Instance sample_platform.
Import ActionFormField FormRenderer.

Example loan_form_sections :
  map (fun s => (heading s, length (fields s)))
    (ActionFormRenderer loan_schema loan_data false true)
  = [(Some ("Information", "Data provided by the automation"), 2%nat);
     (Some ("Your Input", "Information required from you"), 1%nat)].
Proof. reflexivity. Qed.

Example loan_form_read_only_fields :
  omap (fun r => match r with ReadOnly v => Some v | _ => None end)
    (CompactActionForm loan_schema loan_data true)
  = [{| ro_label := "Applicant Name"; ro_text := Some "John Doe" |};
     {| ro_label := "Loan Amount"; ro_text := None |}].
Proof. vm_compute. reflexivity. Qed.

Lemma number_field_reports_witness :
  reported (ActionFormField.rendered (ActionFormField amount_field)) "12"
  = Some (VNum (number_of_Z 12)).
Proof.
  destruct (number_field_reports amount_field VB_Int32 "12" eq_refl) as [Hint _].
  destruct Hint as (_ & _ & Htyped); [cbn; auto|].
  rewrite Htyped; [reflexivity|discriminate].
Defined.

Lemma compact_form_matches_sections_witness :
  Forall (fun s => heading s = None) (ActionFormRenderer loan_schema loan_data false false).
Proof.
  apply (compact_form_matches_sections loan_schema loan_data false false). reflexivity.
Defined.

End FormExamples.

(** ** The reviewer tab and the fetch effects of the page *)

Section ReviewerFacts.
Context `{Platform}.
Import ActionSchema ReviewerTab.

Ltac unfold_hook :=
  unfold ActionContext.step, ActionContext.handler, ActionContext.init_effect,
    ActionContext.handleActionCenterMessage,
    ActionContext.completeTask, ActionContext.resetForm,
    ActionContext.when, ActionContext.update, ActionContext.call,
    Eff.exec, Eff.result, Eff.bind, Eff.gets, Eff.modify, Eff.ret,
    Eff.try_catch, ActionContext.on_cells;
  cbn [fst snd ActionContext.cells ActionContext.sdk_log].

(** X24: the form is valid exactly when the remarks contain something
    other than white space: missing remarks are invalid, and so are remarks
    made only of characters that ECMAScript counts as white space or line
    terminators, whether of ASCII (space, tab, line feed, ...) or not
    (no-break space, ideographic space, ...). *)
Theorem remarks_validity (formData : gmap string value) :
  (formData !! "remarks" = None -> isFormValid formData = false) /\
  (forall s : string,
      formData !! "remarks" = Some (VStr s) ->
      (isFormValid formData = true <-> ~ blank s)).
Proof.
  unfold isFormValid, field. split.
  - intros ->. reflexivity.
  - intros s ->. cbn -[JSString.trim String.eqb].
    rewrite <- trim_empty.
    destruct (String.eqb_spec s "") as [->|Hs]; cbn [negb andb].
    + split; [intros Hx; discriminate Hx|]. intros Ht. contradiction Ht. reflexivity.
    + destruct (JSString.trim s) as [|c r].
      * split; [intros Hx; discriminate Hx|]. intros Ht. contradiction Ht. reflexivity.
      * split; [intros _; discriminate|intros _; reflexivity].
Qed.

Lemma hook_log_without_decision (ce : ActionContext.event) (w : ActionContext.world) :
  (forall sdk o, ce <> ActionContext.CallCompleteTask sdk o) ->
  exists l, ActionContext.sdk_log (ActionContext.step w ce)
            = ActionContext.sdk_log w ++ l /\
            Forall (fun c => submission c = None) l.
Proof.
  intros Hce. destruct ce as [sdk|d|sdk f v|sdk d|sdk o|sdk];
    try (exfalso; apply (Hce sdk o); reflexivity); unfold_hook.
  - destruct (ActionContext.isInitializedRef (ActionContext.cells w)); cbn.
    { exists []. split; [symmetry; apply app_nil_r|constructor]. }
    destruct (ActionContext.getTaskDetailsFromActionCenter_throws sdk); cbn.
    { eexists; split; [reflexivity|repeat constructor]. }
    destruct (ActionContext.initializeInActionCenter_throws sdk); cbn;
      rewrite <- app_assoc; eexists; (split; [reflexivity|repeat constructor]).
  - destruct (str_truthy (baseUrl d) && str_truthy (orgName d)
              && str_truthy (tenantName d) && str_truthy (token d));
      destruct (opt_truthy (newToken d));
      destruct (opt_truthy (newTheme d));
      destruct (str_truthy (ActionSchema.theme d));
      destruct (opt_truthy (newLanguage d));
      destruct (str_truthy (ActionSchema.language d));
      destruct (data d); cbn; rewrite <- ?app_assoc;
      first [ eexists; split; [reflexivity|repeat constructor]
            | exists []; split; [symmetry; apply app_nil_r|constructor] ].
  - rewrite updateField_run. cbn [snd ActionContext.sdk_log]. eexists.
    split; [reflexivity|]. apply Forall_repeat_same. reflexivity.
  - rewrite updateFormData_run. cbn [snd ActionContext.sdk_log]. eexists.
    split; [reflexivity|]. apply Forall_repeat_same. reflexivity.
  - destruct (ActionContext.dataChanged_throws sdk); cbn; eexists;
      (split; [reflexivity|repeat constructor]).
Qed.

Lemma hook_log_decision (sdk : ActionContext.taskEvents) (o : string)
    (w : ActionContext.world) :
  exists l, ActionContext.sdk_log (ActionContext.step w (ActionContext.CallCompleteTask sdk o))
            = ActionContext.sdk_log w ++ l /\
            Forall (fun c => submission c
                             = Some (o, ActionContext.formData (ActionContext.cells w))) l.
Proof.
  unfold_hook. destruct (ActionContext.completeTask_throws sdk); cbn;
    rewrite <- ?app_assoc; eexists; (split; [reflexivity|repeat constructor]).
Qed.

Lemma page_step_ctx (p : ActionPage.page) (e : ActionPage.event) :
  ActionPage.ctx (ActionPage.step p e) = ActionPage.ctx p \/
  exists ce, e = ActionPage.Context ce /\
             ActionPage.ctx (ActionPage.step p e)
             = ActionContext.step (ActionPage.ctx p) ce.
Proof.
  destruct e as [ce| | |s r created|]; cbn [ActionPage.step].
  - destruct (ActionPage.mounted p); [|left; reflexivity].
    right. exists ce. split; [reflexivity|].
    apply (commit_frame (ActionPage.set_ctx (ActionContext.step (ActionPage.ctx p) ce) p)).
  - left. destruct (ActionPage.mounted p); [|reflexivity].
    destruct (commit_frame (ActionPage.document_effect p)) as (-> & _).
    apply document_effect_frame.
  - left. destruct (ActionPage.mounted p); [|reflexivity].
    destruct (commit_frame (ActionPage.entity_effect p)) as (-> & _).
    apply entity_effect_frame.
  - left. destruct (ActionPage.take_pending s (ActionPage.pending p)) as [[path rest]|];
      [|reflexivity].
    destruct (commit_frame (ActionPage.fetchDocument_resume s path r created
                              (ActionPage.set_pending rest p))) as (-> & _).
    apply (fetchDocument_resume_frame s path r created (ActionPage.set_pending rest p)).
  - left. unfold ActionPage.unmount. destruct (ActionPage.mounted p); reflexivity.
Qed.

Lemma enact_decision (p : ActionPage.page) (a : action) (sdk : ActionContext.taskEvents)
    (o : string) :
  enact p a = Some (ActionPage.Context (ActionContext.CallCompleteTask sdk o)) ->
  (o = "Approve" \/ o = "Reject") /\
  isFormValid (ActionContext.formData (ActionContext.cells (ActionPage.ctx p))) = true.
Proof.
  destruct a as [sdk' text|sdk' i|e]; unfold enact.
  - match goal with |- context [ActionFormField.rendered ?v] =>
      destruct (ActionFormField.rendered v) as [? ? ? ?|? ? ? [] ? ?|? ? ? ? [] ? ?] end;
      discriminate.
  - unfold reviewer_tab. cbn [verdict ActionContext.r_formData ActionContext.r_isReadOnly
                               ActionContext.useActionContext_result].
    destruct (negb _); [|discriminate]. cbn [buttons].
    destruct (isFormValid (ActionContext.formData (ActionContext.cells (ActionPage.ctx p))))
      eqn:Hv; unfold OutcomeButtons.OutcomeButtons; cbn.
    + destruct i as [|[|i]]; cbn; intros [= <- <-]; auto.
    + destruct i as [|[|i]]; cbn; discriminate.
  - destruct (is_hook_call e) eqn:He; [discriminate|].
    intros [= ->]. discriminate He.
Qed.

(** X25: whatever the reviewer and the surroundings do, every decision
    the page hands to the host (or shows in the preview alert) is "Approve"
    or "Reject" and carries form data with valid remarks. *)
Theorem decisions_need_remarks (actions : list action) :
  Forall sound_submission
    (ActionContext.sdk_log (ActionPage.ctx (review actions))).
Proof.
  unfold review. induction actions as [|a actions IH] using rev_ind; [constructor|].
  rewrite fold_left_app. cbn [fold_left].
  set (p := fold_left act actions ActionPage.initial) in *.
  unfold act. destruct (enact p a) as [e|] eqn:Hen; [|exact IH].
  destruct (page_step_ctx p e) as [->|(ce & -> & ->)]; [exact IH|].
  assert (Hdec : (exists sdk o, ce = ActionContext.CallCompleteTask sdk o) \/
                 (forall sdk o, ce <> ActionContext.CallCompleteTask sdk o)).
  { destruct ce; try (right; intros ? ?; discriminate). left. eauto. }
  destruct Hdec as [(sdk & o & ->)|Hother].
  - destruct (enact_decision p a sdk o Hen) as [Ho Hvalid].
    destruct (hook_log_decision sdk o (ActionPage.ctx p)) as (l & -> & Hl).
    apply Forall_app. split; [exact IH|].
    eapply Forall_impl; [exact Hl|]. intros c Hc. unfold sound_submission.
    rewrite Hc. split; assumption.
  - destruct (hook_log_without_decision ce (ActionPage.ctx p) Hother) as (l & -> & Hl).
    apply Forall_app. split; [exact IH|].
    eapply Forall_impl; [exact Hl|]. intros c Hc. unfold sound_submission.
    rewrite Hc. exact I.
Qed.

(** X26: on a read-only task typing into the remarks field and clicking a
    decision button change nothing, and with invalid remarks clicking a
    decision button changes nothing. *)
Theorem locked_page_is_inert (p : ActionPage.page) (sdk : ActionContext.taskEvents)
    (text : string) (i : nat) :
  let r := ActionContext.useActionContext_result (ActionContext.cells (ActionPage.ctx p)) in
  (ActionContext.r_isReadOnly r = true ->
   act p (TypeRemarks sdk text) = p /\ act p (ClickDecision sdk i) = p) /\
  (isFormValid (ActionContext.r_formData r) = false ->
   act p (ClickDecision sdk i) = p).
Proof.
  cbn zeta. unfold act, enact, reviewer_tab. split.
  - intros ->. cbn. split; reflexivity.
  - intros Hv. cbn [verdict]. destruct (negb _); [|reflexivity].
    cbn [buttons]. rewrite Hv. unfold OutcomeButtons.OutcomeButtons. cbn.
    destruct i as [|[|i]]; reflexivity.
Qed.

End ReviewerFacts.

Section ReviewerExamples.
#[local] Existing Instance sample_platform.
Import ActionSchema ReviewerTab.

Example hasty_review_decisions :
  omap (fun c => fst <$> submission c)
    (ActionContext.sdk_log (ActionPage.ctx (review hasty_review)))
  = ["Reject"; "Reject"] /\
  isFormValid (ActionPage.formData (review hasty_review)) = true.
Proof. split; vm_compute; reflexivity. Qed.

Lemma remarks_validity_witness :
  isFormValid (ActionPage.formData (review hasty_review)) = true /\
  isFormValid task_data = false.
Proof.
  destruct (remarks_validity (ActionPage.formData (review hasty_review))) as [_ Hset].
  destruct (remarks_validity task_data) as [Hmissing _].
  split.
  - apply (Hset "page 2 is missing").
    + vm_compute. reflexivity.
    + intros Hblank. apply trim_empty in Hblank. vm_compute in Hblank.
      discriminate Hblank.
  - apply Hmissing. vm_compute. reflexivity.
Defined.

(** Remarks of an ideographic space and a no-break space are blank. *)
Example wide_blank_remarks :
  isFormValid {[ "remarks" := VStr (JSString.utf8 0x3000 ++ JSString.utf8 0xA0) ]} = false /\
  isFormValid {[ "remarks" := VStr (JSString.utf8 0x3000 ++ "ok") ]} = true.
Proof. split; vm_compute; reflexivity. Qed.

Lemma locked_page_is_inert_witness :
  act ActionPage.initial (ClickDecision sdk_ok 0) = ActionPage.initial.
Proof.
  destruct (locked_page_is_inert ActionPage.initial sdk_ok "" 0) as [_ Hinvalid].
  apply Hinvalid. vm_compute. reflexivity.
Defined.

End ReviewerExamples.

Section PageEffectFacts.
Context `{Platform}.
Import ActionSchema ActionPage.

Lemma fetchDocument_calls (path : value) (s : slot) (p : page) :
  let p' := fetchDocument path s p in
  ctx p' = ctx p /\ calls p' = calls p ++ [fetch_call p path] /\
  pending p' = pending p ++ [(s, path)].
Proof.
  destruct p as [c d1 d2 d3 pe ca m cl].
  unfold fetchDocument, fetch_call, setDoc, record_call, record_calls, set_pending, formData.
  cbn. destruct m; cbn; repeat split.
Qed.

(** X27: once the host data is there and names a bucket and a folder, the
    document effect calls [fetchFileContent] once for each of [path1],
    [path2], [path3] that is set, in that order, always for that bucket and
    folder with an expiry of 60 minutes, and nothing else; these are the
    paths the page counts in its "Documents" badge.  Without a bucket or
    without a folder it makes no call at all. *)
Theorem document_effect_fetches (p : page) :
  (hasActionCenterData p = true ->
   JS.truthy (field (formData p) "bucketId") = true ->
   JS.truthy (field (formData p) "folderId") = true ->
   calls (document_effect p)
   = calls p ++ map (fetch_call p) (ReviewerTab.documentPaths (formData p)) /\
   map snd (pending (document_effect p))
   = map snd (pending p) ++ ReviewerTab.documentPaths (formData p)) /\
  (JS.truthy (field (formData p) "bucketId") = false \/
   JS.truthy (field (formData p) "folderId") = false ->
   document_effect p = p).
Proof.
  split.
  - intros Hf Hb Hfo. unfold document_effect. rewrite Hf, Hb, Hfo. cbn [negb orb].
    unfold ReviewerTab.documentPaths. cbn [List.filter].
    set (fd := formData p).
    set (p1 := if JS.truthy (field fd "path1")
               then fetchDocument (field fd "path1") Doc1 p else p).
    set (p2 := if JS.truthy (field fd "path2")
               then fetchDocument (field fd "path2") Doc2 p1 else p1).
    set (p3 := if JS.truthy (field fd "path3")
               then fetchDocument (field fd "path3") Doc3 p2 else p2).
    assert (H1 : ctx p1 = ctx p /\
                 calls p1 = calls p ++ (if JS.truthy (field fd "path1")
                                        then [fetch_call p (field fd "path1")] else []) /\
                 map snd (pending p1)
                 = map snd (pending p) ++ (if JS.truthy (field fd "path1")
                                           then [field fd "path1"] else [])).
    { subst p1. destruct (JS.truthy (field fd "path1")).
      - destruct (fetchDocument_calls (field fd "path1") Doc1 p) as (A & B & C).
        cbn zeta in *. rewrite A, B, C, map_app. repeat split.
      - rewrite !app_nil_r. repeat split. }
    assert (H2 : ctx p2 = ctx p /\
                 calls p2 = calls p1 ++ (if JS.truthy (field fd "path2")
                                         then [fetch_call p (field fd "path2")] else []) /\
                 map snd (pending p2)
                 = map snd (pending p1) ++ (if JS.truthy (field fd "path2")
                                            then [field fd "path2"] else [])).
    { destruct H1 as (A1 & _ & _). subst p2. destruct (JS.truthy (field fd "path2")).
      - destruct (fetchDocument_calls (field fd "path2") Doc2 p1) as (A & B & C).
        cbn zeta in *. rewrite A, B, C, map_app. unfold fetch_call, formData.
        rewrite A1. repeat split.
      - rewrite !app_nil_r. repeat split. exact A1. }
    assert (H3 : calls p3 = calls p2 ++ (if JS.truthy (field fd "path3")
                                         then [fetch_call p (field fd "path3")] else []) /\
                 map snd (pending p3)
                 = map snd (pending p2) ++ (if JS.truthy (field fd "path3")
                                            then [field fd "path3"] else [])).
    { destruct H2 as (A2 & _ & _). subst p3. destruct (JS.truthy (field fd "path3")).
      - destruct (fetchDocument_calls (field fd "path3") Doc3 p2) as (A & B & C).
        cbn zeta in *. rewrite B, C, map_app. unfold fetch_call, formData.
        rewrite A2. repeat split.
      - rewrite !app_nil_r. repeat split. }
    destruct H1 as (_ & C1 & P1), H2 as (_ & C2 & P2), H3 as (C3 & P3).
    rewrite C3, C2, C1, P3, P2, P1.
    destruct (JS.truthy (field fd "path1")), (JS.truthy (field fd "path2")),
      (JS.truthy (field fd "path3")); cbn; rewrite <- ?app_assoc, ?app_nil_r;
      split; reflexivity.
  - intros Hmiss. unfold document_effect.
    destruct Hmiss as [-> | ->]; cbn [negb orb]; rewrite ?orb_true_r; reflexivity.
Qed.

(** The entity effect calls [fetchByName] exactly when the host data
    is there and names an entity, and then once, for that entity, with a
    page size of 50 and expansion level 1. *)
Lemma entity_effect_fetches (p : page) :
  calls (entity_effect p)
  = calls p ++ (if hasActionCenterData p && JS.truthy (field (formData p) "entityName")
                then [FetchByName (field (formData p) "entityName") 50 1] else []) /\
  ctx (entity_effect p) = ctx p /\ pending (entity_effect p) = pending p /\
  doc_urls (entity_effect p) = doc_urls p.
Proof.
  unfold entity_effect.
  destruct (hasActionCenterData p), (JS.truthy (field (formData p) "entityName"));
    cbn; rewrite ?app_nil_r; repeat split.
Qed.

(** X28: a settled fetch touches only the document of its own slot and
    always ends that slot's loading; the slot gets a new url only from a
    blob, and then shows no error; a fetch that returned null keeps the old
    url and reports "Failed to fetch document". *)
Theorem settlement_is_per_slot (s : slot) (path : value) (r : outcome (option Blob))
    (created : string) (p : page) :
  mounted p = true ->
  let p' := fetchDocument_resume s path r created p in
  loading (doc s p') = false /\
  (forall s', s' <> s -> doc s' p' = doc s' p) /\
  (url (doc s p') = url (doc s p) \/
   url (doc s p') = Some created /\ error (doc s p') = None /\
   exists blob, r = Returned (Some blob)) /\
  (r = Returned None ->
   url (doc s p') = url (doc s p) /\
   error (doc s p') = Some "Failed to fetch document").
Proof.
  destruct p as [c d1 d2 d3 pe ca m cl]. cbn [mounted]. intros ->. cbn zeta.
  unfold fetchDocument_resume.
  destruct r as [[blob|]|err];
    [destruct (Formatters.content_type_of_mime (Some (blob_type blob)));
     [|destruct path]|..];
    unfold setDoc, record_call, record_calls, doc; cbn;
    destruct s; cbn;
    (split; [reflexivity|]);
    (split; [intros [] Hne; try reflexivity; contradiction Hne; reflexivity|]);
    (split; [first [left; reflexivity|right; eauto]|]);
    intros Hr; try discriminate Hr; split; reflexivity.
Qed.

End PageEffectFacts.

Section PageEffectExamples.
#[local] Existing Instance sample_platform.
Import ActionSchema ActionPage.

Lemma document_effect_fetches_witness :
  let p := run [Context (ActionContext.HostMessage (host_message (Some task_data)))] in
  calls (document_effect p)
  = [FetchFileContent (VNum (number_of_Z 11)) (VNum (number_of_Z 22)) (VStr "/in/scan.pdf") 60;
     FetchFileContent (VNum (number_of_Z 11)) (VNum (number_of_Z 22)) (VStr "/in/photo") 60] /\
  document_effect
    (run [Context (ActionContext.HostMessage (host_message (Some invoices)))])
  = run [Context (ActionContext.HostMessage (host_message (Some invoices)))].
Proof.
  cbn zeta.
  destruct (document_effect_fetches
              (run [Context (ActionContext.HostMessage (host_message (Some task_data)))]))
    as [Hfetch _].
  destruct (document_effect_fetches
              (run [Context (ActionContext.HostMessage (host_message (Some invoices)))]))
    as [_ Hskip].
  split.
  - destruct Hfetch as [Hcalls _]; [vm_compute; reflexivity..|].
    rewrite Hcalls. vm_compute. reflexivity.
  - apply Hskip. left. vm_compute. reflexivity.
Defined.

Lemma settlement_is_per_slot_witness :
  let p := fetchDocument_resume Doc2 (VStr "/in/photo") (Returned None) "" initial in
  doc Doc3 p = doc Doc3 initial /\ loading (doc Doc2 p) = false /\
  error (doc Doc2 p) = Some "Failed to fetch document".
Proof.
  cbn zeta.
  destruct (settlement_is_per_slot Doc2 (VStr "/in/photo") (Returned None) "" initial
              eq_refl) as (Hload & Hother & _ & Hnull).
  split; [apply Hother; discriminate|]. split; [exact Hload|].
  apply Hnull. reflexivity.
Defined.

End PageEffectExamples.

Section PDFViewerMoreExamples.
Import PDFViewer.

Lemma repeated_navigation_witness :
  pageNumber (fold_left step (clicks pdf_props ClickNext 7) on_page_two) = 5%Z /\
  pageNumber (fold_left step (clicks pdf_props ClickPrev 7) on_page_two) = 1%Z.
Proof.
  assert (Hb : browsable pdf_props on_page_two)
    by (unfold browsable; cbn; repeat split; lia).
  destruct (repeated_navigation pdf_props on_page_two 7 Hb) as (Hnext & Hprev & _).
  split; [rewrite Hnext|rewrite Hprev]; reflexivity.
Defined.

Lemma navigation_round_trip_witness :
  step (step on_page_two (pdf_props, ClickNext)) (pdf_props, ClickPrev) = on_page_two.
Proof.
  assert (Hb : browsable pdf_props on_page_two)
    by (unfold browsable; cbn; repeat split; lia).
  destruct (navigation_round_trip pdf_props on_page_two Hb) as [Hback _].
  apply Hback. cbn. lia.
Defined.

End PDFViewerMoreExamples.
